(** * doc-transcribe: the speech-to-text REST service of [main.py]

    A shallow embedding of [main.py] (FastAPI + faster-whisper) and the
    properties of its request handling contract.

    Conventions of the embedding.
    - A Python [str] is a [string]; a character stands for the Unicode code
      point of the same number, so the development covers the strings whose
      code points are below 256.  [str.lower] and [str.isspace] are written
      out for exactly that range.
    - A Python [bytes] is a [list byte].
    - A Python [float] is an IEEE-754 binary64 value ([spec_float] at
      precision 53).
    - A Python [set] of strings is the list of its elements; the order in
      which the process iterates over it is an answer of the environment.
    - The system is a POSIX one and [tempfile.gettempdir()] is [/tmp].
    - Effects (the module global [model], the file system, the log, the
      frame's local variables) are threaded explicitly; a computation ends
      in a value or in a raised exception. *)

From Stdlib Require Import ZArith Ascii String List.
From Stdlib Require Import Strings.Byte.
From Stdlib Require Import Floats.SpecFloat.
From stdpp Require Import base decidable option list strings pretty gmap.

Local Open Scope string_scope.
Local Open Scope Z_scope.

(** ** Python strings *)

Module PyStr.

Definition ord (c : ascii) : Z := Z.of_N (N_of_ascii c).
Definition chr (n : Z) : ascii := ascii_of_N (Z.to_N n).

(** [str.lower] on one code point below 256: the ASCII capitals and the
    Latin-1 capitals U+00C0..U+00DE (without the multiplication sign
    U+00D7) move up by 32; every other code point is its own lowercase. *)
Definition lower_char (c : ascii) : ascii :=
  let n := ord c in
  if ((65 <=? n) && (n <=? 90)) || ((192 <=? n) && (n <=? 222) && negb (n =? 215))
  then chr (n + 32) else c.

Fixpoint lower (s : string) : string :=
  match s with
  | EmptyString => EmptyString
  | String c r => String (lower_char c) (lower r)
  end.

(** [str.isspace] on one code point below 256. *)
Definition isspace (c : ascii) : bool :=
  let n := ord c in
  ((9 <=? n) && (n <=? 13)) || ((28 <=? n) && (n <=? 32)) || (n =? 133) || (n =? 160).

Fixpoint lstrip (s : string) : string :=
  match s with
  | EmptyString => EmptyString
  | String c r => if isspace c then lstrip r else s
  end.

(** [rstrip] keeps a character when it is not white space or when
    something remains after it. *)
Fixpoint rstrip (s : string) : string :=
  match s with
  | EmptyString => EmptyString
  | String c r =>
      match rstrip r with
      | EmptyString => if isspace c then EmptyString else String c EmptyString
      | r' => String c r'
      end
  end.

(** [s.strip()] *)
Definition strip (s : string) : string := rstrip (lstrip s).

(** [sep.join(l)] *)
Definition join (sep : string) (l : list string) : string := String.concat sep l.

(** [s.rfind(c)]: the index of the last occurrence of [c], or -1. *)
Fixpoint rfind (c : ascii) (s : string) : Z :=
  match s with
  | EmptyString => -1
  | String d r =>
      let i := rfind c r in
      if 0 <=? i then i + 1
      else if Ascii.eqb d c then 0 else -1
  end.

Definition len (s : string) : Z := Z.of_nat (String.length s).

(** [s[i:]] for [0 <= i]. *)
Definition slice_from (i : Z) (s : string) : string :=
  String.substring (Z.to_nat i) (String.length s - Z.to_nat i) s.

(** [s.split(c)] for a one-character separator: never empty, and an empty
    field between two adjacent separators. *)
Fixpoint split (c : ascii) (s : string) : list string :=
  match s with
  | EmptyString => [EmptyString]
  | String d r =>
      if Ascii.eqb d c then EmptyString :: split c r
      else match split c r with
           | [] => [String d EmptyString]
           | f :: fs => String d f :: fs
           end
  end.

(** [x in container] for a container of strings. *)
Definition mem (x : string) (l : list string) : bool :=
  existsb (String.eqb x) l.

End PyStr.

(** ** [pathlib] on a POSIX system: the two properties the handler reads *)

Module Path.

(** The parsed tail of a path: the fields between slashes, without the
    empty ones and without ["."] (the root, which only consists of leading
    slashes, contributes empty fields). *)
Definition tail (path : string) : list string :=
  List.filter (fun x => negb (String.eqb x "") && negb (String.eqb x "."))
         (PyStr.split "/" path).

(** [Path(p).name]: the last component, [''] when there is none. *)
Definition name (path : string) : string := List.last (tail path) "".

(** [Path(p).suffix], as [pathlib] defines it in CPython 3.8 to 3.13:
    [i = name.rfind('.'); name[i:] if 0 < i < len(name) - 1 else '']. *)
Definition suffix (path : string) : string :=
  let nm := name path in
  let i := PyStr.rfind "." nm in
  if (0 <? i) && (i <? PyStr.len nm - 1) then PyStr.slice_from i nm else "".

End Path.

(** ** Python floats: IEEE-754 binary64 *)

Module PyFloat.

Definition prec : Z := 53.
Definition emax : Z := 1024.
(** The exponent of the smallest positive value, [2^-1074]. *)
Definition emin : Z := 3 - emax - prec.

(** [n / d] rounded to the nearest integer, a tie going to the even
    neighbour, for [0 <= n] and [0 < d]. *)
Definition div_half_even (n d : Z) : Z :=
  let q := n / d in
  match (2 * (n mod d)) ?= d with
  | Lt => q
  | Gt => q + 1
  | Eq => if Z.even q then q else q + 1
  end.

(** [n / (d * 2^e)] as a fraction of two integers. *)
Definition in_units (n d e : Z) : Z * Z :=
  if 0 <=? e then (n, d * 2 ^ e) else (n * 2 ^ (- e), d).

(** The binary64 value nearest to [(-1)^s * n / d] (ties to even), for
    [0 <= n] and [0 < d]: what reading the decimal numeral [n / 10^j] gives
    when [d = 10^j], and what the true division of two integers gives.
    The bit lengths of [n] and [d] give an exponent [e0], not below the
    smallest one, at which the quotient has 53 or 54 bits (fewer at the
    smallest exponent); [t] is 1 when it has 54; the quotient in units of
    [2^(e0 + t)] is rounded to the integer mantissa; a mantissa rounded up to
    [2^53] is [2^52] one exponent higher; past the largest exponent the value
    is an infinity, and a mantissa of 0 is a zero. *)
Definition of_ratio (s : bool) (n d : Z) : spec_float :=
  let e0 := Z.max (Z.log2 n - Z.log2 d - prec) emin in
  let '(a, c) := in_units n d e0 in
  let t := Z.max (Z.log2 (a / c) + 1 - prec) 0 in
  let m := div_half_even a (c * 2 ^ t) in
  let '(m, e) := if m =? 2 ^ prec then (2 ^ (prec - 1), e0 + t + 1) else (m, e0 + t) in
  match m with
  | Z.pos p => if e <=? emax - prec then S754_finite s p e else S754_infinity s
  | _ => S754_zero s
  end.

(** The integer nearest to [100 * m * 2^e], ties to even: the digits that
    the correctly rounded conversion to two decimal places produces. *)
Definition hundredths (m : positive) (e : Z) : Z :=
  if 0 <=? e then 100 * Z.pos m * 2 ^ e
  else div_half_even (100 * Z.pos m) (2 ^ (- e)).

(** [round(x, 2)]: infinities, NaN and zeros round to themselves; a finite
    value is converted to the decimal string with two places that is
    nearest to it and that string is read back. *)
Definition round2 (x : spec_float) : spec_float :=
  match x with
  | S754_finite s m e => of_ratio s (hundredths m e) 100
  | _ => x
  end.

Definition isfinite (x : spec_float) : bool :=
  match x with
  | S754_zero _ | S754_finite _ _ _ => true
  | _ => false
  end.

End PyFloat.

(** ** Exceptions and outcomes *)

(** The exceptions of class [Exception] that the program meets:
    [fastapi.HTTPException] and any other one, kept as its class name and
    the text [str(e)] gives. *)
Inductive exn :=
| HTTPException (status_code : Z) (detail : string)
| PyErr (cls : string) (msg : string).

(** [str(e)] *)
Definition str_exn (e : exn) : string :=
  match e with
  | HTTPException c d => pretty c ++ ": " ++ d
  | PyErr _ m => m
  end.

Definition NameError (name : string) : exn :=
  PyErr "NameError" ("name '" ++ name ++ "' is not defined").
(** The text is the one of CPython 3.11 and later. *)
Definition UnboundLocalError (name : string) : exn :=
  PyErr "UnboundLocalError"
        ("cannot access local variable '" ++ name ++ "' where it is not associated with a value").
Definition AttributeError_None (attr : string) : exn :=
  PyErr "AttributeError" ("'NoneType' object has no attribute '" ++ attr ++ "'").
Definition FileNotFoundError (path : string) : exn :=
  PyErr "FileNotFoundError" ("[Errno 2] No such file or directory: '" ++ path ++ "'").
Definition FileExistsError_tmp : exn :=
  PyErr "FileExistsError" "[Errno 17] No usable temporary file name found".

Inductive outcome (A : Type) :=
| Return (a : A)
| Raise (e : exn).
Arguments Return {A} a.
Arguments Raise {A} e.

(** ** Computations: a state and an exception *)

Section Monad.
Context {S : Type}.

Definition M (A : Type) : Type := S -> outcome A * S.

Definition ret {A} (a : A) : M A := fun s => (Return a, s).
Definition raise {A} (e : exn) : M A := fun s => (Raise e, s).
Definition bind {A B} (c : M A) (k : A -> M B) : M B :=
  fun s => match c s with
           | (Return a, s') => k a s'
           | (Raise e, s') => (Raise e, s')
           end.
Definition get : M S := fun s => (Return s, s).
Definition modify (f : S -> S) : M unit := fun s => (Return tt, f s).
Definition lift {A} (o : outcome A) : M A := fun s => (o, s).

(** [try: body  except Exception as e: handler(e)] *)
Definition try_except {A} (body : M A) (handler : exn -> M A) : M A :=
  fun s => match body s with
           | (Return a, s') => (Return a, s')
           | (Raise e, s') => handler e s'
           end.

(** [try: body  finally: fin]: [fin] runs on every exit of [body]; when it
    raises, its exception replaces the pending result. *)
Definition try_finally {A} (body : M A) (fin : M unit) : M A :=
  fun s => match body s with
           | (r, s') =>
               match fin s' with
               | (Return _, s'') => (r, s'')
               | (Raise e, s'') => (Raise e, s'')
               end
           end.
End Monad.

Notation "x <- c ;; k" := (bind c (fun x => k))
  (at level 100, c at next level, right associativity).
Notation "c ;; k" := (bind c (fun _ => k))
  (at level 100, right associativity).

(** ** Configuration *)

Definition MAX_FILE_SIZE : Z := 100 * 1024 * 1024.
(** The elements of the set.  Membership reads this list; iterating over
    the set goes through [iterate_set], in the order of the process. *)
Definition ALLOWED_EXTENSIONS : list string :=
  [".wav"; ".mp3"; ".m4a"; ".flac"; ".ogg"; ".webm"].
Definition MODEL_SIZE : string := "large-v3".

(** Iterating over a set of strings yields each element once, in an order
    that depends on the hashes of the strings, which are salted per process.
    [order] is the order the process has; any list that is not an
    arrangement of the elements stands for the order of [elems]. *)
Definition iterate_set (order elems : list string) : list string :=
  if decide (order ≡ₚ elems) then order else elems.

(** ** The collaborators: faster-whisper, the file system, the log *)

Record Segment := { text : string }.

(** The lazy sequence [model.transcribe] returns: it yields segments one at
    a time and may raise while it is consumed. *)
Inductive segment_stream :=
| SegStop
| SegYield (s : Segment) (rest : segment_stream)
| SegFail (e : exn).

Record TranscriptionInfo := { language : string; duration : spec_float }.

(** A loaded engine.  [transcribe fs audio beam_size vad_filter
    min_silence_duration_ms] reads the file [audio] of the file system [fs]. *)
Record WhisperModel := {
  transcribe : gmap string (list byte) -> string -> Z -> bool -> Z ->
               outcome (segment_stream * TranscriptionInfo)
}.

Inductive log_record :=
| INFO (msg : string)
| WARNING (msg : string)
| ERROR (msg : string).

(** The process: the module global [model], the files of the scratch
    directory with their content, and what was logged (oldest first). *)
Record world := {
  model : option WhisperModel;
  files : gmap string (list byte);
  log : list log_record
}.

Definition set_model (m : option WhisperModel) (w : world) : world :=
  {| model := m; files := files w; log := log w |}.
Definition set_files (f : gmap string (list byte)) (w : world) : world :=
  {| model := model w; files := f; log := log w |}.
Definition add_log (r : log_record) (w : world) : world :=
  {| model := model w; files := files w; log := (log w ++ [r])%list |}.

(** What the machine and the installed libraries answer at start-up:
    the names bound in the module's global namespace or in [builtins] when a
    function of the module runs, the answer of [torch.cuda.is_available()],
    and the result of the constructor
    [WhisperModel(size, device=..., compute_type=..., download_root=...)]. *)
Record host := {
  names : gset string;
  cuda_is_available : bool;
  new_WhisperModel : string -> string -> string -> string -> outcome WhisperModel
}.

(** The names [main.py] binds at module level by its imports, assignments
    and definitions (the dunder names every module has are left out).  None
    of them is [torch], and [builtins] has no such name either. *)
Definition module_namespace : gset string :=
  list_to_set
    ["os"; "logging"; "tempfile"; "Path"; "asynccontextmanager";
     "FastAPI"; "File"; "UploadFile"; "HTTPException"; "JSONResponse";
     "WhisperModel"; "uvicorn"; "logger"; "model";
     "MAX_FILE_SIZE"; "ALLOWED_EXTENSIONS"; "MODEL_SIZE";
     "load_model"; "lifespan"; "app"; "root"; "transcribe_audio"].

(** What lies outside the module and answers during one request.  From the
    operating system: the random names [tempfile] draws, in order, and the
    faults, if any, of creating the scratch file, of reading the upload, of
    writing, of closing and of unlinking; a write, or the flush of a close,
    that fails may have stored the first bytes of the content before, and
    [stored_before_fault] is their number.  From the Python process: the
    order in which it iterates over the set [ALLOWED_EXTENSIONS], and whether
    its [json] encoder appends the refused value to the text of its error
    (the C encoder of CPython 3.11 does not, the encoder written in Python
    does). *)
Record io := {
  tmp_candidates : list string;
  create_fault : option exn;
  read_fault : option exn;
  write_fault : option exn;
  close_fault : option exn;
  unlink_fault : option exn;
  stored_before_fault : nat;
  set_order : list string;
  json_names_value : bool
}.

(** The upload: [file.filename], a [str] whenever the framework calls the
    handler, and the bytes of [file.file]. *)
Record UploadFile := { filename : string; data : list byte }.

Record TemporaryFile := { tf_name : string }.

(** The local variables of one call of [transcribe_audio] that outlive the
    statement binding them, and the position of [file.file].  A local that no
    assignment has reached yet is unbound ([None] in [temp_path]);
    [temp_file] starts as Python's [None]. *)
Record frame := {
  file_pos : Z;
  temp_file : option TemporaryFile;
  temp_path : option string
}.

(** ** Primitive operations *)

Abbreviation Proc := (M (S := world)).
Abbreviation Handler := (M (S := world * frame)).

(** A computation on the process seen from inside a handler's frame. *)
Definition in_world {A} (c : Proc A) : Handler A :=
  fun s => match c (fst s) with (r, w') => (r, (w', snd s)) end.
Definition on_frame (f : frame -> frame) : Handler unit :=
  modify (fun s => (fst s, f (snd s))).

Definition logger_info (msg : string) : Proc unit := modify (add_log (INFO msg)).
Definition logger_warning (msg : string) : Proc unit := modify (add_log (WARNING msg)).
Definition logger_error (msg : string) : Proc unit := modify (add_log (ERROR msg)).

(** [s.upper()] for a string of ASCII letters (the two device names). *)
Definition upper_ascii_char (c : ascii) : ascii :=
  let n := PyStr.ord c in
  if (97 <=? n) && (n <=? 122) then PyStr.chr (n - 32) else c.
Fixpoint upper_ascii (s : string) : string :=
  match s with
  | EmptyString => EmptyString
  | String c r => String (upper_ascii_char c) (upper_ascii r)
  end.

(** [torch.cuda.is_available()]: the name [torch] is looked up in the
    module's globals and in [builtins] first. *)
Definition torch_cuda_is_available (h : host) : Proc bool :=
  if decide ("torch" ∈ names h) then ret (cuda_is_available h)
  else raise (NameError "torch").

(** *** [tempfile] *)

(** The candidate path for a drawn name: [tempfile.gettempdir()], taken to
    be [/tmp], then the prefix ["tmp"], the random part and the suffix. *)
Definition tmp_name (rnd suffix : string) : string := "/tmp/tmp" ++ rnd ++ suffix.

(** The first drawn name that no existing file has (the file is opened with
    [O_CREAT | O_EXCL], and an existing name makes the loop draw again). *)
Fixpoint first_free (fs : gmap string (list byte)) (suffix : string)
    (cands : list string) : option string :=
  match cands with
  | [] => None
  | r :: rest =>
      let p := tmp_name r suffix in
      if bool_decide (is_Some (fs !! p)) then first_free fs suffix rest else Some p
  end.

(** [tempfile.NamedTemporaryFile(delete=False, suffix=suffix)]: on success an
    empty file exists under the returned name. *)
Definition NamedTemporaryFile (i : io) (suffix : string) : Proc TemporaryFile :=
  match create_fault i with
  | Some e => raise e
  | None =>
      w <- get ;;
      match first_free (files w) suffix (tmp_candidates i) with
      | None => raise FileExistsError_tmp
      | Some p => modify (set_files (<[p := []]> (files w))) ;; ret {| tf_name := p |}
      end
  end.

(** [temp_file.write(content)] appends the content to the file.  A write
    that fails has stored a prefix of the content, possibly nothing. *)
Definition tf_write (i : io) (tf : TemporaryFile) (content : list byte) : Proc unit :=
  match write_fault i with
  | Some e =>
      modify (fun w => set_files (alter (fun old => (old ++ take (stored_before_fault i) content)%list)
                                        (tf_name tf) (files w)) w) ;;
      raise e
  | None => modify (fun w => set_files (alter (fun old => (old ++ content)%list) (tf_name tf) (files w)) w)
  end.

(** Leaving the [with] block closes the file, which flushes what the write
    left in the buffer; [delete=False] keeps the file.  A flush that fails
    leaves a prefix of the content in the file. *)
Definition tf_close (i : io) (tf : TemporaryFile) : Proc unit :=
  match close_fault i with
  | Some e =>
      modify (fun w => set_files (alter (take (stored_before_fault i)) (tf_name tf) (files w)) w) ;;
      raise e
  | None => ret tt
  end.

(** *** [os] *)

Definition os_path_exists (p : string) : Proc bool :=
  w <- get ;; ret (bool_decide (is_Some (files w !! p))).

Definition os_unlink (i : io) (p : string) : Proc unit :=
  match unlink_fault i with
  | Some e => raise e
  | None =>
      w <- get ;;
      if bool_decide (is_Some (files w !! p))
      then modify (set_files (delete p (files w)))
      else raise (FileNotFoundError p)
  end.

(** *** The uploaded file object *)

Definition SEEK_SET : Z := 0.
Definition SEEK_END : Z := 2.

(** [file.file.seek(offset, whence)] for the two uses of the handler. *)
Definition file_seek (file : UploadFile) (offset whence : Z) : Handler unit :=
  on_frame (fun f =>
    {| file_pos := (if whence =? SEEK_END then Z.of_nat (length (data file)) else 0) + offset;
       temp_file := temp_file f; temp_path := temp_path f |}).

Definition file_tell : Handler Z := s <- get ;; ret (file_pos (snd s)).

(** [await file.read()]: everything from the current position on. *)
Definition file_read (i : io) (file : UploadFile) : Handler (list byte) :=
  match read_fault i with
  | Some e => raise e
  | None =>
      s <- get ;;
      on_frame (fun f => {| file_pos := Z.max (file_pos f) (Z.of_nat (length (data file)));
                            temp_file := temp_file f; temp_path := temp_path f |}) ;;
      ret (drop (Z.to_nat (file_pos (snd s))) (data file))
  end.

(** *** Local variables *)

Definition set_temp_file (v : option TemporaryFile) : Handler unit :=
  on_frame (fun f => {| file_pos := file_pos f; temp_file := v; temp_path := temp_path f |}).
Definition set_temp_path (v : string) : Handler unit :=
  on_frame (fun f => {| file_pos := file_pos f; temp_file := temp_file f; temp_path := Some v |}).
Definition get_temp_file : Handler (option TemporaryFile) :=
  s <- get ;; ret (temp_file (snd s)).
(** Reading a local that is still unbound raises [UnboundLocalError]. *)
Definition get_temp_path : Handler string :=
  s <- get ;;
  match temp_path (snd s) with
  | Some p => ret p
  | None => raise (UnboundLocalError "temp_path")
  end.

(** *** faster-whisper *)

(** [model.transcribe(audio, beam_size=..., vad_filter=...,
    vad_parameters=dict(min_silence_duration_ms=...))] on the module global
    [model]. *)
Definition model_transcribe (audio : string) (beam_size : Z) (vad_filter : bool)
    (min_silence_duration_ms : Z) : Proc (segment_stream * TranscriptionInfo) :=
  w <- get ;;
  match model w with
  | None => raise (AttributeError_None "transcribe")
  | Some m => lift (transcribe m (files w) audio beam_size vad_filter min_silence_duration_ms)
  end.

(** [[segment.text for segment in segments]] *)
Fixpoint segment_texts (g : segment_stream) : outcome (list string) :=
  match g with
  | SegStop => Return []
  | SegYield s rest =>
      match segment_texts rest with
      | Return l => Return (text s :: l)
      | Raise e => Raise e
      end
  | SegFail e => Raise e
  end.

(** ** The program *)

(** ["cuda" if torch.cuda.is_available() else "cpu"], once the call has
    answered, and ["float16" if device == "cuda" else "int8"]. *)
Definition select_device (avail : bool) : string :=
  if avail then "cuda" else "cpu".
Definition select_compute_type (device : string) : string :=
  if String.eqb device "cuda" then "float16" else "int8".

(** [load_model()] *)
Definition load_model (h : host) : Proc unit :=
  avail <- torch_cuda_is_available h ;;
  let device := select_device avail in
  let compute_type := select_compute_type device in
  logger_info ("Loading Whisper model: " ++ MODEL_SIZE) ;;
  logger_info ("Device: " ++ upper_ascii device) ;;
  logger_info ("Compute type: " ++ compute_type) ;;
  try_except
    (m <- lift (new_WhisperModel h MODEL_SIZE device compute_type "./models") ;;
     modify (set_model (Some m)) ;;
     logger_info "Model loaded successfully")
    (fun e =>
       logger_error ("Failed to load model: " ++ str_exn e) ;;
       raise e).

(** [lifespan(app)], the part before its [yield] and the part after it. *)
Definition lifespan_startup (h : host) : Proc unit := load_model h.
Definition lifespan_shutdown : Proc unit := logger_info "Shutting down...".

Module Health.
Record body := { status : string; model : string; device : string }.
End Health.

(** [root()], the handler of [GET /]. *)
Definition root (h : host) : Proc Health.body :=
  avail <- torch_cuda_is_available h ;;
  ret {| Health.status := "running";
         Health.model := MODEL_SIZE;
         Health.device := select_device avail |}.

Record TranscriptionBody := {
  transcription : string;
  language_detected : string;
  duration_seconds : spec_float
}.

Definition repr_nonfinite (x : spec_float) : string :=
  match x with
  | S754_infinity false => "inf"
  | S754_infinity true => "-inf"
  | _ => "nan"
  end.

(** [JSONResponse(content=...)] renders its content when it is built, with
    [allow_nan=False]: a number that is not finite is refused.  The text of
    the error ends with the refused value or not, as the encoder has it. *)
Definition JSONResponse (i : io) (b : TranscriptionBody) : outcome TranscriptionBody :=
  if PyFloat.isfinite (duration_seconds b) then Return b
  else Raise (PyErr "ValueError"
                ("Out of range float values are not JSON compliant"
                 ++ if json_names_value i
                    then ": " ++ repr_nonfinite (duration_seconds b) else "")).

(** [f"{n / 1024:.2f}"] for [0 <= n < 2^53]: the quotient is exact in
    binary64, so its two-place rendering is that of the rational. *)
Definition format_kb (n : Z) : string :=
  let k := PyFloat.div_half_even (100 * n) 1024 in
  let r := k mod 100 in
  pretty (k / 100) ++ "." ++ (if r <? 10 then "0" else "") ++ pretty r.

(** The [with] statement of the [try] block: the context manager is built,
    bound to [temp_file], and closed when the block is left, by its end or by
    an exception. *)
Definition stage_upload (i : io) (file : UploadFile) (file_ext : string) : Handler unit :=
  tf <- in_world (NamedTemporaryFile i file_ext) ;;
  set_temp_file (Some tf) ;;
  try_finally
    (content <- file_read i file ;;
     in_world (tf_write i tf content) ;;
     set_temp_path (tf_name tf))
    (in_world (tf_close i tf)).

(** The statements of the [try] block after the [with] statement. *)
Definition run_inference (i : io) (file : UploadFile) (file_size : Z)
    : Handler TranscriptionBody :=
  in_world (logger_info ("Processing file: " ++ filename file
                         ++ " (" ++ format_kb file_size ++ " KB)")) ;;
  audio <- get_temp_path ;;
  r <- in_world (model_transcribe audio 5 true 500) ;;
  texts <- lift (segment_texts (fst r)) ;;
  let transcription := PyStr.join " " texts in
  in_world (logger_info ("Transcription completed. Language: " ++ language (snd r))) ;;
  lift (JSONResponse i {| transcription := PyStr.strip transcription;
                          language_detected := language (snd r);
                          duration_seconds := PyFloat.round2 (duration (snd r)) |}).

(** The [try] block of [transcribe_audio]. *)
Definition transcribe_body (i : io) (file : UploadFile) (file_ext : string)
    (file_size : Z) : Handler TranscriptionBody :=
  stage_upload i file file_ext ;;
  run_inference i file file_size.

(** The [except Exception as e] clause. *)
Definition transcribe_except (e : exn) : Handler TranscriptionBody :=
  in_world (logger_error ("Transcription error: " ++ str_exn e)) ;;
  raise (HTTPException 500 ("Transcription failed: " ++ str_exn e)).

(** The [finally] clause:
    [if temp_file and os.path.exists(temp_path): try: os.unlink(temp_path) ...]
    The temporary file object is always true; [and] evaluates its right
    operand only then. *)
Definition transcribe_finally (i : io) : Handler unit :=
  tf <- get_temp_file ;;
  match tf with
  | None => ret tt
  | Some _ =>
      p <- get_temp_path ;;
      present <- in_world (os_path_exists p) ;;
      if present then
        try_except
          (p' <- get_temp_path ;; in_world (os_unlink i p'))
          (fun e => in_world (logger_warning ("Failed to delete temp file: " ++ str_exn e)))
      else ret tt
  end.

(** [transcribe_audio(file)], the handler of [POST /transcribe]. *)
Definition transcribe_audio (i : io) (file : UploadFile) : Handler TranscriptionBody :=
  let file_ext := PyStr.lower (Path.suffix (filename file)) in
  if negb (PyStr.mem file_ext ALLOWED_EXTENSIONS) then
    raise (HTTPException 400
             ("Invalid file type. Allowed: "
              ++ PyStr.join ", " (iterate_set (set_order i) ALLOWED_EXTENSIONS)))
  else
    file_seek file 0 SEEK_END ;;
    file_size <- file_tell ;;
    file_seek file 0 SEEK_SET ;;
    if MAX_FILE_SIZE <? file_size then
      raise (HTTPException 400 "File too large. Max size: 100.0MB")
    else
      set_temp_file None ;;
      try_finally
        (try_except (transcribe_body i file file_ext file_size) transcribe_except)
        (transcribe_finally i).

(** ** The framework around the handlers *)

(** What the client of one request gets: the handler's value as a 200
    response, an [HTTPException] as its status with the body
    [{"detail": ...}], and any other exception as a fault that left the
    handler unhandled. *)
Inductive response (B : Type) :=
| Ok200 (content : B)
| ErrorDetail (status_code : Z) (detail : string)
| Unhandled (e : exn).
Arguments Ok200 {B} content.
Arguments ErrorDetail {B} status_code detail.
Arguments Unhandled {B} e.

Definition respond {B} (o : outcome B) : response B :=
  match o with
  | Return b => Ok200 b
  | Raise (HTTPException c d) => ErrorDetail c d
  | Raise e => Unhandled e
  end.

Definition new_frame : frame :=
  {| file_pos := 0; temp_file := None; temp_path := None |}.

(** [POST /transcribe] on the process [w]: the response and the process
    afterwards. *)
Definition post_transcribe (i : io) (file : UploadFile) (w : world)
    : response TranscriptionBody * world :=
  match transcribe_audio i file (w, new_frame) with
  | (o, s) => (respond o, fst s)
  end.

(** [GET /] *)
Definition get_root (h : host) (w : world) : response Health.body * world :=
  match root h w with
  | (o, w') => (respond o, w')
  end.

(** The life of the server: it runs the lifespan up to its [yield] and
    serves requests only when that part returned; an exception there ends
    the start-up. *)
Inductive phase :=
| Serving
| StartupFailed (e : exn).

Definition startup (h : host) (w : world) : phase * world :=
  match lifespan_startup h w with
  | (Return _, w') => (Serving, w')
  | (Raise e, w') => (StartupFailed e, w')
  end.

Definition accepts_requests (p : phase) : bool :=
  match p with
  | Serving => true
  | StartupFailed _ => false
  end.

(** ** Notions and values the statements use *)

(** [c in s] for a character. *)
Fixpoint contains (c : ascii) (s : string) : bool :=
  match s with
  | EmptyString => false
  | String d r => Ascii.eqb d c || contains c r
  end.

(** A filename without any extension: it has no dot at all (the empty name
    is of that kind), or it is one leading dot followed by a name with no dot
    and no slash. *)
Definition no_extension (fn : string) : bool :=
  negb (contains "." fn)
  || match fn with
     | EmptyString => true
     | String c r => Ascii.eqb c "." && negb (contains "." r) && negb (contains "/" r)
     end.

Definition io_quiet (cands : list string) : io :=
  {| tmp_candidates := cands; create_fault := None; read_fault := None;
     write_fault := None; close_fault := None; unlink_fault := None;
     stored_before_fault := 0;
     set_order := [".flac"; ".webm"; ".wav"; ".ogg"; ".m4a"; ".mp3"];
     json_names_value := false |}.

Definition idle_world : world := {| model := None; files := ∅; log := [] |}.

(** An upload of 100 MiB and one byte. *)
Definition oversize_upload (name : string) : UploadFile :=
  {| filename := name; data := replicate (Z.to_nat (100 * 1024 * 1024 + 1)) x00 |}.

(** The log after the three announcements of [load_model]. *)
Definition announced (h : host) (w : world) : world :=
  let device := select_device (cuda_is_available h) in
  add_log (INFO ("Compute type: " ++ select_compute_type device))
    (add_log (INFO ("Device: " ++ upper_ascii device))
       (add_log (INFO ("Loading Whisper model: " ++ MODEL_SIZE)) w)).

(** The machine as [main.py] finds it: its own module namespace. *)
Definition stock_host (cuda : bool)
    (ctor : string -> string -> string -> string -> outcome WhisperModel) : host :=
  {| names := module_namespace; cuda_is_available := cuda; new_WhisperModel := ctor |}.

(** A machine on which [torch] is bound as well. *)
Definition torch_host (cuda : bool)
    (ctor : string -> string -> string -> string -> outcome WhisperModel) : host :=
  {| names := {["torch"]} ∪ module_namespace; cuda_is_available := cuda;
     new_WhisperModel := ctor |}.

(** An engine that answers every file with the segments "Hello" and "world",
    the language "en" and the duration 3.456, which as a binary64 value is
    [7782220156096217 * 2^-51]. *)
Definition hello_info : TranscriptionInfo :=
  {| language := "en"; duration := S754_finite false 7782220156096217 (-51) |}.
Definition hello_stream : segment_stream :=
  SegYield {| text := "Hello" |} (SegYield {| text := "world" |} SegStop).
Definition hello_model : WhisperModel :=
  {| transcribe := fun _ _ _ _ _ => Return (hello_stream, hello_info) |}.

Definition ctor_hello (size device compute_type download_root : string)
    : outcome WhisperModel := Return hello_model.
Definition ctor_out_of_memory (size device compute_type download_root : string)
    : outcome WhisperModel :=
  Raise (PyErr "RuntimeError" "CUDA failed with error out of memory").

(** The frame and the process when the [with] statement has been left by
    its end. *)
Definition staged_frame (file : UploadFile) (p : string) : frame :=
  {| file_pos := Z.of_nat (length (data file));
     temp_file := Some {| tf_name := p |}; temp_path := Some p |}.
Definition staged_world (file : UploadFile) (p : string) (w : world) : world :=
  set_files (<[p := data file]> (files w)) w.

(** What a failed staging leaves in the scratch file: nothing when reading
    the upload failed, the stored prefix of the upload when writing it
    failed. *)
Definition left_by_fault (i : io) (file : UploadFile) : list byte :=
  match read_fault i with
  | Some _ => []
  | None => take (stored_before_fault i) (data file)
  end.

(** The process when the flush of the close failed: the scratch file [p]
    holds the stored prefix of the upload. *)
Definition unflushed_world (i : io) (file : UploadFile) (p : string) (w : world) : world :=
  set_files (<[p := take (stored_before_fault i) (data file)]> (files w)) w.

(** What [post_transcribe] does to the process once the [try] block has
    ended, with the scratch file [p] in place: the [finally] clause unlinks
    it, or logs that it could not. *)
Definition cleaned (i : io) (p : string) (w : world) : world :=
  match unlink_fault i with
  | None => set_files (delete p (files w)) w
  | Some e => add_log (WARNING ("Failed to delete temp file: " ++ str_exn e)) w
  end.

Record valid_staging (i : io) (file : UploadFile) (w : world) (p : string) : Prop := {
  vs_ext : PyStr.lower (Path.suffix (filename file)) ∈ ALLOWED_EXTENSIONS;
  vs_size : Z.of_nat (length (data file)) <= MAX_FILE_SIZE;
  vs_create : create_fault i = None;
  vs_read : read_fault i = None;
  vs_write : write_fault i = None;
  vs_close : close_fault i = None;
  vs_name : first_free (files w) (PyStr.lower (Path.suffix (filename file)))
              (tmp_candidates i) = Some p
}.

Definition memo_upload : UploadFile :=
  {| filename := "memo.wav"; data := [x52; x49; x46; x46] |}.
Definition hello_process : world :=
  {| model := Some hello_model; files := ∅; log := [] |}.

Definition io_disk_full : io :=
  {| tmp_candidates := ["k3v9x0qa"]; create_fault := None; read_fault := None;
     write_fault := Some (PyErr "OSError" "[Errno 28] No space left on device");
     close_fault := None; unlink_fault := None;
     stored_before_fault := 0;
     set_order := [".flac"; ".webm"; ".wav"; ".ogg"; ".m4a"; ".mp3"];
     json_names_value := false |}.

Definition io_read_error : io :=
  {| tmp_candidates := ["k3v9x0qa"]; create_fault := None;
     read_fault := Some (PyErr "OSError" "[Errno 5] Input/output error");
     write_fault := None; close_fault := None; unlink_fault := None;
     stored_before_fault := 0;
     set_order := [".flac"; ".webm"; ".wav"; ".ogg"; ".m4a"; ".mp3"];
     json_names_value := false |}.

(** The name of the scratch file of a request: the value of [temp_path]
    when the handler is left, [None] when it was never bound. *)
Definition scratch_name (i : io) (file : UploadFile) (w : world) : option string :=
  temp_path (snd (snd (transcribe_audio i file (w, new_frame)))).

(** Inference on the staged file [p] succeeds with the body [b]. *)
Definition inference_ok (w : world) (file : UploadFile) (p : string)
    (b : TranscriptionBody) : Prop :=
  exists m r texts,
    model w = Some m
    /\ transcribe m (<[p := data file]> (files w)) p 5 true 500 = Return r
    /\ segment_texts (fst r) = Return texts
    /\ PyFloat.isfinite (PyFloat.round2 (duration (snd r))) = true
    /\ b = {| transcription := PyStr.strip (PyStr.join " " texts);
              language_detected := language (snd r);
              duration_seconds := PyFloat.round2 (duration (snd r)) |}.

Definition io_unlink_denied : io :=
  {| tmp_candidates := ["k3v9x0qa"]; create_fault := None; read_fault := None;
     write_fault := None; close_fault := None;
     unlink_fault := Some (PyErr "PermissionError"
                             "[Errno 1] Operation not permitted: '/tmp/tmpk3v9x0qa.wav'");
     stored_before_fault := 0;
     set_order := [".flac"; ".webm"; ".wav"; ".ogg"; ".m4a"; ".mp3"];
     json_names_value := false |}.

(** The body with the duration 3.46, [7791227355350958 * 2^-51] as a
    binary64 value. *)
Definition hello_body : TranscriptionBody :=
  {| transcription := "Hello world"; language_detected := "en";
     duration_seconds := S754_finite false 7791227355350958 (-51) |}.

(** The process after a first handling of [memo_upload] in which unlinking
    the scratch file was refused. *)
Definition after_denied_memo : world :=
  snd (post_transcribe io_unlink_denied memo_upload hello_process).

(** A stream that yields the given segments and then goes on as [rest]. *)
Fixpoint yield_then (l : list Segment) (rest : segment_stream) : segment_stream :=
  match l with
  | [] => rest
  | s :: l' => SegYield s (yield_then l' rest)
  end.

(** The same answers of the operating system, but for unlinking. *)
Definition with_unlink (u : option exn) (i : io) : io :=
  {| tmp_candidates := tmp_candidates i; create_fault := create_fault i;
     read_fault := read_fault i; write_fault := write_fault i;
     close_fault := close_fault i; unlink_fault := u;
     stored_before_fault := stored_before_fault i;
     set_order := set_order i; json_names_value := json_names_value i |}.

(** The same answers, in a process with another order of iteration over the
    set. *)
Definition with_set_order (order : list string) (i : io) : io :=
  {| tmp_candidates := tmp_candidates i; create_fault := create_fault i;
     read_fault := read_fault i; write_fault := write_fault i;
     close_fault := close_fault i; unlink_fault := unlink_fault i;
     stored_before_fault := stored_before_fault i;
     set_order := order; json_names_value := json_names_value i |}.

Definition io_create_denied : io :=
  {| tmp_candidates := ["k3v9x0qa"];
     create_fault := Some (PyErr "PermissionError" "[Errno 13] Permission denied: '/tmp/tmpk3v9x0qa.wav'");
     read_fault := None; write_fault := None; close_fault := None; unlink_fault := None;
     stored_before_fault := 0;
     set_order := [".flac"; ".webm"; ".wav"; ".ogg"; ".m4a"; ".mp3"];
     json_names_value := false |}.

Definition io_close_error : io :=
  {| tmp_candidates := ["k3v9x0qa"]; create_fault := None; read_fault := None;
     write_fault := None;
     close_fault := Some (PyErr "OSError" "[Errno 28] No space left on device");
     unlink_fault := None;
     stored_before_fault := 0;
     set_order := [".flac"; ".webm"; ".wav"; ".ogg"; ".m4a"; ".mp3"];
     json_names_value := false |}.

(** An engine whose [transcribe] raises, and one whose stream fails after a
    first segment. *)
Definition broken_model : WhisperModel :=
  {| transcribe := fun _ _ _ _ _ => Raise (PyErr "RuntimeError" "Invalid data found when processing input") |}.
Definition stalling_model : WhisperModel :=
  {| transcribe := fun _ _ _ _ _ =>
       Return (yield_then [{| text := " Hello" |}] (SegFail (PyErr "RuntimeError" "CUDA out of memory")),
               hello_info) |}.
Definition process_with (m : option WhisperModel) : world :=
  {| model := m; files := ∅; log := [] |}.

(** The string starts, ends, or consists of white space ([str.isspace] on
    the character concerned). *)
Definition starts_with_space (s : string) : bool :=
  match s with
  | EmptyString => false
  | String c _ => PyStr.isspace c
  end.
Fixpoint ends_with_space (s : string) : bool :=
  match s with
  | EmptyString => false
  | String c r =>
      match r with
      | EmptyString => PyStr.isspace c
      | String _ _ => ends_with_space r
      end
  end.
Fixpoint all_space (s : string) : bool :=
  match s with
  | EmptyString => true
  | String c r => PyStr.isspace c && all_space r
  end.

(** An engine that answers with the given segments and summary. *)
Definition model_returning (segs : list Segment) (info : TranscriptionInfo) : WhisperModel :=
  {| transcribe := fun _ _ _ _ _ => Return (yield_then segs SegStop, info) |}.

(** An engine whose segments carry white space at the outer ends. *)
Definition padded_model : WhisperModel :=
  model_returning [{| text := " Hello" |}; {| text := "world " |}]
    {| language := "en"; duration := S754_finite false 7782220156096217 (-51) |}.

(** [t] is [s] without the white space at its two ends: [s] is [t] between
    two runs of white space, and [t] neither starts nor ends with white
    space. *)
Definition trimmed_of (s t : string) : Prop :=
  exists lead trail,
    s = lead ++ t ++ trail
    /\ all_space lead = true /\ all_space trail = true
    /\ starts_with_space t = false /\ ends_with_space t = false.

(** [k] is an integer nearest to [100 * m * 2^e]. *)
Definition nearest_hundredfold (m : positive) (e k : Z) : Prop :=
  if 0 <=? e then k = 100 * Z.pos m * 2 ^ e
  else 2 * Z.abs (100 * Z.pos m - k * 2 ^ (- e)) <= 2 ^ (- e).

(** [p * 2^e] is a binary64 value within half a unit in its last place of
    [k / 100]. *)
Definition nearest_binary64 (k : Z) (p : positive) (e : Z) : Prop :=
  valid_binary 53 1024 (S754_finite false p e) = true
  /\ if 0 <=? e then 2 * Z.abs (k - Z.pos p * 2 ^ e * 100) <= 100 * 2 ^ e
     else 2 * Z.abs (k * 2 ^ (- e) - Z.pos p * 100) <= 100.

(** [r] is [x] rounded to two decimal places: for a finite [x] with the
    magnitude [m * 2^e], some integer [k] is nearest to a hundred times the
    magnitude and [r] is the binary64 value of the same sign nearest to
    [k / 100], a zero when [k] is 0; zeros, infinities and NaN are left as
    they are. *)
Definition rounded_to_2_places (x r : spec_float) : Prop :=
  match x with
  | S754_finite s m e =>
      exists k,
        0 <= k /\ nearest_hundredfold m e k
        /\ match r with
           | S754_zero s' => s' = s /\ k = 0
           | S754_finite s' p e' => s' = s /\ nearest_binary64 k p e'
           | _ => False
           end
  | _ => r = x
  end.

(** An engine that reports a duration that is not a number. *)
Definition nan_model : WhisperModel :=
  {| transcribe := fun _ _ _ _ _ =>
       Return (hello_stream, {| language := "en"; duration := S754_nan |}) |}.

(** * Properties *)

(** ** Sample evaluations *)

Example suffix_plain : Path.suffix "talk.WAV" = ".WAV".
Proof. reflexivity. Qed.
Example suffix_dir : Path.suffix "up.loads/clip.tar.mp3" = ".mp3".
Proof. reflexivity. Qed.
Example suffix_hidden : Path.suffix ".wav" = "".
Proof. reflexivity. Qed.
Example suffix_trailing_dot : Path.suffix "clip." = "".
Proof. reflexivity. Qed.
Example strip_both : PyStr.strip "  Hello world " = "Hello world".
Proof. reflexivity. Qed.

Example float_3_456 :
  PyFloat.of_ratio false 3456 1000 = S754_finite false 7782220156096217 (-51).
Proof. reflexivity. Qed.
Example float_3_46 :
  PyFloat.of_ratio false 346 100 = S754_finite false 7791227355350958 (-51).
Proof. reflexivity. Qed.
Example round_3_456 :
  PyFloat.round2 (PyFloat.of_ratio false 3456 1000) = PyFloat.of_ratio false 346 100.
Proof. reflexivity. Qed.
Example round_3_456_bits :
  PyFloat.round2 (S754_finite false 7782220156096217 (-51))
  = S754_finite false 7791227355350958 (-51).
Proof. reflexivity. Qed.
Example float_smallest : PyFloat.of_ratio false 5 (10 ^ 324) = S754_finite false 1 (-1074).
Proof. vm_compute. reflexivity. Qed.
Example float_overflow : PyFloat.of_ratio true (2 ^ 1024 - 2 ^ 970) 1 = S754_infinity true.
Proof. vm_compute. reflexivity. Qed.
Example float_largest :
  PyFloat.of_ratio true (2 ^ 1024 - 2 ^ 970 - 1) 1 = S754_finite true 9007199254740991 971.
Proof. vm_compute. reflexivity. Qed.
Example round_tie_even :
  PyFloat.round2 (PyFloat.of_ratio false 125 1000) = PyFloat.of_ratio false 12 100.
Proof. reflexivity. Qed.
Example round_big :
  PyFloat.round2 (S754_finite false 4503599627370497 3) = S754_finite false 4503599627370497 3.
Proof. reflexivity. Qed.

(** ** Strings and paths *)

Lemma mem_elem_of (x : string) (l : list string) :
  PyStr.mem x l = true <-> x ∈ l.
Proof.
  unfold PyStr.mem. rewrite existsb_exists. split.
  - intros (y & Hy & Heq). apply String.eqb_eq in Heq. subst y.
    by apply list_elem_of_In.
  - intros Hin. exists x. split; [by apply list_elem_of_In | apply String.eqb_refl].
Qed.

Lemma mem_false_not_elem_of (x : string) (l : list string) :
  x ∉ l -> PyStr.mem x l = false.
Proof.
  intros Hn. destruct (PyStr.mem x l) eqn:E; [|done].
  apply mem_elem_of in E. contradiction.
Qed.

(** The empty string is no member of the allow-list. *)
Lemma empty_not_allowed : PyStr.mem "" ALLOWED_EXTENSIONS = false.
Proof. reflexivity. Qed.

(** ** The two validations *)

(** The handler up to its [try] statement. *)
Lemma transcribe_audio_eq (i : io) (file : UploadFile) (s : world * frame) :
  transcribe_audio i file s =
  let file_ext := PyStr.lower (Path.suffix (filename file)) in
  let file_size := Z.of_nat (length (data file)) in
  let fr0 := {| file_pos := 0; temp_file := temp_file (snd s); temp_path := temp_path (snd s) |} in
  if negb (PyStr.mem file_ext ALLOWED_EXTENSIONS) then
    (Raise (HTTPException 400
              ("Invalid file type. Allowed: "
               ++ PyStr.join ", " (iterate_set (set_order i) ALLOWED_EXTENSIONS))), s)
  else if MAX_FILE_SIZE <? file_size then
    (Raise (HTTPException 400 "File too large. Max size: 100.0MB"), (fst s, fr0))
  else
    try_finally
      (try_except (transcribe_body i file file_ext file_size) transcribe_except)
      (transcribe_finally i)
      (fst s, {| file_pos := 0; temp_file := None; temp_path := temp_path (snd s) |}).
Proof.
  destruct s as [w fr]. unfold transcribe_audio. cbv zeta.
  destruct (negb _); [reflexivity|].
  unfold bind at 1. unfold file_seek at 1, on_frame at 1, modify at 1. cbn [fst snd].
  unfold bind at 1. unfold file_tell at 1, bind at 1, get at 1, ret at 1. cbn [fst snd file_pos].
  unfold bind at 1. unfold file_seek at 1, on_frame at 1, modify at 1.
  cbn [fst snd file_pos temp_file temp_path].
  replace (SEEK_END =? SEEK_END) with true by reflexivity.
  replace (SEEK_SET =? SEEK_END) with false by reflexivity.
  rewrite Z.add_0_r.
  destruct (MAX_FILE_SIZE <? _); [reflexivity|].
  unfold bind at 1. unfold set_temp_file at 1, on_frame at 1, modify at 1.
  reflexivity.
Qed.

(** A filename whose lowered suffix is not allowed is answered with 400 and
    nothing else happens: the process is as before. *)
Lemma reject_invalid_type (i : io) (file : UploadFile) (w : world) :
  PyStr.mem (PyStr.lower (Path.suffix (filename file))) ALLOWED_EXTENSIONS = false ->
  post_transcribe i file w =
  (ErrorDetail 400 ("Invalid file type. Allowed: "
                    ++ PyStr.join ", " (iterate_set (set_order i) ALLOWED_EXTENSIONS)), w).
Proof.
  intros Hmem. unfold post_transcribe. rewrite transcribe_audio_eq. cbv zeta.
  rewrite Hmem. reflexivity.
Qed.

(** Whatever the order of the process is, iterating over a set yields an
    arrangement of its elements. *)
Lemma iterate_set_arrangement (order elems : list string) :
  iterate_set order elems ≡ₚ elems.
Proof. unfold iterate_set. by destruct (decide (order ≡ₚ elems)). Qed.

(** The 400 of the extension check names the allowed extensions in some
    order. *)
Lemma reject_invalid_type_detail (i : io) (file : UploadFile) (w : world) :
  PyStr.mem (PyStr.lower (Path.suffix (filename file))) ALLOWED_EXTENSIONS = false ->
  exists order,
    order ≡ₚ ALLOWED_EXTENSIONS
    /\ post_transcribe i file w =
       (ErrorDetail 400 ("Invalid file type. Allowed: " ++ PyStr.join ", " order), w).
Proof.
  intros Hmem. exists (iterate_set (set_order i) ALLOWED_EXTENSIONS).
  split; [apply iterate_set_arrangement | by apply reject_invalid_type].
Qed.

(** An allowed suffix on an upload above the limit is answered with 400 as
    well, before the [try] statement is entered. *)
Lemma reject_too_large (i : io) (file : UploadFile) (w : world) :
  PyStr.mem (PyStr.lower (Path.suffix (filename file))) ALLOWED_EXTENSIONS = true ->
  MAX_FILE_SIZE < Z.of_nat (length (data file)) ->
  post_transcribe i file w = (ErrorDetail 400 "File too large. Max size: 100.0MB", w).
Proof.
  intros Hmem Hsize. unfold post_transcribe. rewrite transcribe_audio_eq. cbv zeta.
  rewrite Hmem. cbn [negb].
  apply Z.ltb_lt in Hsize. rewrite Hsize. reflexivity.
Qed.

Lemma rfind_absent (c : ascii) (s : string) :
  contains c s = false -> PyStr.rfind c s = -1.
Proof.
  induction s as [|d r IH]; [reflexivity|].
  cbn [contains PyStr.rfind]. intros Hc.
  apply orb_false_iff in Hc as [Hd Hr].
  rewrite (IH Hr), Hd. reflexivity.
Qed.

Lemma split_absent (c : ascii) (s : string) :
  contains c s = false -> PyStr.split c s = [s].
Proof.
  induction s as [|d r IH]; [reflexivity|].
  cbn [contains PyStr.split]. intros Hc.
  apply orb_false_iff in Hc as [Hd Hr].
  rewrite Hd, (IH Hr). reflexivity.
Qed.

(** No field of a string has a character the string has not. *)
Lemma split_fields_absent (c sep : ascii) (s : string) :
  contains c s = false ->
  Forall (fun f => contains c f = false) (PyStr.split sep s).
Proof.
  induction s as [|d r IH]; cbn [contains PyStr.split]; intros Hc.
  - by constructor.
  - apply orb_false_iff in Hc as [Hd Hr]. specialize (IH Hr).
    destruct (Ascii.eqb d sep).
    + by constructor.
    + destruct (PyStr.split sep r) as [|f fs].
      { constructor; [cbn [contains]; by rewrite Hd | constructor]. }
      inversion IH as [|? ? Hf Hfs]; subst.
      constructor; [|done]. cbn [contains]. by rewrite Hd, Hf.
Qed.

Lemma last_Forall {A} (P : A -> Prop) (l : list A) (d : A) :
  Forall P l -> P d -> P (List.last l d).
Proof.
  induction 1 as [|x l Hx Hl IH]; intros Hd; [done|].
  destruct l; [done|]. by apply IH.
Qed.

Lemma name_absent (c : ascii) (path : string) :
  contains c path = false -> contains c (Path.name path) = false.
Proof.
  intros Hc. unfold Path.name, Path.tail.
  apply (last_Forall (fun f => contains c f = false)); [|reflexivity].
  apply List.Forall_forall. intros f Hf.
  apply List.filter_In in Hf as [Hf _].
  pose proof (split_fields_absent c "/" path Hc) as Hall.
  rewrite List.Forall_forall in Hall. by apply Hall.
Qed.

(** A filename without extension has the empty suffix. *)
Lemma no_extension_suffix (fn : string) :
  no_extension fn = true -> Path.suffix fn = "".
Proof.
  unfold no_extension. intros Hn.
  destruct (contains "." fn) eqn:Hdot.
  - cbn [negb orb] in Hn. destruct fn as [|c r]; [discriminate Hdot|].
    apply andb_true_iff in Hn as [Hn Hslash].
    apply andb_true_iff in Hn as [Hc Hr].
    apply Ascii.eqb_eq in Hc. subst c.
    apply negb_true_iff in Hr, Hslash.
    unfold Path.suffix, Path.name, Path.tail.
    assert (Hs : contains "/" (String "." r) = false) by (cbn [contains]; by rewrite Hslash).
    rewrite (split_absent _ _ Hs). cbn [List.filter].
    destruct r as [|d r'].
    + reflexivity.
    + assert (E1 : String.eqb (String "." (String d r')) "." = false)
        by (apply String.eqb_neq; discriminate).
      assert (E2 : String.eqb (String "." (String d r')) "" = false)
        by (apply String.eqb_neq; discriminate).
      rewrite E1, E2. cbn [negb andb List.last]. cbv zeta.
      assert (PyStr.rfind "." (String "." (String d r')) = 0) as ->.
      { change (PyStr.rfind "." (String "." (String d r')))
          with (let i := PyStr.rfind "." (String d r') in
                if 0 <=? i then i + 1 else if Ascii.eqb "." "." then 0 else -1).
        rewrite (rfind_absent _ _ Hr). reflexivity. }
      reflexivity.
  - unfold Path.suffix. cbv zeta.
    rewrite (rfind_absent _ _ (name_absent _ _ Hdot)). reflexivity.
Qed.

(** C3.  An upload whose filename's extension, lowered, is not one of
    [.wav .mp3 .m4a .flac .ogg .webm] is answered with 400 and the "invalid
    file type" detail, which lists the six extensions in the order the
    process iterates over the set; nothing else is done: no file is created,
    nothing is logged, the process is exactly as before the request. *)
Theorem invalid_type_is_400_without_scratch (i : io) (file : UploadFile) (w : world) :
  PyStr.lower (Path.suffix (filename file)) ∉ ALLOWED_EXTENSIONS ->
  (exists order,
      order ≡ₚ ALLOWED_EXTENSIONS
      /\ post_transcribe i file w =
         (ErrorDetail 400 ("Invalid file type. Allowed: " ++ PyStr.join ", " order), w))
  /\ files (snd (post_transcribe i file w)) = files w.
Proof.
  intros Hext. apply mem_false_not_elem_of in Hext.
  split; [by apply reject_invalid_type_detail|].
  by rewrite (reject_invalid_type i file w Hext).
Qed.

Lemma invalid_type_is_400_without_scratch_witness :
  ((exists order,
       order ≡ₚ ALLOWED_EXTENSIONS
       /\ post_transcribe (io_quiet ["k3v9x0qa"])
            {| filename := "minutes.WAV.TXT"; data := [x52; x49] |} idle_world =
          (ErrorDetail 400 ("Invalid file type. Allowed: " ++ PyStr.join ", " order),
           idle_world))
   /\ files (snd (post_transcribe (io_quiet ["k3v9x0qa"])
                    {| filename := "minutes.WAV.TXT"; data := [x52; x49] |} idle_world))
      = files idle_world)
  /\ post_transcribe (io_quiet ["k3v9x0qa"])
       {| filename := "minutes.WAV.TXT"; data := [x52; x49] |} idle_world =
     (ErrorDetail 400 "Invalid file type. Allowed: .flac, .webm, .wav, .ogg, .m4a, .mp3",
      idle_world)
  /\ post_transcribe
       (with_set_order [".ogg"; ".mp3"; ".webm"; ".wav"; ".flac"; ".m4a"] (io_quiet ["k3v9x0qa"]))
       {| filename := "minutes.WAV.TXT"; data := [x52; x49] |} idle_world =
     (ErrorDetail 400 "Invalid file type. Allowed: .ogg, .mp3, .webm, .wav, .flac, .m4a",
      idle_world).
Proof.
  split; [|split; vm_compute; reflexivity].
  apply (invalid_type_is_400_without_scratch
           (io_quiet ["k3v9x0qa"]) {| filename := "minutes.WAV.TXT"; data := [x52; x49] |}).
  intros Hin. apply mem_elem_of in Hin. vm_compute in Hin. discriminate Hin.
Defined.

(** C4.  An upload longer than 100 MiB is answered with 400 whatever its
    extension is, and no scratch file is created: the process is exactly as
    before the request.  With an allowed extension the detail is the "file
    too large" one. *)
Theorem oversize_is_400_without_scratch (i : io) (file : UploadFile) (w : world) :
  100 * 1024 * 1024 < Z.of_nat (length (data file)) ->
  (exists d, post_transcribe i file w = (ErrorDetail 400 d, w))
  /\ files (snd (post_transcribe i file w)) = files w
  /\ (PyStr.lower (Path.suffix (filename file)) ∈ ALLOWED_EXTENSIONS ->
      post_transcribe i file w = (ErrorDetail 400 "File too large. Max size: 100.0MB", w)).
Proof.
  intros Hsize.
  destruct (PyStr.mem (PyStr.lower (Path.suffix (filename file))) ALLOWED_EXTENSIONS) eqn:Hmem.
  - rewrite (reject_too_large i file w Hmem Hsize). repeat split; eauto.
  - rewrite (reject_invalid_type i file w Hmem). repeat split; eauto.
    intros Hin. apply mem_elem_of in Hin. congruence.
Qed.

Lemma oversize_is_400_without_scratch_witness :
  100 * 1024 * 1024 < Z.of_nat (length (data (oversize_upload "lecture.mp3")))
  /\ post_transcribe (io_quiet ["k3v9x0qa"]) (oversize_upload "lecture.mp3") idle_world
     = (ErrorDetail 400 "File too large. Max size: 100.0MB", idle_world).
Proof.
  assert (Hsize : 100 * 1024 * 1024
                  < Z.of_nat (length (data (oversize_upload "lecture.mp3")))).
  { unfold oversize_upload. cbn [data]. rewrite length_replicate. lia. }
  split; [exact Hsize|].
  apply (oversize_is_400_without_scratch
           (io_quiet ["k3v9x0qa"]) (oversize_upload "lecture.mp3") idle_world Hsize).
  apply mem_elem_of. reflexivity.
Defined.

(** C10.  A filename with no extension at all (no dot, the empty name, or a
    lone leading dot as in [.wav]) has the empty suffix and is answered with
    400 and the "invalid file type" detail, which lists the six extensions in
    the order the process iterates over the set; the process is as before. *)
Theorem no_extension_is_400 (i : io) (file : UploadFile) (w : world) :
  no_extension (filename file) = true ->
  Path.suffix (filename file) = ""
  /\ exists order,
       order ≡ₚ ALLOWED_EXTENSIONS
       /\ post_transcribe i file w =
          (ErrorDetail 400 ("Invalid file type. Allowed: " ++ PyStr.join ", " order), w).
Proof.
  intros Hn. pose proof (no_extension_suffix _ Hn) as Hs. split; [exact Hs|].
  apply reject_invalid_type_detail. rewrite Hs. reflexivity.
Qed.

Lemma no_extension_is_400_witness :
  (Path.suffix ".wav" = ""
   /\ exists order,
        order ≡ₚ ALLOWED_EXTENSIONS
        /\ post_transcribe (io_quiet []) {| filename := ".wav"; data := [x52] |} idle_world =
           (ErrorDetail 400 ("Invalid file type. Allowed: " ++ PyStr.join ", " order),
            idle_world))
  /\ (Path.suffix "" = ""
      /\ exists order,
           order ≡ₚ ALLOWED_EXTENSIONS
           /\ post_transcribe (io_quiet []) {| filename := ""; data := [x52] |} idle_world =
              (ErrorDetail 400 ("Invalid file type. Allowed: " ++ PyStr.join ", " order),
               idle_world))
  /\ (Path.suffix "recording" = ""
      /\ exists order,
           order ≡ₚ ALLOWED_EXTENSIONS
           /\ post_transcribe (io_quiet []) {| filename := "recording"; data := [x52] |}
                idle_world =
              (ErrorDetail 400 ("Invalid file type. Allowed: " ++ PyStr.join ", " order),
               idle_world))
  /\ post_transcribe (io_quiet []) {| filename := ".wav"; data := [x52] |} idle_world =
     (ErrorDetail 400 "Invalid file type. Allowed: .flac, .webm, .wav, .ogg, .m4a, .mp3",
      idle_world).
Proof.
  split; [|split; [|split]].
  - apply (no_extension_is_400 (io_quiet []) {| filename := ".wav"; data := [x52] |}
             idle_world eq_refl).
  - apply (no_extension_is_400 (io_quiet []) {| filename := ""; data := [x52] |}
             idle_world eq_refl).
  - apply (no_extension_is_400 (io_quiet []) {| filename := "recording"; data := [x52] |}
             idle_world eq_refl).
  - vm_compute. reflexivity.
Defined.

(** ** Start-up and the status endpoint *)

Lemma torch_not_in_module_namespace : "torch" ∉ module_namespace.
Proof.
  intros Hin.
  assert (Hb : bool_decide ("torch" ∈ module_namespace) = true)
    by (apply bool_decide_eq_true_2; exact Hin).
  vm_compute in Hb. discriminate Hb.
Qed.

Lemma load_model_unbound (h : host) (w : world) :
  "torch" ∉ names h -> load_model h w = (Raise (NameError "torch"), w).
Proof.
  intros Hn. unfold load_model, torch_cuda_is_available, bind.
  destruct (decide ("torch" ∈ names h)); [contradiction|]. reflexivity.
Qed.

Lemma load_model_bound (h : host) (w : world) :
  "torch" ∈ names h ->
  load_model h w =
  match new_WhisperModel h MODEL_SIZE (select_device (cuda_is_available h))
          (select_compute_type (select_device (cuda_is_available h))) "./models" with
  | Return m =>
      (Return tt, add_log (INFO "Model loaded successfully") (set_model (Some m) (announced h w)))
  | Raise e =>
      (Raise e, add_log (ERROR ("Failed to load model: " ++ str_exn e)) (announced h w))
  end.
Proof.
  intros Hb. unfold load_model, torch_cuda_is_available.
  destruct (decide ("torch" ∈ names h)); [|contradiction].
  unfold bind, ret, try_except, lift, logger_info, logger_error, modify, raise, announced.
  destruct (new_WhisperModel h _ _ _ _); reflexivity.
Qed.

(** With [torch] bound, the engine is built for the device the machine has,
    with the precision that goes with it. *)
Lemma select_pairing (avail : bool) :
  (select_device avail, select_compute_type (select_device avail)) =
  if avail then ("cuda", "float16") else ("cpu", "int8").
Proof. destruct avail; reflexivity. Qed.

(** C7.  [load_model] evaluates [torch.cuda.is_available()] first, and
    [main.py] never imports [torch]: whatever the machine has, the call
    raises [NameError] before a device or a precision is chosen, the
    constructor is not called and [model] is left as it was. *)
Theorem load_model_raises_NameError (cuda : bool)
    (ctor : string -> string -> string -> string -> outcome WhisperModel) (w : world) :
  load_model (stock_host cuda ctor) w
  = (Raise (PyErr "NameError" "name 'torch' is not defined"), w).
Proof.
  apply (load_model_unbound (stock_host cuda ctor) w torch_not_in_module_namespace).
Qed.

(** C6.  [root] evaluates [torch.cuda.is_available()] while it builds its
    answer, and [torch] is not bound: every [GET /] ends in [NameError]
    leaving the handler, not in a 200 response. *)
Theorem get_root_raises_NameError (cuda : bool)
    (ctor : string -> string -> string -> string -> outcome WhisperModel) (w : world) :
  get_root (stock_host cuda ctor) w
  = (Unhandled (PyErr "NameError" "name 'torch' is not defined"), w).
Proof.
  unfold get_root, root, torch_cuda_is_available, bind. cbn [names stock_host].
  destruct (decide ("torch" ∈ module_namespace)) as [Hin|_].
  - destruct (torch_not_in_module_namespace Hin).
  - reflexivity.
Qed.

(** The answer [root] gives once [torch] is bound. *)
Lemma get_root_bound (h : host) (w : world) :
  "torch" ∈ names h ->
  get_root h w =
  (Ok200 {| Health.status := "running"; Health.model := "large-v3";
            Health.device := if cuda_is_available h then "cuda" else "cpu" |}, w).
Proof.
  intros Hb. unfold get_root, root, torch_cuda_is_available, bind.
  destruct (decide ("torch" ∈ names h)); [|contradiction]. reflexivity.
Qed.

(** C8.  When the constructor of the engine raises, the start-up ends in
    failure: no request is accepted, [model] is what it was, and, the call
    being reached, the exception that leaves [load_model] is the
    constructor's own.  When the server accepts requests, [model] holds the
    engine the constructor returned. *)
Theorem startup_fails_or_initializes (h : host) (w : world) :
  (forall e,
      new_WhisperModel h MODEL_SIZE (select_device (cuda_is_available h))
        (select_compute_type (select_device (cuda_is_available h))) "./models" = Raise e ->
      exists e', fst (startup h w) = StartupFailed e'
                 /\ accepts_requests (fst (startup h w)) = false
                 /\ model (snd (startup h w)) = model w
                 /\ ("torch" ∈ names h -> e' = e))
  /\ (accepts_requests (fst (startup h w)) = true ->
      exists m,
        new_WhisperModel h MODEL_SIZE (select_device (cuda_is_available h))
          (select_compute_type (select_device (cuda_is_available h))) "./models" = Return m
        /\ model (snd (startup h w)) = Some m
        /\ fst (startup h w) = Serving).
Proof.
  unfold startup, lifespan_startup.
  destruct (decide ("torch" ∈ names h)) as [Hb|Hn].
  - rewrite (load_model_bound h w Hb).
    destruct (new_WhisperModel h _ _ _ _) as [m|e0]; cbn [fst snd accepts_requests].
    + split; [intros e He; discriminate He|]. intros _. exists m. repeat split.
    + split; [|intros Hacc; discriminate Hacc].
      intros e He. injection He as ->. exists e. repeat split.
  - rewrite (load_model_unbound h w Hn). cbn [fst snd accepts_requests].
    split; [|intros Hacc; discriminate Hacc].
    intros e _. exists (NameError "torch"). repeat split. intros Hb. contradiction.
Qed.

Lemma startup_fails_or_initializes_witness :
  (exists e',
      fst (startup (torch_host true ctor_out_of_memory) idle_world) = StartupFailed e'
      /\ accepts_requests (fst (startup (torch_host true ctor_out_of_memory) idle_world)) = false
      /\ model (snd (startup (torch_host true ctor_out_of_memory) idle_world)) = model idle_world
      /\ ("torch" ∈ names (torch_host true ctor_out_of_memory) ->
          e' = PyErr "RuntimeError" "CUDA failed with error out of memory"))
  /\ (exists m,
        new_WhisperModel (torch_host false ctor_hello) MODEL_SIZE
          (select_device (cuda_is_available (torch_host false ctor_hello)))
          (select_compute_type (select_device (cuda_is_available (torch_host false ctor_hello))))
          "./models" = Return m
        /\ model (snd (startup (torch_host false ctor_hello) idle_world)) = Some m
        /\ fst (startup (torch_host false ctor_hello) idle_world) = Serving).
Proof.
  split.
  - apply (proj1 (startup_fails_or_initializes (torch_host true ctor_out_of_memory) idle_world)
             (PyErr "RuntimeError" "CUDA failed with error out of memory")).
    reflexivity.
  - apply (proj2 (startup_fails_or_initializes (torch_host false ctor_hello) idle_world)).
    vm_compute. reflexivity.
Defined.

(** ** The request, statement by statement *)

Lemma first_free_fresh fs suffix cands p :
  first_free fs suffix cands = Some p -> fs !! p = None.
Proof.
  induction cands as [|r rest IH]; cbn [first_free]; [discriminate|].
  destruct (bool_decide (is_Some (fs !! tmp_name r suffix))) eqn:E; [exact IH|].
  intros [= <-]. apply bool_decide_eq_false_1 in E. by apply eq_None_not_Some.
Qed.

Ltac hsimpl :=
  cbv beta iota zeta delta
    [bind get ret modify raise lift on_frame in_world try_finally try_except
     logger_info logger_warning logger_error
     set_temp_file set_temp_path get_temp_file get_temp_path
     file_read tf_write tf_close os_path_exists os_unlink model_transcribe
     NamedTemporaryFile stage_upload transcribe_except
     transcribe_finally JSONResponse
     fst snd files model log set_files set_model add_log
     file_pos temp_file temp_path tf_name
     create_fault read_fault write_fault close_fault unlink_fault tmp_candidates
     stored_before_fault set_order json_names_value].

Ltac open_io i :=
  destruct i as [cands cf rf wf clf uf sb so jn];
  cbn [create_fault read_fault write_fault close_fault unlink_fault tmp_candidates
       stored_before_fault set_order json_names_value] in *;
  subst.

Lemma stage_upload_ok (i : io) (file : UploadFile) (ext : string) (w : world) (fr : frame)
    (p : string) :
  create_fault i = None -> read_fault i = None -> write_fault i = None ->
  close_fault i = None ->
  first_free (files w) ext (tmp_candidates i) = Some p ->
  file_pos fr = 0 ->
  stage_upload i file ext (w, fr) =
  (Return tt,
   (set_files (<[p := data file]> (files w)) w,
    {| file_pos := Z.of_nat (length (data file));
       temp_file := Some {| tf_name := p |}; temp_path := Some p |})).
Proof.
  intros Hc Hr Hw Hcl Hp Hpos.
  destruct w as [mo fs lg], fr as [pos tf tp]. open_io i.
  cbn [files file_pos] in *. subst pos.
  hsimpl. rewrite Hp. hsimpl. rewrite alter_insert_eq.
  cbn [Z.to_nat drop app]. rewrite Z.max_r by lia. reflexivity.
Qed.

Lemma stage_upload_create_fault (i : io) (file : UploadFile) (ext : string)
    (s : world * frame) (e : exn) :
  create_fault i = Some e -> stage_upload i file ext s = (Raise e, s).
Proof.
  intros Hc. destruct s as [[mo fs lg] fr]. open_io i. hsimpl. reflexivity.
Qed.

Lemma stage_upload_no_name (i : io) (file : UploadFile) (ext : string)
    (s : world * frame) :
  create_fault i = None -> first_free (files (fst s)) ext (tmp_candidates i) = None ->
  stage_upload i file ext s = (Raise FileExistsError_tmp, s).
Proof.
  intros Hc Hp. destruct s as [[mo fs lg] fr]. open_io i. cbn [fst files] in Hp.
  hsimpl. rewrite Hp. hsimpl. reflexivity.
Qed.

(** A fault of reading the upload or of writing it: the scratch file exists
    and holds what the fault left, [temp_file] is bound, [temp_path] is
    not. *)
Lemma stage_upload_fault (i : io) (file : UploadFile) (ext : string) (w : world) (fr : frame)
    (p : string) (e : exn) :
  create_fault i = None ->
  first_free (files w) ext (tmp_candidates i) = Some p ->
  read_fault i = Some e \/ (read_fault i = None /\ write_fault i = Some e) ->
  close_fault i = None ->
  file_pos fr = 0 ->
  exists pos,
  stage_upload i file ext (w, fr) =
  (Raise e,
   (set_files (<[p := left_by_fault i file]> (files w)) w,
    {| file_pos := pos; temp_file := Some {| tf_name := p |}; temp_path := temp_path fr |})).
Proof.
  intros Hc Hp Hrw Hcl Hpos.
  destruct w as [mo fs lg], fr as [pos tf tp]. cbn [file_pos] in Hpos. subst pos.
  unfold left_by_fault.
  destruct Hrw as [Hr|[Hr Hw]]; open_io i; cbn [files] in Hp.
  - exists 0. hsimpl. rewrite Hp. hsimpl. reflexivity.
  - eexists. hsimpl. rewrite Hp. hsimpl. rewrite alter_insert_eq.
    cbn [Z.to_nat drop app]. reflexivity.
Qed.

Lemma transcribe_finally_none (i : io) (w : world) (fr : frame) :
  temp_file fr = None -> transcribe_finally i (w, fr) = (Return tt, (w, fr)).
Proof. intros Hf. destruct fr as [pos tf tp]. cbn in Hf. subst tf. reflexivity. Qed.

Lemma transcribe_finally_unbound (i : io) (w : world) (fr : frame) (tf : TemporaryFile) :
  temp_file fr = Some tf -> temp_path fr = None ->
  transcribe_finally i (w, fr) = (Raise (UnboundLocalError "temp_path"), (w, fr)).
Proof.
  intros Hf Hp. destruct fr as [pos tf' tp]. cbn in Hf, Hp. subst tf' tp. reflexivity.
Qed.

Lemma transcribe_finally_absent (i : io) (w : world) (fr : frame) (tf : TemporaryFile)
    (p : string) :
  temp_file fr = Some tf -> temp_path fr = Some p -> files w !! p = None ->
  transcribe_finally i (w, fr) = (Return tt, (w, fr)).
Proof.
  intros Hf Hp Hn. destruct fr as [pos tf' tp], w as [mo fs lg].
  cbn [temp_file temp_path files] in *. subst tf' tp.
  hsimpl. rewrite Hn.
  rewrite bool_decide_eq_false_2 by (intros [x Hx]; discriminate Hx). reflexivity.
Qed.

Lemma transcribe_finally_unlink (i : io) (w : world) (fr : frame) (tf : TemporaryFile)
    (p : string) :
  temp_file fr = Some tf -> temp_path fr = Some p -> is_Some (files w !! p) ->
  transcribe_finally i (w, fr) =
  match unlink_fault i with
  | None => (Return tt, (set_files (delete p (files w)) w, fr))
  | Some e => (Return tt, (add_log (WARNING ("Failed to delete temp file: " ++ str_exn e)) w, fr))
  end.
Proof.
  intros Hf Hp Hs. destruct fr as [pos tf' tp], w as [mo fs lg].
  cbn [temp_file temp_path files] in *. subst tf' tp.
  destruct i as [cands cf rf wf clf [e|] sb so jn]; hsimpl;
    rewrite !(bool_decide_eq_true_2 _ Hs); reflexivity.
Qed.

(** A fault of reading or writing after the scratch file was created: the
    [finally] clause raises [UnboundLocalError], which leaves the handler;
    the scratch file stays, with what the fault left in it. *)
Lemma transcribe_staging_fault (i : io) (file : UploadFile) (w : world) (p : string) (e : exn) :
  PyStr.lower (Path.suffix (filename file)) ∈ ALLOWED_EXTENSIONS ->
  Z.of_nat (length (data file)) <= MAX_FILE_SIZE ->
  create_fault i = None ->
  first_free (files w) (PyStr.lower (Path.suffix (filename file))) (tmp_candidates i) = Some p ->
  read_fault i = Some e \/ (read_fault i = None /\ write_fault i = Some e) ->
  close_fault i = None ->
  post_transcribe i file w =
  (Unhandled (UnboundLocalError "temp_path"),
   add_log (ERROR ("Transcription error: " ++ str_exn e))
     (set_files (<[p := left_by_fault i file]> (files w)) w)).
Proof.
  intros Hmem Hsize Hc Hp Hrw Hcl.
  apply mem_elem_of in Hmem.
  unfold post_transcribe. rewrite transcribe_audio_eq. cbv zeta. rewrite Hmem. cbn [negb].
  apply Z.leb_le in Hsize. rewrite Z.leb_antisym in Hsize. apply negb_true_iff in Hsize.
  rewrite Hsize. cbn [fst snd].
  destruct (stage_upload_fault i file _ w
              {| file_pos := 0; temp_file := None; temp_path := temp_path new_frame |}
              p e Hc Hp Hrw Hcl eq_refl) as [pos Hst].
  unfold try_finally, try_except, transcribe_body. unfold bind at 1. rewrite Hst.
  unfold transcribe_except. unfold bind at 1. unfold in_world at 1, logger_error, modify, raise.
  cbn [fst snd].
  erewrite transcribe_finally_unbound by reflexivity.
  reflexivity.
Qed.

Lemma run_inference_eq (i : io) (file : UploadFile) (size : Z) (w : world) (fr : frame) (p : string) :
  temp_path fr = Some p ->
  run_inference i file size (w, fr) =
  let w1 := add_log (INFO ("Processing file: " ++ filename file
                           ++ " (" ++ format_kb size ++ " KB)")) w in
  match model w with
  | None => (Raise (AttributeError_None "transcribe"), (w1, fr))
  | Some m =>
      match transcribe m (files w) p 5 true 500 with
      | Raise e => (Raise e, (w1, fr))
      | Return r =>
          match segment_texts (fst r) with
          | Raise e => (Raise e, (w1, fr))
          | Return texts =>
              (JSONResponse i {| transcription := PyStr.strip (PyStr.join " " texts);
                                 language_detected := language (snd r);
                                 duration_seconds := PyFloat.round2 (duration (snd r)) |},
               (add_log (INFO ("Transcription completed. Language: " ++ language (snd r))) w1,
                fr))
          end
      end
  end.
Proof.
  intros Hp. destruct fr as [pos tf tp], w as [mo fs lg]. cbn [temp_path] in Hp. subst tp.
  unfold run_inference. hsimpl.
  destruct mo as [m|]; [|reflexivity].
  destruct (transcribe m fs p 5 true 500) as [r|e]; [|reflexivity].
  destruct (segment_texts _) as [texts|e]; reflexivity.
Qed.

Lemma run_inference_preserves (i : io) (file : UploadFile) (size : Z) (w : world) (fr : frame)
    (p : string) :
  temp_path fr = Some p ->
  files (fst (snd (run_inference i file size (w, fr)))) = files w
  /\ model (fst (snd (run_inference i file size (w, fr)))) = model w
  /\ snd (snd (run_inference i file size (w, fr))) = fr.
Proof.
  intros Hp. rewrite (run_inference_eq i file size w fr p Hp). cbv zeta.
  destruct w as [mo fs lg]. cbn [model files].
  destruct mo as [m|]; [|by repeat split].
  destruct (transcribe m fs p 5 true 500) as [r|e]; [|by repeat split].
  destruct (segment_texts (fst r)) as [texts|e]; by repeat split.
Qed.

(** The request once staging has succeeded: the result is the one of the
    inference part, an exception turned into [HTTPException(500)] with its
    text, and the scratch file goes through the [finally] clause in either
    case. *)
Lemma transcribe_audio_staged (i : io) (file : UploadFile) (w : world) (p : string) :
  valid_staging i file w p ->
  transcribe_audio i file (w, new_frame) =
  match run_inference i file (Z.of_nat (length (data file)))
          (staged_world file p w, staged_frame file p) with
  | (Return b, s) => (Return b, (cleaned i p (fst s), staged_frame file p))
  | (Raise e, s) =>
      (Raise (HTTPException 500 ("Transcription failed: " ++ str_exn e)),
       (cleaned i p (add_log (ERROR ("Transcription error: " ++ str_exn e)) (fst s)),
        staged_frame file p))
  end.
Proof.
  intros [Hext Hsize Hc Hr Hw Hcl Hp].
  apply mem_elem_of in Hext.
  rewrite transcribe_audio_eq. cbv zeta. rewrite Hext. cbn [negb].
  apply Z.leb_le in Hsize. rewrite Z.leb_antisym in Hsize. apply negb_true_iff in Hsize.
  rewrite Hsize. cbn [fst snd].
  unfold try_finally, try_except, transcribe_body. unfold bind at 1.
  rewrite (stage_upload_ok i file _ w
             {| file_pos := 0; temp_file := None; temp_path := temp_path new_frame |}
             p Hc Hr Hw Hcl Hp eq_refl).
  fold (staged_world file p w). fold (staged_frame file p).
  pose proof (run_inference_preserves i file (Z.of_nat (length (data file)))
                (staged_world file p w) (staged_frame file p) p eq_refl) as (Hf & _ & Hfr).
  destruct (run_inference _ _ _ _) as [[b|e] [w2 fr2]]; cbn [fst snd] in *; subst fr2.
  - assert (Hs : is_Some (files w2 !! p)).
    { rewrite Hf. unfold staged_world. cbn [files set_files]. rewrite lookup_insert_eq. eauto. }
    rewrite (transcribe_finally_unlink i w2 (staged_frame file p) {| tf_name := p |} p
               eq_refl eq_refl Hs).
    unfold cleaned. destruct (unlink_fault i); reflexivity.
  - unfold transcribe_except. unfold bind at 1. unfold in_world at 1, logger_error, modify, raise.
    cbn [fst snd].
    assert (Hs : is_Some (files (add_log (ERROR ("Transcription error: " ++ str_exn e)) w2) !! p)).
    { cbn [files add_log]. rewrite Hf. unfold staged_world. cbn [files set_files].
      rewrite lookup_insert_eq. eauto. }
    rewrite (transcribe_finally_unlink i _ (staged_frame file p) {| tf_name := p |} p
               eq_refl eq_refl Hs).
    unfold cleaned. destruct (unlink_fault i); reflexivity.
Qed.

Lemma post_transcribe_staged (i : io) (file : UploadFile) (w : world) (p : string) :
  valid_staging i file w p ->
  post_transcribe i file w =
  match run_inference i file (Z.of_nat (length (data file)))
          (staged_world file p w, staged_frame file p) with
  | (Return b, s) => (Ok200 b, cleaned i p (fst s))
  | (Raise e, s) =>
      (ErrorDetail 500 ("Transcription failed: " ++ str_exn e),
       cleaned i p (add_log (ERROR ("Transcription error: " ++ str_exn e)) (fst s)))
  end.
Proof.
  intros Hv. unfold post_transcribe. rewrite (transcribe_audio_staged i file w p Hv).
  destruct (run_inference _ _ _ _) as [[b|e] s]; reflexivity.
Qed.

Lemma stage_upload_return_inv (i : io) (file : UploadFile) (ext : string) (w : world)
    (fr : frame) (u : unit) (s1 : world * frame) :
  stage_upload i file ext (w, fr) = (Return u, s1) ->
  create_fault i = None /\ read_fault i = None /\ write_fault i = None
  /\ close_fault i = None
  /\ exists p, first_free (files w) ext (tmp_candidates i) = Some p.
Proof.
  destruct w as [mo fs lg], fr as [pos tf tp].
  destruct i as [cands [e1|] [e2|] [e3|] [e4|] uf sb so jn]; hsimpl;
    try discriminate;
    destruct (first_free fs ext cands) as [p|] eqn:Hp; hsimpl; try discriminate.
  intros _. repeat split. by exists p.
Qed.

(** The [except] clause always raises, and the [finally] clause never turns
    an exception into a value: the statement returns only what its [try]
    block returned. *)
Lemma try_statement_return_inv (i : io) (file : UploadFile) (ext : string) (size : Z)
    (s s' : world * frame) (b : TranscriptionBody) :
  try_finally (try_except (transcribe_body i file ext size) transcribe_except)
    (transcribe_finally i) s = (Return b, s') ->
  exists s1, transcribe_body i file ext size s = (Return b, s1).
Proof.
  unfold try_finally, try_except.
  destruct (transcribe_body i file ext size s) as [[b1|e] s1].
  - destruct (transcribe_finally i s1) as [[u|e] s2]; [|discriminate].
    intros [= <- <-]. by exists s1.
  - unfold transcribe_except, bind, in_world, raise.
    destruct (logger_error _ _) as [[u|e1] w1];
      destruct (transcribe_finally i _) as [[u2|e2] s2]; discriminate.
Qed.

Lemma post_transcribe_ok_inv (i : io) (file : UploadFile) (w w' : world)
    (b : TranscriptionBody) :
  post_transcribe i file w = (Ok200 b, w') ->
  exists p, valid_staging i file w p.
Proof.
  unfold post_transcribe. rewrite transcribe_audio_eq. cbv zeta.
  destruct (PyStr.mem _ ALLOWED_EXTENSIONS) eqn:Hmem; cbn [negb]; [|discriminate].
  destruct (MAX_FILE_SIZE <? _) eqn:Hsize; [discriminate|].
  destruct (try_finally _ _ _) as [o s'] eqn:Htry.
  destruct o as [b'|e]; [|destruct e; discriminate].
  intros _.
  apply try_statement_return_inv in Htry as [s1 Hbody].
  unfold transcribe_body, bind in Hbody. cbn [fst snd] in Hbody.
  destruct (stage_upload i file _ _) as [[u|e] s0] eqn:Hst; [|discriminate].
  apply stage_upload_return_inv in Hst as (Hc & Hr & Hw & Hcl & p & Hp).
  exists p. split; try done.
  - by apply mem_elem_of.
  - apply Z.ltb_ge in Hsize. exact Hsize.
Qed.

(** The body the handler builds from the texts and the summary. *)
Lemma run_inference_return (i : io) (file : UploadFile) (size : Z) (w : world) (fr : frame)
    (p : string) (m : WhisperModel) (r : segment_stream * TranscriptionInfo)
    (texts : list string) :
  temp_path fr = Some p -> model w = Some m ->
  transcribe m (files w) p 5 true 500 = Return r ->
  segment_texts (fst r) = Return texts ->
  PyFloat.isfinite (PyFloat.round2 (duration (snd r))) = true ->
  fst (run_inference i file size (w, fr)) =
  Return {| transcription := PyStr.strip (PyStr.join " " texts);
            language_detected := language (snd r);
            duration_seconds := PyFloat.round2 (duration (snd r)) |}.
Proof.
  intros Hp Hm Ht Hs Hf. rewrite (run_inference_eq i file size w fr p Hp). cbv zeta.
  rewrite Hm, Ht, Hs. unfold JSONResponse. cbn [duration_seconds]. rewrite Hf. reflexivity.
Qed.

Lemma run_inference_return_inv (i : io) (file : UploadFile) (size : Z) (w : world) (fr : frame)
    (p : string) (b : TranscriptionBody) (s : world * frame) :
  temp_path fr = Some p ->
  run_inference i file size (w, fr) = (Return b, s) ->
  exists m r texts,
    model w = Some m
    /\ transcribe m (files w) p 5 true 500 = Return r
    /\ segment_texts (fst r) = Return texts
    /\ b = {| transcription := PyStr.strip (PyStr.join " " texts);
              language_detected := language (snd r);
              duration_seconds := PyFloat.round2 (duration (snd r)) |}.
Proof.
  intros Hp. rewrite (run_inference_eq i file size w fr p Hp). cbv zeta.
  destruct (model w) as [m|] eqn:Hm; [|discriminate].
  destruct (transcribe m (files w) p 5 true 500) as [r|e] eqn:Ht; [|discriminate].
  destruct (segment_texts (fst r)) as [texts|e] eqn:Hs; [|discriminate].
  unfold JSONResponse. cbn [duration_seconds].
  destruct (PyFloat.isfinite _); [|discriminate].
  intros [= <- _]. by exists m, r, texts.
Qed.

Lemma transcribe_success (i : io) (file : UploadFile) (w : world) (p : string)
    (m : WhisperModel) (r : segment_stream * TranscriptionInfo) (texts : list string) :
  valid_staging i file w p -> model w = Some m ->
  transcribe m (<[p := data file]> (files w)) p 5 true 500 = Return r ->
  segment_texts (fst r) = Return texts ->
  PyFloat.isfinite (PyFloat.round2 (duration (snd r))) = true ->
  fst (post_transcribe i file w) =
  Ok200 {| transcription := PyStr.strip (PyStr.join " " texts);
           language_detected := language (snd r);
           duration_seconds := PyFloat.round2 (duration (snd r)) |}.
Proof.
  intros Hv Hm Ht Hs Hf. rewrite (post_transcribe_staged i file w p Hv).
  pose proof (run_inference_return i file (Z.of_nat (length (data file)))
                (staged_world file p w) (staged_frame file p) p m r texts
                eq_refl Hm Ht Hs Hf) as Hrun.
  destruct (run_inference _ _ _ _) as [[b|e] s]; cbn [fst] in Hrun; [|discriminate].
  injection Hrun as ->. reflexivity.
Qed.

Lemma transcribe_success_inv (i : io) (file : UploadFile) (w w' : world)
    (b : TranscriptionBody) :
  post_transcribe i file w = (Ok200 b, w') ->
  exists p m r texts,
    valid_staging i file w p /\ model w = Some m
    /\ transcribe m (<[p := data file]> (files w)) p 5 true 500 = Return r
    /\ segment_texts (fst r) = Return texts
    /\ b = {| transcription := PyStr.strip (PyStr.join " " texts);
              language_detected := language (snd r);
              duration_seconds := PyFloat.round2 (duration (snd r)) |}.
Proof.
  intros Hok. destruct (post_transcribe_ok_inv i file w w' b Hok) as [p Hv].
  rewrite (post_transcribe_staged i file w p Hv) in Hok.
  destruct (run_inference _ _ _ _) as [[b'|e] s] eqn:Hrun; [|discriminate].
  injection Hok as -> _.
  apply (run_inference_return_inv _ _ _ _ _ p) in Hrun as (m & r & texts & Hm & Ht & Hs & Hb);
    [|reflexivity].
  exists p, m, r, texts. repeat split; try done; apply Hv.
Qed.

(** ** The other exits of the [try] statement *)

(** The scratch file cannot be created: [temp_file] is still [None], the
    [finally] clause has nothing to do, and the answer is the 500 detail. *)
Lemma create_fault_is_500 (i : io) (file : UploadFile) (w : world) (e : exn) :
  PyStr.lower (Path.suffix (filename file)) ∈ ALLOWED_EXTENSIONS ->
  Z.of_nat (length (data file)) <= MAX_FILE_SIZE ->
  create_fault i = Some e ->
  post_transcribe i file w =
  (ErrorDetail 500 ("Transcription failed: " ++ str_exn e),
   add_log (ERROR ("Transcription error: " ++ str_exn e)) w).
Proof.
  intros Hmem Hsize Hc. apply mem_elem_of in Hmem.
  unfold post_transcribe. rewrite transcribe_audio_eq. cbv zeta. rewrite Hmem. cbn [negb].
  apply Z.leb_le in Hsize. rewrite Z.leb_antisym in Hsize. apply negb_true_iff in Hsize.
  rewrite Hsize. cbn [fst snd].
  unfold try_finally, try_except, transcribe_body. unfold bind at 1.
  rewrite (stage_upload_create_fault i file _ _ e Hc).
  unfold transcribe_except. unfold bind at 1. unfold in_world at 1, logger_error, modify, raise.
  cbn [fst snd].
  rewrite transcribe_finally_none by reflexivity. reflexivity.
Qed.

(** Closing the scratch file fails: [temp_path] was assigned before, so the
    answer is the 500 detail and the [finally] clause deals with the file. *)
Lemma close_fault_is_500 (i : io) (file : UploadFile) (w : world) (p : string) (e : exn) :
  PyStr.lower (Path.suffix (filename file)) ∈ ALLOWED_EXTENSIONS ->
  Z.of_nat (length (data file)) <= MAX_FILE_SIZE ->
  create_fault i = None -> read_fault i = None -> write_fault i = None ->
  close_fault i = Some e ->
  first_free (files w) (PyStr.lower (Path.suffix (filename file))) (tmp_candidates i) = Some p ->
  post_transcribe i file w =
  (ErrorDetail 500 ("Transcription failed: " ++ str_exn e),
   cleaned i p (add_log (ERROR ("Transcription error: " ++ str_exn e))
                  (unflushed_world i file p w))).
Proof.
  intros Hmem Hsize Hc Hr Hw Hcl Hp. apply mem_elem_of in Hmem.
  unfold post_transcribe. rewrite transcribe_audio_eq. cbv zeta. rewrite Hmem. cbn [negb].
  apply Z.leb_le in Hsize. rewrite Z.leb_antisym in Hsize. apply negb_true_iff in Hsize.
  rewrite Hsize. cbn [fst snd].
  unfold try_finally, try_except, transcribe_body. unfold bind at 1.
  assert (Hst : stage_upload i file (PyStr.lower (Path.suffix (filename file)))
                  (w, {| file_pos := 0; temp_file := None; temp_path := temp_path new_frame |})
                = (Raise e, (unflushed_world i file p w, staged_frame file p))).
  { destruct w as [mo fs lg]. unfold unflushed_world. open_io i. cbn [files] in Hp.
    hsimpl. rewrite Hp. hsimpl. rewrite !alter_insert_eq.
    cbn [Z.to_nat drop app]. rewrite Z.max_r by lia. reflexivity. }
  rewrite Hst.
  unfold transcribe_except. unfold bind at 1. unfold in_world at 1, logger_error, modify, raise.
  cbn [fst snd].
  assert (Hs : is_Some (files (add_log (ERROR ("Transcription error: " ++ str_exn e))
                                 (unflushed_world i file p w)) !! p)).
  { unfold unflushed_world. cbn [files add_log set_files]. rewrite lookup_insert_eq. eauto. }
  rewrite (transcribe_finally_unlink i _ (staged_frame file p) {| tf_name := p |} p
             eq_refl eq_refl Hs).
  unfold cleaned. destruct (unlink_fault i); reflexivity.
Qed.

(** Once the upload is staged, the request is answered with 200 or with the
    500 detail, never by an exception that leaves the handler, and the
    scratch file is gone afterwards unless unlinking it failed. *)
Lemma staged_request_is_answered_and_cleaned (i : io) (file : UploadFile) (w : world)
    (p : string) :
  valid_staging i file w p ->
  ((exists b, fst (post_transcribe i file w) = Ok200 b)
   \/ (exists e, fst (post_transcribe i file w)
                 = ErrorDetail 500 ("Transcription failed: " ++ str_exn e)))
  /\ files (snd (post_transcribe i file w))
     = match unlink_fault i with
       | None => files w
       | Some _ => <[p := data file]> (files w)
       end
  /\ model (snd (post_transcribe i file w)) = model w.
Proof.
  intros Hv.
  pose proof (first_free_fresh _ _ _ _ (vs_name _ _ _ _ Hv)) as Hfresh.
  rewrite (post_transcribe_staged i file w p Hv).
  pose proof (run_inference_preserves i file (Z.of_nat (length (data file)))
                (staged_world file p w) (staged_frame file p) p eq_refl) as (Hf & Hm & _).
  destruct (run_inference _ _ _ _) as [[b|e] [w2 fr2]]; cbn [fst snd] in *.
  all: split; [eauto|].
  all: unfold cleaned; destruct (unlink_fault i);
    cbn [files model add_log set_files]; rewrite Hf, Hm;
    unfold staged_world; cbn [files model set_files].
  all: try rewrite delete_insert_eq, (delete_id _ _ Hfresh).
  all: split; reflexivity.
Qed.

(** No drawn name is free: the answer is the 500 detail and nothing was
    created. *)
Lemma no_name_is_500 (i : io) (file : UploadFile) (w : world) :
  PyStr.lower (Path.suffix (filename file)) ∈ ALLOWED_EXTENSIONS ->
  Z.of_nat (length (data file)) <= MAX_FILE_SIZE ->
  create_fault i = None ->
  first_free (files w) (PyStr.lower (Path.suffix (filename file))) (tmp_candidates i) = None ->
  post_transcribe i file w =
  (ErrorDetail 500 ("Transcription failed: " ++ str_exn FileExistsError_tmp),
   add_log (ERROR ("Transcription error: " ++ str_exn FileExistsError_tmp)) w).
Proof.
  intros Hmem Hsize Hc Hp. apply mem_elem_of in Hmem.
  unfold post_transcribe. rewrite transcribe_audio_eq. cbv zeta. rewrite Hmem. cbn [negb].
  apply Z.leb_le in Hsize. rewrite Z.leb_antisym in Hsize. apply negb_true_iff in Hsize.
  rewrite Hsize. cbn [fst snd].
  unfold try_finally, try_except, transcribe_body. unfold bind at 1.
  rewrite (stage_upload_no_name i file _
             (w, {| file_pos := 0; temp_file := None; temp_path := temp_path new_frame |})
             Hc Hp).
  unfold transcribe_except. unfold bind at 1. unfold in_world at 1, logger_error, modify, raise.
  cbn [fst snd].
  rewrite transcribe_finally_none by reflexivity. reflexivity.
Qed.

(** A fault of reading or of writing, whatever closing does afterwards:
    some exception leaves the [with] statement, the scratch file exists with
    what the fault left in it, and [temp_path] is as unbound as before. *)
Lemma stage_upload_fault_any_close (i : io) (file : UploadFile) (ext : string) (w : world)
    (fr : frame) (p : string) :
  create_fault i = None ->
  first_free (files w) ext (tmp_candidates i) = Some p ->
  read_fault i <> None \/ write_fault i <> None ->
  file_pos fr = 0 ->
  exists e pos,
  stage_upload i file ext (w, fr) =
  (Raise e,
   (set_files (<[p := left_by_fault i file]> (files w)) w,
    {| file_pos := pos; temp_file := Some {| tf_name := p |}; temp_path := temp_path fr |})).
Proof.
  intros Hc Hp Hrw Hpos.
  destruct w as [mo fs lg], fr as [pos tf tp]. cbn [file_pos] in Hpos. subst pos.
  unfold left_by_fault.
  destruct i as [cands cf [er|] [ew|] [ec|] uf sb so jn];
    cbn [create_fault read_fault write_fault tmp_candidates files stored_before_fault] in *;
    subst cf;
    try (destruct Hrw as [Hrw|Hrw]; congruence).
  all: do 2 eexists; hsimpl; rewrite Hp; hsimpl; rewrite ?alter_insert_eq;
    cbn [Z.to_nat drop app]; rewrite ?take_take, ?Nat.min_id, ?take_nil; reflexivity.
Qed.

Lemma staging_fault_unhandled (i : io) (file : UploadFile) (w : world) (p : string) :
  PyStr.lower (Path.suffix (filename file)) ∈ ALLOWED_EXTENSIONS ->
  Z.of_nat (length (data file)) <= MAX_FILE_SIZE ->
  create_fault i = None ->
  first_free (files w) (PyStr.lower (Path.suffix (filename file))) (tmp_candidates i) = Some p ->
  read_fault i <> None \/ write_fault i <> None ->
  exists e,
    post_transcribe i file w =
    (Unhandled (UnboundLocalError "temp_path"),
     add_log (ERROR ("Transcription error: " ++ str_exn e))
       (set_files (<[p := left_by_fault i file]> (files w)) w)).
Proof.
  intros Hmem Hsize Hc Hp Hrw.
  apply mem_elem_of in Hmem.
  unfold post_transcribe. rewrite transcribe_audio_eq. cbv zeta. rewrite Hmem. cbn [negb].
  apply Z.leb_le in Hsize. rewrite Z.leb_antisym in Hsize. apply negb_true_iff in Hsize.
  rewrite Hsize. cbn [fst snd].
  destruct (stage_upload_fault_any_close i file _ w
              {| file_pos := 0; temp_file := None; temp_path := temp_path new_frame |}
              p Hc Hp Hrw eq_refl) as (e & pos & Hst).
  exists e.
  unfold try_finally, try_except, transcribe_body. unfold bind at 1. rewrite Hst.
  unfold transcribe_except. unfold bind at 1. unfold in_world at 1, logger_error, modify, raise.
  cbn [fst snd].
  erewrite transcribe_finally_unbound by reflexivity.
  reflexivity.
Qed.

(** Every answer of [POST /transcribe]: a 200, a 400, the 500 detail built
    from an exception's text, or [UnboundLocalError] leaving the handler,
    and this last one exactly for a fault of reading or writing after the
    scratch file was created. *)
Lemma post_transcribe_cases (i : io) (file : UploadFile) (w : world) :
  match fst (post_transcribe i file w) with
  | Ok200 _ => True
  | ErrorDetail c d =>
      c = 400 \/ (c = 500 /\ exists e, d = "Transcription failed: " ++ str_exn e)
  | Unhandled e =>
      e = UnboundLocalError "temp_path"
      /\ create_fault i = None
      /\ (read_fault i <> None \/ write_fault i <> None)
  end.
Proof.
  destruct (PyStr.mem (PyStr.lower (Path.suffix (filename file))) ALLOWED_EXTENSIONS) eqn:Hmem.
  2: { rewrite (reject_invalid_type i file w Hmem). cbn [fst]. by left. }
  destruct (Z.lt_ge_cases MAX_FILE_SIZE (Z.of_nat (length (data file)))) as [Hbig|Hsize].
  { rewrite (reject_too_large i file w Hmem Hbig). cbn [fst]. by left. }
  apply mem_elem_of in Hmem.
  destruct (create_fault i) as [e|] eqn:Hc.
  { rewrite (create_fault_is_500 i file w e Hmem Hsize Hc). cbn [fst]. right. eauto. }
  destruct (first_free (files w) (PyStr.lower (Path.suffix (filename file)))
              (tmp_candidates i)) as [p|] eqn:Hp.
  2: { rewrite (no_name_is_500 i file w Hmem Hsize Hc Hp). cbn [fst]. right. eauto. }
  destruct (read_fault i) as [er|] eqn:Hr.
  { assert (Hrw : read_fault i <> None \/ write_fault i <> None) by (left; congruence).
    destruct (staging_fault_unhandled i file w p Hmem Hsize Hc Hp Hrw) as [e ->].
    cbn [fst]. rewrite Hr in Hrw. done. }
  destruct (write_fault i) as [ew|] eqn:Hw.
  { assert (Hrw : read_fault i <> None \/ write_fault i <> None) by (right; congruence).
    destruct (staging_fault_unhandled i file w p Hmem Hsize Hc Hp Hrw) as [e ->].
    cbn [fst]. rewrite Hr, Hw in Hrw. done. }
  destruct (close_fault i) as [ec|] eqn:Hcl.
  { rewrite (close_fault_is_500 i file w p ec Hmem Hsize Hc Hr Hw Hcl Hp). cbn [fst].
    right. eauto. }
  assert (Hv : valid_staging i file w p) by (by split).
  destruct (staged_request_is_answered_and_cleaned i file w p Hv) as ([[b ->]|[e ->]] & _).
  - exact I.
  - right. eauto.
Qed.

(** ** The response of a successful transcription *)

(** [div_half_even n d] is an integer nearest to [n / d]. *)
Lemma div_half_even_nearest (n d : Z) :
  0 < d -> 2 * Z.abs (n - PyFloat.div_half_even n d * d) <= d.
Proof.
  intros Hd. unfold PyFloat.div_half_even.
  pose proof (Z.div_mod n d ltac:(lia)) as Hdm.
  pose proof (Z.mod_pos_bound n d Hd) as Hm.
  destruct (2 * (n mod d) ?= d) eqn:E.
  - apply Z.compare_eq in E. destruct (Z.even (n / d)); nia.
  - rewrite Z.compare_lt_iff in E. nia.
  - rewrite Z.compare_gt_iff in E. nia.
Qed.

(** The two decimal places [round2] keeps: [hundredths m e] is an integer
    nearest to [100 * m * 2^e]. *)
Lemma hundredths_nearest (m : positive) (e : Z) :
  (0 <= e -> PyFloat.hundredths m e = 100 * Z.pos m * 2 ^ e)
  /\ (e < 0 ->
      2 * Z.abs (100 * Z.pos m - PyFloat.hundredths m e * 2 ^ (- e)) <= 2 ^ (- e)).
Proof.
  unfold PyFloat.hundredths. split; intros He.
  - apply Z.leb_le in He. by rewrite He.
  - assert (Hlt : (0 <=? e) = false) by (apply Z.leb_gt; exact He).
    rewrite Hlt. apply div_half_even_nearest. apply Z.pow_pos_nonneg; lia.
Qed.

Lemma div_half_even_lower (a n d : Z) :
  0 < d -> a * d <= n -> a <= PyFloat.div_half_even n d.
Proof. intros Hd Ha. pose proof (div_half_even_nearest n d Hd). nia. Qed.

Lemma div_half_even_upper (b n d : Z) :
  0 < d -> n <= b * d -> PyFloat.div_half_even n d <= b.
Proof. intros Hd Hb. pose proof (div_half_even_nearest n d Hd). nia. Qed.

Lemma digits2_log2 (p : positive) : Z.pos (digits2_pos p) = Z.log2 (Z.pos p) + 1.
Proof.
  assert (H : forall q, digits2_pos q = Pos.size q).
  { induction q as [q IH|q IH|]; cbn; by rewrite ?IH. }
  rewrite H. destruct p; cbn; lia.
Qed.

(** A mantissa of 53 bits is canonical at every exponent from the smallest
    on, and a shorter one at the smallest exponent. *)
Lemma canonical_53 (p : positive) (e : Z) :
  Z.pos p < 2 ^ 53 -> -1074 <= e -> (2 ^ 52 <= Z.pos p \/ e = -1074) ->
  canonical_mantissa PyFloat.prec PyFloat.emax p e = true.
Proof.
  intros Hub He Hlb. unfold canonical_mantissa, fexp, SpecFloat.emin.
  rewrite digits2_log2. apply Z.eqb_eq.
  assert (Hl : Z.log2 (Z.pos p) < 53) by (apply Z.log2_lt_pow2; lia).
  unfold PyFloat.prec, PyFloat.emax in *.
  destruct Hlb as [Hlb| ->].
  - assert (52 <= Z.log2 (Z.pos p)) by (apply Z.log2_le_pow2; lia). lia.
  - lia.
Qed.

Lemma in_units_spec (n d e : Z) :
  0 <= n -> 0 < d ->
  0 <= fst (PyFloat.in_units n d e) /\ 0 < snd (PyFloat.in_units n d e)
  /\ ((0 <= e /\ PyFloat.in_units n d e = (n, d * 2 ^ e))
      \/ (e < 0 /\ PyFloat.in_units n d e = (n * 2 ^ (- e), d))).
Proof.
  intros Hn Hd. unfold PyFloat.in_units.
  destruct (Z.leb_spec 0 e) as [He|He]; cbn [fst snd].
  - assert (0 < 2 ^ e) by (apply Z.pow_pos_nonneg; lia). split; [lia|]. split; [nia|]. by left.
  - assert (0 < 2 ^ (- e)) by (apply Z.pow_pos_nonneg; lia). split; [nia|]. split; [lia|]. by right.
Qed.

(** The exponent read off the bit lengths leaves the quotient at least 53
    bits. *)
Lemma in_units_rough (n d : Z) :
  0 < n -> 0 < d ->
  2 ^ 52 * snd (PyFloat.in_units n d (Z.log2 n - Z.log2 d - 53))
  <= fst (PyFloat.in_units n d (Z.log2 n - Z.log2 d - 53)).
Proof.
  intros Hn Hd.
  destruct (Z.log2_spec n Hn) as [Hn1 _]. destruct (Z.log2_spec d Hd) as [_ Hd2].
  pose proof (Z.log2_nonneg n). pose proof (Z.log2_nonneg d).
  set (ln := Z.log2 n) in *. set (ld := Z.log2 d) in *.
  unfold PyFloat.in_units. destruct (Z.leb_spec 0 (ln - ld - 53)) as [He|He]; cbn [fst snd].
  - assert (E : 2 ^ 52 * 2 ^ Z.succ ld * 2 ^ (ln - ld - 53) = 2 ^ ln).
    { rewrite <- !Z.pow_add_r by lia. f_equal. lia. }
    assert (0 < 2 ^ (ln - ld - 53)) by (apply Z.pow_pos_nonneg; lia).
    nia.
  - assert (E : 2 ^ ln * 2 ^ (- (ln - ld - 53)) = 2 ^ 52 * 2 ^ Z.succ ld).
    { rewrite <- !Z.pow_add_r by lia. f_equal. lia. }
    assert (0 < 2 ^ (- (ln - ld - 53))) by (apply Z.pow_pos_nonneg; lia).
    nia.
Qed.


Lemma half_bound_cancel (k x y : Z) :
  0 < k -> 2 * Z.abs (k * x) <= k * y -> 2 * Z.abs x <= y.
Proof.
  intros Hk H. rewrite Z.abs_mul, (Z.abs_eq k) in H by lia.
  apply (Z.mul_le_mono_pos_l _ _ k Hk). lia.
Qed.

(** The quotient [a / c] counted in units of [2^t], where [t] leaves it 53
    bits when it has more: the rounded mantissa has at most 53 bits, or is
    [2^53], and has 53 bits when [t] is not 0. *)
Lemma mantissa_53 (a c : Z) :
  0 <= a -> 0 < c ->
  let t := Z.max (Z.log2 (a / c) + 1 - 53) 0 in
  let m := PyFloat.div_half_even a (c * 2 ^ t) in
  0 <= t /\ 0 <= m <= 2 ^ 53
  /\ 2 * Z.abs (a - m * (c * 2 ^ t)) <= c * 2 ^ t
  /\ (0 < t -> 2 ^ 52 * (c * 2 ^ t) <= a).
Proof.
  intros Ha Hc t m.
  set (Q := a / c) in *.
  assert (HQ : 0 <= Q) by (apply Z.div_pos; lia).
  pose proof (Z.mul_div_le a c Hc) as HQ1. fold Q in HQ1.
  pose proof (Z.mul_succ_div_gt a c Hc) as HQ2. fold Q in HQ2.
  set (L := Z.log2 Q) in *.
  assert (HL : 0 <= L) by apply Z.log2_nonneg.
  assert (Ht : 0 <= t) by (unfold t; lia).
  assert (Hpt : 0 < 2 ^ t) by (apply Z.pow_pos_nonneg; lia).
  assert (HD : 0 < c * 2 ^ t) by (apply Z.mul_pos_pos; lia).
  pose proof (div_half_even_nearest a (c * 2 ^ t) HD) as Hnear. fold m in Hnear.
  assert (Hupper : a <= 2 ^ 53 * (c * 2 ^ t)).
  { destruct (Z.eq_dec Q 0) as [HQ0|HQ0].
    - rewrite HQ0 in HQ2. clear - HQ2 Hc Hpt. set (T := 2 ^ t) in *. clearbody T.
      assert (HB : 0 < 2 ^ 53) by reflexivity. set (B := 2 ^ 53) in *. clearbody B.
      assert (H1 : c <= c * T) by nia. assert (H2 : c * T <= B * (c * T)) by nia. lia.
    - assert (HQp : 0 < Q) by lia.
      destruct (Z.log2_spec Q HQp) as [_ Hlt]. fold L in Hlt.
      assert (E : 2 ^ Z.succ L <= 2 ^ 53 * 2 ^ t).
      { rewrite <- Z.pow_add_r by lia. apply Z.pow_le_mono_r; unfold t; lia. }
      clear - HQ2 Hlt E Hc. set (T := 2 ^ t) in *. set (B := 2 ^ 53) in *.
      set (S := 2 ^ Z.succ L) in *. clearbody T B S. nia. }
  assert (Hlower : 0 < t -> 2 ^ 52 * (c * 2 ^ t) <= a).
  { intros Htp.
    assert (HQp : 0 < Q).
    { destruct (Z.eq_dec Q 0) as [HQ0|HQ0]; [|lia].
      unfold t, L in Htp. rewrite HQ0 in Htp. cbn in Htp. lia. }
    destruct (Z.log2_spec Q HQp) as [Hge _]. fold L in Hge.
    assert (E : 2 ^ L = 2 ^ 52 * 2 ^ t).
    { rewrite <- Z.pow_add_r by lia. f_equal. unfold t. lia. }
    clear - HQ1 Hge E Hc. set (T := 2 ^ t) in *. set (B := 2 ^ 52) in *.
    set (S := 2 ^ L) in *. clearbody T B S. nia. }
  split; [exact Ht|]. split; [|split; [exact Hnear|exact Hlower]].
  split.
  - apply div_half_even_lower; lia.
  - apply div_half_even_upper; [exact HD|exact Hupper].
Qed.

(** A bound in the units [2^(e0 + t)] of the fraction [in_units n d e0],
    read on [n] and [d]. *)
Lemma in_units_bound (n d e0 t m : Z) :
  0 <= n -> 0 < d -> 0 <= t ->
  2 * Z.abs (fst (PyFloat.in_units n d e0) - m * (snd (PyFloat.in_units n d e0) * 2 ^ t))
    <= snd (PyFloat.in_units n d e0) * 2 ^ t ->
  (0 <= e0 + t -> 2 * Z.abs (n - m * 2 ^ (e0 + t) * d) <= d * 2 ^ (e0 + t))
  /\ (e0 + t < 0 -> 2 * Z.abs (n * 2 ^ (- (e0 + t)) - m * d) <= d).
Proof.
  intros Hn Hd Ht. unfold PyFloat.in_units.
  destruct (Z.leb_spec 0 e0) as [He|He]; cbn [fst snd]; intros Hnear.
  - split; [intros _|lia].
    rewrite Z.pow_add_r by lia.
    replace (m * (2 ^ e0 * 2 ^ t) * d) with (m * (d * 2 ^ e0 * 2 ^ t)) by ring.
    replace (d * (2 ^ e0 * 2 ^ t)) with (d * 2 ^ e0 * 2 ^ t) by ring. exact Hnear.
  - assert (HA : 0 < 2 ^ (- e0)) by (apply Z.pow_pos_nonneg; lia).
    assert (HT : 0 < 2 ^ t) by (apply Z.pow_pos_nonneg; lia).
    split; intros Hu.
    + assert (E : 2 ^ t = 2 ^ (- e0) * 2 ^ (e0 + t)).
      { rewrite <- Z.pow_add_r by lia. f_equal. lia. }
      rewrite E in Hnear. apply (half_bound_cancel (2 ^ (- e0))); [exact HA|].
      replace (2 ^ (- e0) * (n - m * 2 ^ (e0 + t) * d))
        with (n * 2 ^ (- e0) - m * (d * (2 ^ (- e0) * 2 ^ (e0 + t)))) by ring.
      replace (2 ^ (- e0) * (d * 2 ^ (e0 + t))) with (d * (2 ^ (- e0) * 2 ^ (e0 + t))) by ring.
      exact Hnear.
    + assert (E : 2 ^ (- e0) = 2 ^ t * 2 ^ (- (e0 + t))).
      { rewrite <- Z.pow_add_r by lia. f_equal. lia. }
      rewrite E in Hnear. apply (half_bound_cancel (2 ^ t)); [exact HT|].
      replace (2 ^ t * (n * 2 ^ (- (e0 + t)) - m * d))
        with (n * (2 ^ t * 2 ^ (- (e0 + t))) - m * (d * 2 ^ t)) by ring.
      rewrite (Z.mul_comm (2 ^ t) d). exact Hnear.
Qed.

Lemma in_units_lower (n d e0 t b : Z) :
  0 <= n -> 0 < d -> 0 <= t -> 0 <= e0 + t ->
  b * (snd (PyFloat.in_units n d e0) * 2 ^ t) <= fst (PyFloat.in_units n d e0) ->
  b * d * 2 ^ (e0 + t) <= n.
Proof.
  intros Hn Hd Ht Hu. unfold PyFloat.in_units.
  destruct (Z.leb_spec 0 e0) as [He|He]; cbn [fst snd]; intros Hf.
  - rewrite Z.pow_add_r by lia. lia.
  - assert (HA : 0 < 2 ^ (- e0)) by (apply Z.pow_pos_nonneg; lia).
    assert (E : 2 ^ t = 2 ^ (- e0) * 2 ^ (e0 + t)).
    { rewrite <- Z.pow_add_r by lia. f_equal. lia. }
    rewrite E in Hf. apply (Z.mul_le_mono_pos_l _ _ (2 ^ (- e0)) HA). lia.
Qed.

Lemma in_units_zero (d e0 : Z) : fst (PyFloat.in_units 0 d e0) = 0.
Proof. unfold PyFloat.in_units. by destruct (0 <=? e0). Qed.

(** What [of_ratio] returns: a canonical binary64 value within half a unit
    in its last place of [n / d]; a zero when [n / d] is at most half the
    smallest positive value; an infinity when [n / d] is at least half a unit
    above the largest finite value. *)
Lemma of_ratio_spec (s : bool) (n d : Z) :
  0 <= n -> 0 < d ->
  match PyFloat.of_ratio s n d with
  | S754_zero s' => s' = s /\ 2 * n * 2 ^ 1074 <= d
  | S754_finite s' p e =>
      s' = s /\ valid_binary PyFloat.prec PyFloat.emax (S754_finite s' p e) = true
      /\ (0 <= e -> 2 * Z.abs (n - Z.pos p * 2 ^ e * d) <= d * 2 ^ e)
      /\ (e < 0 -> 2 * Z.abs (n * 2 ^ (- e) - Z.pos p * d) <= d)
  | S754_infinity s' => s' = s /\ (2 ^ 54 - 1) * 2 ^ 970 * d <= n
  | S754_nan => False
  end.
Proof.
  intros Hn Hd. unfold PyFloat.of_ratio.
  change PyFloat.prec with 53. change PyFloat.emax with 1024. change PyFloat.emin with (-1074).
  set (e0 := Z.max (Z.log2 n - Z.log2 d - 53) (-1074)).
  assert (He0 : -1074 <= e0) by (unfold e0; lia).
  destruct (in_units_spec n d e0 Hn Hd) as (Ha & Hc & _).
  assert (Hrough : 0 < n -> -1074 < e0 ->
            2 ^ 52 * snd (PyFloat.in_units n d e0) <= fst (PyFloat.in_units n d e0)).
  { intros Hnp Hun. replace e0 with (Z.log2 n - Z.log2 d - 53) by (unfold e0 in *; lia).
    by apply in_units_rough. }
  clearbody e0.
  pose proof (in_units_bound n d e0) as Hbound.
  pose proof (in_units_lower n d e0) as Hlow.
  assert (Hzero : n = 0 -> fst (PyFloat.in_units n d e0) = 0)
    by (intros ->; apply in_units_zero).
  destruct (PyFloat.in_units n d e0) as [a c]. cbn [fst snd] in *.
  destruct (mantissa_53 a c Ha Hc) as (Ht & [Hm0 Hub] & Hnear & Hfull).
  set (t := Z.max (Z.log2 (a / c) + 1 - 53) 0) in *. clearbody t.
  set (m := PyFloat.div_half_even a (c * 2 ^ t)) in *. clearbody m.
  destruct (Hbound t m Hn Hd Ht Hnear) as [U1 U2]. clear Hbound.
  assert (U3 : 0 < n -> -1074 < e0 + t -> 2 ^ 52 * (c * 2 ^ t) <= a).
  { intros Hnp Hu. destruct (Z.le_gt_cases t 0) as [Ht0|Htp]; [|by apply Hfull].
    assert (t = 0) as -> by lia. change (2 ^ 0) with 1. rewrite Z.mul_1_r.
    apply Hrough; lia. }
  assert (Hlb : 0 < n -> -1074 < e0 + t -> 2 ^ 52 <= m).
  { intros Hnp Hu. specialize (U3 Hnp Hu).
    assert (HD : 0 < c * 2 ^ t) by (apply Z.mul_pos_pos; [lia|apply Z.pow_pos_nonneg; lia]).
    clear - U3 Hnear HD. set (D := c * 2 ^ t) in *. clearbody D.
    set (B := 2 ^ 52) in *. clearbody B. nia. }
  assert (U4 : 0 < n -> 0 <= e0 + t -> 2 ^ 52 * d * 2 ^ (e0 + t) <= n).
  { intros Hnp Hu. apply (Hlow t (2 ^ 52) Hn Hd Ht Hu). apply U3; lia. }
  assert (Hm : n = 0 -> m = 0).
  { intros E. specialize (Hzero E). rewrite Hzero in Hnear.
    assert (HD : 0 < c * 2 ^ t) by (apply Z.mul_pos_pos; [lia|apply Z.pow_pos_nonneg; lia]).
    clear - Hnear HD. set (D := c * 2 ^ t) in *. clearbody D. nia. }
  assert (Hu : -1074 <= e0 + t) by (clear - He0 Ht; lia).
  set (u := e0 + t) in *. clearbody u.
  clear Hrough Hlow Hzero Hfull U3 Hnear Ha Hc He0 Ht a c e0 t.
  destruct (Z.eqb_spec m (2 ^ 53)) as [Hcarry|Hno].
  - (* the mantissa was rounded up to 2^53 *)
    change (2 ^ (53 - 1)) with (Z.pos (2 ^ 52)).
    assert (Hnp : 0 < n).
    { destruct (Z.eq_dec n 0) as [E|E]; [|lia]. specialize (Hm E). rewrite Hm in Hcarry.
      discriminate Hcarry. }
    rewrite Hcarry in U1, U2. clear Hm Hlb Hub Hm0 Hcarry U4.
    destruct (Z.leb_spec (u + 1) (1024 - 53)) as [He|He].
    + split; [done|]. split; [|split].
      * cbn [valid_binary]. unfold bounded. apply andb_true_iff. split.
        -- apply canonical_53; [reflexivity|lia|by left].
        -- apply Z.leb_le. unfold PyFloat.emax, PyFloat.prec. lia.
      * intros Hu1. change (Z.pos (2 ^ 52)) with (2 ^ 52).
        destruct (Z.le_gt_cases 0 u) as [Hu0|Hu0].
        -- specialize (U1 Hu0). rewrite Z.pow_add_r by lia. change (2 ^ 1) with 2.
           assert (HU : 0 < 2 ^ u) by (apply Z.pow_pos_nonneg; lia).
           change (2 ^ 53) with (2 ^ 52 * 2) in U1.
           clear - U1 HU Hd. set (U := 2 ^ u) in *. set (B := 2 ^ 52) in *. clearbody U B. nia.
        -- assert (u = -1) as Eu by lia. specialize (U2 Hu0). rewrite Eu in *.
           change (2 ^ (-1 + 1)) with 1. change (2 ^ (- -1)) with 2 in U2.
           change (2 ^ 53) with (2 ^ 52 * 2) in U2.
           clear - U2 Hd. set (B := 2 ^ 52) in *. clearbody B. lia.
      * intros Hu1. change (Z.pos (2 ^ 52)) with (2 ^ 52).
        assert (Hu0 : u < 0) by lia. specialize (U2 Hu0).
        assert (E : 2 ^ (- u) = 2 ^ (- (u + 1)) * 2).
        { change 2 with (2 ^ 1) at 3. rewrite <- Z.pow_add_r by lia. f_equal. lia. }
        rewrite E in U2. change (2 ^ 53) with (2 ^ 52 * 2) in U2.
        clear - U2 Hd. set (B := 2 ^ 52) in *. set (V := 2 ^ (- (u + 1))) in *. clearbody B V. lia.
    + split; [done|].
      assert (Hu0 : 0 <= u) by lia. specialize (U1 Hu0).
      assert (Hp : 2 ^ 971 <= 2 ^ u) by (apply Z.pow_le_mono_r; lia).
      change (2 ^ 971) with (2 * 2 ^ 970) in Hp. change (2 ^ 54) with (2 * 2 ^ 53).
      assert (HP : 0 < 2 ^ 970) by reflexivity. assert (HB : 0 < 2 ^ 53) by reflexivity.
      clear - U1 Hp HP HB Hd Hn.
      set (U := 2 ^ u) in *. set (P := 2 ^ 970) in *. set (B := 2 ^ 53) in *.
      clearbody U P B. nia.
  - destruct m as [|p|p] eqn:Em; [| |lia].
    + split; [done|].
      destruct (Z.eq_dec n 0) as [->|Hn0]; [lia|].
      destruct (Z.eq_dec u (-1074)) as [Eu|Eu].
      * assert (Hu0 : u < 0) by lia. specialize (U2 Hu0). rewrite Eu in U2.
        change (- -1074) with 1074 in U2.
        clear - U2. set (P := 2 ^ 1074) in *. clearbody P. lia.
      * assert (H52 : 2 ^ 52 <= 0) by (apply Hlb; lia). exfalso. apply H52. reflexivity.
    + assert (Hnp : 0 < n).
      { destruct (Z.eq_dec n 0) as [E|E]; [|lia]. specialize (Hm E). discriminate Hm. }
      destruct (Z.leb_spec u (1024 - 53)) as [He|He].
      * split; [done|]. split; [|split].
        -- cbn [valid_binary]. unfold bounded. apply andb_true_iff. split.
           ++ apply canonical_53; [lia|lia|].
              destruct (Z.eq_dec u (-1074)) as [Eu|Eu]; [by right|left].
              apply Hlb; lia.
           ++ apply Z.leb_le. unfold PyFloat.emax, PyFloat.prec. lia.
        -- exact U1.
        -- exact U2.
      * split; [done|].
        assert (Hu0 : 0 <= u) by lia. specialize (U4 Hnp Hu0).
        assert (Hp : 2 ^ 972 <= 2 ^ u) by (apply Z.pow_le_mono_r; lia).
        change (2 ^ 972) with (4 * 2 ^ 970) in Hp. change (2 ^ 54) with (4 * 2 ^ 52).
        assert (HP : 0 < 2 ^ 970) by reflexivity. assert (HB : 0 < 2 ^ 52) by reflexivity.
        clear - U4 Hp HP HB Hd.
        set (U := 2 ^ u) in *. set (P := 2 ^ 970) in *. set (B := 2 ^ 52) in *.
        clearbody U P B. nia.
Qed.

Lemma hundredths_nonneg (m : positive) (e : Z) : 0 <= PyFloat.hundredths m e.
Proof.
  unfold PyFloat.hundredths. destruct (Z.leb_spec 0 e) as [He|He].
  - assert (0 < 2 ^ e) by (apply Z.pow_pos_nonneg; lia). nia.
  - apply div_half_even_lower; [apply Z.pow_pos_nonneg|]; lia.
Qed.

Lemma hundredths_is_nearest (m : positive) (e : Z) :
  nearest_hundredfold m e (PyFloat.hundredths m e).
Proof.
  unfold nearest_hundredfold. destruct (hundredths_nearest m e) as [H1 H2].
  destruct (Z.leb_spec 0 e); [by apply H1|by apply H2].
Qed.

(** [round(x, 2)], when it is finite, is [x] rounded to two decimal
    places. *)
Lemma round2_rounded (x : spec_float) :
  PyFloat.isfinite (PyFloat.round2 x) = true -> rounded_to_2_places x (PyFloat.round2 x).
Proof.
  destruct x as [s|s| |s m e]; try reflexivity.
  cbn [PyFloat.round2 rounded_to_2_places]. intros Hfin.
  exists (PyFloat.hundredths m e).
  split; [apply hundredths_nonneg|]. split; [apply hundredths_is_nearest|].
  pose proof (of_ratio_spec s (PyFloat.hundredths m e) 100 (hundredths_nonneg m e) eq_refl)
    as Hspec.
  destruct (PyFloat.of_ratio s (PyFloat.hundredths m e) 100) as [s'|s'| |s' p e'];
    try discriminate Hfin.
  - destruct Hspec as [-> Hk]. split; [done|].
    pose proof (hundredths_nonneg m e) as H0.
    assert (HP : 100 < 2 ^ 1074) by reflexivity.
    set (P := 2 ^ 1074) in *. clearbody P. nia.
  - destruct Hspec as (-> & Hvalid & Hpos & Hneg). split; [done|].
    split; [exact Hvalid|].
    destruct (Z.leb_spec 0 e'); [by apply Hpos|by apply Hneg].
Qed.

(** A finite binary64 value has a mantissa below [2^53] and an exponent of
    at most 971. *)
Lemma valid_binary_bounds (s : bool) (m : positive) (e : Z) :
  valid_binary 53 1024 (S754_finite s m e) = true -> Z.pos m < 2 ^ 53 /\ e <= 971.
Proof.
  cbn [valid_binary]. unfold bounded, canonical_mantissa, fexp, SpecFloat.emin.
  intros [Hc He]%andb_true_iff. apply Z.eqb_eq in Hc. apply Z.leb_le in He.
  rewrite digits2_log2 in Hc. split; [|lia].
  apply Z.log2_lt_pow2; lia.
Qed.

(** Rounding a binary64 value to two places does not overflow. *)
Lemma round2_finite (x : spec_float) :
  PyFloat.isfinite x = true -> valid_binary 53 1024 x = true ->
  PyFloat.isfinite (PyFloat.round2 x) = true.
Proof.
  destruct x as [s|s| |s m e]; try done.
  intros _ Hvalid. destruct (valid_binary_bounds s m e Hvalid) as [Hm He].
  cbn [PyFloat.round2].
  pose proof (of_ratio_spec s (PyFloat.hundredths m e) 100 (hundredths_nonneg m e) eq_refl)
    as Hspec.
  destruct (PyFloat.of_ratio s (PyFloat.hundredths m e) 100) as [s'|s'| |s' p e'];
    [done| |done|done].
  exfalso. destruct Hspec as [_ Hbig].
  destruct (hundredths_nearest m e) as [H1 H2].
  destruct (Z.le_gt_cases 0 e) as [Hpos|Hneg].
  - rewrite (H1 Hpos) in Hbig.
    assert (Hp : 2 ^ e <= 2 ^ 971) by (apply Z.pow_le_mono_r; lia).
    assert (HU : 0 < 2 ^ e) by (apply Z.pow_pos_nonneg; lia).
    change (2 ^ 971) with (2 * 2 ^ 970) in Hp.
    assert (HP : 0 < 2 ^ 970) by reflexivity.
    change (2 ^ 54) with (2 * 2 ^ 53) in Hbig.
    assert (HB : 0 < 2 ^ 53) by reflexivity.
    clear - Hbig Hp HU HP HB Hm.
    set (U := 2 ^ e) in *. set (P := 2 ^ 970) in *. set (B := 2 ^ 53) in *.
    clearbody U P B. nia.
  - specialize (H2 Hneg).
    assert (HU : 1 <= 2 ^ (- e)).
    { change 1 with (2 ^ 0). apply Z.pow_le_mono_r; lia. }
    pose proof (hundredths_nonneg m e) as H0.
    assert (Hk : PyFloat.hundredths m e <= 100 * Z.pos m + 1).
    { clear - H2 HU H0. set (U := 2 ^ (- e)) in *. set (k := PyFloat.hundredths m e) in *.
      clearbody U k. nia. }
    assert (HP : 2 ^ 53 <= 2 ^ 970) by (apply Z.pow_le_mono_r; lia).
    change (2 ^ 54) with (2 * 2 ^ 53) in Hbig.
    assert (HB : 1 < 2 ^ 53) by reflexivity.
    clear - Hbig Hk HP HB Hm.
    set (k := PyFloat.hundredths m e) in *. set (P := 2 ^ 970) in *. set (B := 2 ^ 53) in *.
    clearbody k P B. nia.
Qed.

Lemma lstrip_no_leading_space (s : string) : starts_with_space (PyStr.lstrip s) = false.
Proof.
  induction s as [|c r IH]; [reflexivity|].
  cbn [PyStr.lstrip]. destruct (PyStr.isspace c) eqn:E; [exact IH|].
  cbn [starts_with_space]. exact E.
Qed.

Lemma rstrip_no_trailing_space (s : string) : ends_with_space (PyStr.rstrip s) = false.
Proof.
  induction s as [|c r IH]; [reflexivity|].
  cbn [PyStr.rstrip]. destruct (PyStr.rstrip r) as [|d r'] eqn:E.
  - destruct (PyStr.isspace c) eqn:Ec; [reflexivity|]. cbn [ends_with_space]. exact Ec.
  - cbn [ends_with_space]. exact IH.
Qed.

Lemma rstrip_keeps_head (s : string) :
  starts_with_space s = false -> starts_with_space (PyStr.rstrip s) = false.
Proof.
  destruct s as [|c r]; [reflexivity|]. cbn [starts_with_space PyStr.rstrip]. intros Hc.
  destruct (PyStr.rstrip r); [rewrite Hc|]; cbn [starts_with_space]; exact Hc.
Qed.

Lemma rstrip_fixed (s : string) : ends_with_space s = false -> PyStr.rstrip s = s.
Proof.
  induction s as [|c r IH]; [reflexivity|].
  cbn [ends_with_space PyStr.rstrip]. destruct r as [|d r'].
  - intros Hc. cbn [PyStr.rstrip]. by rewrite Hc.
  - intros Hr. by rewrite (IH Hr).
Qed.

Lemma lstrip_fixed (s : string) : starts_with_space s = false -> PyStr.lstrip s = s.
Proof.
  destruct s as [|c r]; [reflexivity|]. cbn [starts_with_space PyStr.lstrip].
  by intros ->.
Qed.

Lemma lstrip_split (s : string) :
  exists lead, s = lead ++ PyStr.lstrip s /\ all_space lead = true.
Proof.
  induction s as [|c r (lead & IH & Hl)]; [by exists ""|].
  cbn [PyStr.lstrip]. destruct (PyStr.isspace c) eqn:E.
  - exists (String c lead). split.
    + change (String c lead ++ PyStr.lstrip r) with (String c (lead ++ PyStr.lstrip r)).
      by rewrite <- IH.
    + cbn [all_space]. by rewrite E, Hl.
  - by exists "".
Qed.

Lemma rstrip_split (s : string) :
  exists trail, s = PyStr.rstrip s ++ trail /\ all_space trail = true.
Proof.
  induction s as [|c r (trail & IH & Hl)]; [by exists ""|].
  cbn [PyStr.rstrip]. destruct (PyStr.rstrip r) as [|d r'] eqn:Er.
  - destruct (PyStr.isspace c) eqn:E.
    + exists (String c r). split; [reflexivity|].
      cbn [all_space]. rewrite E. rewrite IH. exact Hl.
    + exists trail. split; [|exact Hl]. rewrite IH at 1. reflexivity.
  - exists trail. split; [|exact Hl]. rewrite IH at 1. reflexivity.
Qed.

(** [s.strip()] is [s] without the white space at its two ends. *)
Lemma strip_trimmed (s : string) : trimmed_of s (PyStr.strip s).
Proof.
  destruct (lstrip_split s) as (lead & Hs & Hlead).
  destruct (rstrip_split (PyStr.lstrip s)) as (trail & Hr & Htrail).
  exists lead, trail. unfold PyStr.strip. repeat split; try done.
  - by rewrite <- Hr.
  - apply rstrip_keeps_head, lstrip_no_leading_space.
  - apply rstrip_no_trailing_space.
Qed.

Lemma segment_texts_stops (segs : list Segment) :
  segment_texts (yield_then segs SegStop) = Return (map text segs).
Proof. induction segs as [|sg l IH]; cbn; [done|]. by rewrite IH. Qed.

(** A stream that was consumed to its end yielded some segments and
    stopped. *)
Lemma segment_texts_return_inv (g : segment_stream) (texts : list string) :
  segment_texts g = Return texts ->
  exists segs, g = yield_then segs SegStop /\ texts = map text segs.
Proof.
  revert texts. induction g as [|sg rest IH|e]; intros texts; cbn [segment_texts].
  - intros [= <-]. by exists [].
  - destruct (segment_texts rest) as [l|e]; [|discriminate].
    intros [= <-]. destruct (IH l eq_refl) as (segs & -> & ->).
    by exists (sg :: segs).
  - discriminate.
Qed.

(** C5.  A 200 response of [POST /transcribe] is built from what the engine
    returned for the scratch file: the stream yielded some segments and
    stopped; the transcription is their texts, in that order, joined by one
    space, without the white space at the two ends of the joined text; the
    language is the one of the engine's summary; the duration is the
    summary's rounded to two decimal places (an integer [k] is nearest to a
    hundred times the duration, and the response carries the binary64 value
    nearest to [k / 100]).  The response is that one whenever staging
    succeeds and the engine returns such a stream and a finite duration.
    For the segments "Hello" and "world", the language "en" and the duration
    3.456 the body is "Hello world", "en", 3.46. *)
Theorem successful_transcription_body (i : io) (file : UploadFile) (w : world) :
  (forall b w', post_transcribe i file w = (Ok200 b, w') ->
     exists p m segs info,
       valid_staging i file w p /\ model w = Some m
       /\ transcribe m (<[p := data file]> (files w)) p 5 true 500
          = Return (yield_then segs SegStop, info)
       /\ trimmed_of (String.concat " " (map text segs)) (transcription b)
       /\ language_detected b = language info
       /\ rounded_to_2_places (duration info) (duration_seconds b))
  /\ (forall p m segs info,
       valid_staging i file w p -> model w = Some m ->
       transcribe m (<[p := data file]> (files w)) p 5 true 500
         = Return (yield_then segs SegStop, info) ->
       PyFloat.isfinite (duration info) = true ->
       valid_binary 53 1024 (duration info) = true ->
       exists b,
         fst (post_transcribe i file w) = Ok200 b
         /\ trimmed_of (String.concat " " (map text segs)) (transcription b)
         /\ language_detected b = language info
         /\ rounded_to_2_places (duration info) (duration_seconds b))
  /\ (forall p m,
       valid_staging i file w p -> model w = Some m ->
       transcribe m (<[p := data file]> (files w)) p 5 true 500
         = Return (SegYield {| text := "Hello" |} (SegYield {| text := "world" |} SegStop),
                   {| language := "en";
                      duration := S754_finite false 7782220156096217 (-51) |}) ->
       fst (post_transcribe i file w) =
       Ok200 {| transcription := "Hello world";
                language_detected := "en";
                duration_seconds := S754_finite false 7791227355350958 (-51) |}).
Proof.
  split; [|split].
  - intros b w' Hok.
    destruct (transcribe_success_inv i file w w' b Hok)
      as (p & m & [g info] & texts & Hv & Hm & Ht & Hs & ->).
    cbn [fst snd] in *.
    destruct (segment_texts_return_inv g texts Hs) as (segs & -> & ->).
    assert (Hfin : PyFloat.isfinite (PyFloat.round2 (duration info)) = true).
    { rewrite (post_transcribe_staged i file w p Hv) in Hok.
      rewrite (run_inference_eq i file _ (staged_world file p w) (staged_frame file p) p
                 eq_refl) in Hok.
      cbv zeta in Hok. cbn [model files staged_world set_files] in Hok.
      rewrite Hm, Ht in Hok. cbn [fst snd] in Hok. rewrite segment_texts_stops in Hok.
      unfold JSONResponse in Hok. cbn [duration_seconds] in Hok.
      destruct (PyFloat.isfinite (PyFloat.round2 (duration info))); [done|discriminate Hok]. }
    exists p, m, segs, info. cbn [transcription language_detected duration_seconds].
    repeat split; try done; try apply Hv.
    + apply strip_trimmed.
    + by apply round2_rounded.
  - intros p m segs info Hv Hm Ht Hfin Hvalid.
    pose proof (round2_finite _ Hfin Hvalid) as Hfin'.
    eexists. split.
    + apply (transcribe_success i file w p m (yield_then segs SegStop, info) (map text segs)
               Hv Hm Ht (segment_texts_stops segs) Hfin').
    + cbn [transcription language_detected duration_seconds snd].
      split; [apply strip_trimmed|]. split; [done|]. by apply round2_rounded.
  - intros p m Hv Hm Ht.
    rewrite (transcribe_success i file w p m _ ["Hello"; "world"] Hv Hm Ht eq_refl eq_refl).
    reflexivity.
Qed.

Lemma memo_staging : valid_staging (io_quiet ["k3v9x0qa"]) memo_upload hello_process
                       "/tmp/tmpk3v9x0qa.wav".
Proof.
  split; try reflexivity.
  - apply mem_elem_of. reflexivity.
  - vm_compute. discriminate.
Qed.

Lemma successful_transcription_body_witness :
  fst (post_transcribe (io_quiet ["k3v9x0qa"]) memo_upload hello_process) =
    Ok200 {| transcription := "Hello world";
             language_detected := "en";
             duration_seconds := S754_finite false 7791227355350958 (-51) |}
  /\ (exists p m segs info,
        valid_staging (io_quiet ["k3v9x0qa"]) memo_upload (process_with (Some padded_model)) p
        /\ model (process_with (Some padded_model)) = Some m
        /\ transcribe m (<[p := data memo_upload]> (files (process_with (Some padded_model))))
             p 5 true 500
           = Return (yield_then segs SegStop, info)
        /\ trimmed_of (String.concat " " (map text segs)) "Hello world"
        /\ "en" = language info
        /\ rounded_to_2_places (duration info) (S754_finite false 7791227355350958 (-51)))
  /\ fst (post_transcribe (io_quiet ["k3v9x0qa"]) memo_upload
            (process_with (Some padded_model))) =
     Ok200 {| transcription := "Hello world";
              language_detected := "en";
              duration_seconds := S754_finite false 7791227355350958 (-51) |}
  /\ 2 * Z.abs (3456 * 2 ^ 51 - 7782220156096217 * 1000) <= 1000
  /\ 2 * Z.abs (346 * 2 ^ 51 - 7791227355350958 * 100) <= 100.
Proof.
  split; [|split; [|split; [|split]]].
  - apply (proj2 (proj2 (successful_transcription_body
                           (io_quiet ["k3v9x0qa"]) memo_upload hello_process))
             "/tmp/tmpk3v9x0qa.wav" hello_model memo_staging);
      reflexivity.
  - apply (proj1 (successful_transcription_body
                    (io_quiet ["k3v9x0qa"]) memo_upload (process_with (Some padded_model)))
             {| transcription := "Hello world"; language_detected := "en";
                duration_seconds := S754_finite false 7791227355350958 (-51) |}
             (snd (post_transcribe (io_quiet ["k3v9x0qa"]) memo_upload
                     (process_with (Some padded_model))))).
    vm_compute. reflexivity.
  - vm_compute. reflexivity.
  - vm_compute. discriminate.
  - vm_compute. discriminate.
Defined.

(** ** Faults while the upload is staged *)

(** C1.  The scratch file is created, then writing the upload to it fails.
    [temp_file] is bound and [temp_path] is not, so the [finally] clause
    raises [UnboundLocalError] at [os.path.exists(temp_path)] before it
    reaches [os.unlink]: the scratch file stays on disk when the handler is
    left, and the exception of the clause replaces the 500 response. *)
Theorem write_fault_leaves_scratch_file :
  fst (post_transcribe io_disk_full memo_upload hello_process)
  = Unhandled (PyErr "UnboundLocalError"
       "cannot access local variable 'temp_path' where it is not associated with a value")
  /\ files hello_process !! "/tmp/tmpk3v9x0qa.wav" = None
  /\ files (snd (post_transcribe io_disk_full memo_upload hello_process))
       !! "/tmp/tmpk3v9x0qa.wav" = Some []
  /\ log (snd (post_transcribe io_disk_full memo_upload hello_process))
     = [ERROR "Transcription error: [Errno 28] No space left on device"].
Proof. vm_compute. repeat split. Qed.

(** C2.  Reading the upload raises inside the [with] block.  The [except]
    clause logs it and raises [HTTPException(500)], but the [finally] clause
    then raises [UnboundLocalError], which leaves the handler in its place:
    the client gets no "Transcription failed" detail. *)
Theorem read_fault_escapes_unhandled :
  post_transcribe io_read_error memo_upload hello_process
  = (Unhandled (PyErr "UnboundLocalError"
        "cannot access local variable 'temp_path' where it is not associated with a value"),
     {| model := Some hello_model;
        files := {[ "/tmp/tmpk3v9x0qa.wav" := [] ]};
        log := [ERROR "Transcription error: [Errno 5] Input/output error"] |})
  /\ fst (post_transcribe io_read_error memo_upload hello_process)
     <> ErrorDetail 500 "Transcription failed: [Errno 5] Input/output error".
Proof.
  split.
  - vm_compute. reflexivity.
  - vm_compute. discriminate.
Qed.

(** ** The same upload twice *)

Lemma scratch_name_staged (i : io) (file : UploadFile) (w : world) (p : string) :
  valid_staging i file w p -> scratch_name i file w = Some p.
Proof.
  intros Hv. unfold scratch_name. rewrite (transcribe_audio_staged i file w p Hv).
  destruct (run_inference _ _ _ _) as [[b|e] s]; reflexivity.
Qed.

Lemma world_eq (w1 w2 : world) :
  model w1 = model w2 -> files w1 = files w2 -> log w1 = log w2 -> w1 = w2.
Proof. destruct w1, w2. cbn. by intros -> -> ->. Qed.

Lemma cleaned_log (i : io) (p : string) (w : world) :
  exists l, log (cleaned i p w) = (log w ++ l)%list.
Proof.
  unfold cleaned. destruct (unlink_fault i).
  - by eexists.
  - exists []. cbn [log set_files]. by rewrite app_nil_r.
Qed.

Lemma cleaned_model (i : io) (p : string) (w : world) : model (cleaned i p w) = model w.
Proof. unfold cleaned. by destruct (unlink_fault i). Qed.

(** The files after the [finally] clause dealt with the scratch file [p]. *)
Lemma cleaned_files (i : io) (p : string) (w : world) :
  files (cleaned i p w) = match unlink_fault i with
                          | None => delete p (files w)
                          | Some _ => files w
                          end.
Proof. unfold cleaned. by destruct (unlink_fault i). Qed.

Lemma valid_staging_files (i : io) (file : UploadFile) (w w' : world) (p : string) :
  files w' = files w -> valid_staging i file w p -> valid_staging i file w' p.
Proof. intros Hf [? ? ? ? ? ? Hn]. split; try done. by rewrite Hf. Qed.

Lemma inference_ok_files (file : UploadFile) (w w' : world) (p : string)
    (b : TranscriptionBody) :
  files w' = files w -> model w' = model w ->
  inference_ok w file p b -> inference_ok w' file p b.
Proof.
  intros Hf Hm (m & r & texts & H1 & H2 & H3). exists m, r, texts.
  rewrite Hf, Hm. by split.
Qed.

Lemma hello_inference (p : string) : inference_ok hello_process memo_upload p hello_body.
Proof. exists hello_model, (hello_stream, hello_info), ["Hello"; "world"]. by repeat split. Qed.

(** A staged request whose inference succeeds: the response, and the process
    after the [finally] clause. *)
Lemma post_transcribe_ok (i : io) (file : UploadFile) (w : world) (p : string)
    (b : TranscriptionBody) :
  valid_staging i file w p -> inference_ok w file p b ->
  post_transcribe i file w =
  (Ok200 b,
   cleaned i p
     {| model := model w; files := <[p := data file]> (files w);
        log := (log w ++ [INFO ("Processing file: " ++ filename file ++ " ("
                                ++ format_kb (Z.of_nat (length (data file))) ++ " KB)");
                          INFO ("Transcription completed. Language: "
                                ++ language_detected b)])%list |}).
Proof.
  intros Hv (m & r & texts & Hm & Ht & Hs & Hf & ->).
  rewrite (post_transcribe_staged i file w p Hv).
  rewrite (run_inference_eq i file _ (staged_world file p w) (staged_frame file p) p eq_refl).
  cbv zeta. cbn [model files staged_world set_files]. rewrite Hm, Ht, Hs.
  unfold JSONResponse. cbn [duration_seconds]. rewrite Hf. cbn [fst snd language_detected].
  f_equal. f_equal. apply world_eq; cbn; try done. by rewrite <- app_assoc.
Qed.

(** C9, as stated, fails.  The same valid upload is handled twice and both
    responses are 200.  Unlinking the first scratch file is refused, which is
    only logged: the file is still on disk after the first request, and
    still there after the second, which staged its own copy under another
    name and removed it. *)
Lemma repeated_upload_leaves_first_scratch_file :
  fst (post_transcribe io_unlink_denied memo_upload hello_process) = Ok200 hello_body
  /\ fst (post_transcribe (io_quiet ["k3v9x0qa"; "p07wd_ze"]) memo_upload after_denied_memo)
     = Ok200 hello_body
  /\ scratch_name io_unlink_denied memo_upload hello_process = Some "/tmp/tmpk3v9x0qa.wav"
  /\ scratch_name (io_quiet ["k3v9x0qa"; "p07wd_ze"]) memo_upload after_denied_memo
     = Some "/tmp/tmpp07wd_ze.wav"
  /\ files hello_process = ∅
  /\ files after_denied_memo = {[ "/tmp/tmpk3v9x0qa.wav" := data memo_upload ]}
  /\ files (snd (post_transcribe (io_quiet ["k3v9x0qa"; "p07wd_ze"]) memo_upload
                   after_denied_memo))
     = {[ "/tmp/tmpk3v9x0qa.wav" := data memo_upload ]}.
Proof. vm_compute. repeat split. Qed.

(** C9, amended.  The same valid upload handled twice, staging and
    inference succeeding in both requests.  Both responses are 200.  Each
    scratch file is created under a name that no file has at that moment, so
    the second name differs from the first whenever the first file is still
    on disk.  No request changes [model].  A request whose scratch file is
    unlinked leaves the files as they were before it, and if that is the
    first request, the second response is the one the request would have got
    on the process the first one started from.  When unlinking fails, the
    response is the same 200, the scratch file stays on disk with the bytes
    of the upload, and the failure is logged as the last record, a
    warning. *)
Theorem repeated_upload_independent (i1 i2 : io) (file : UploadFile) (w : world)
    (p1 p2 : string) (b1 b2 : TranscriptionBody) :
  valid_staging i1 file w p1 -> inference_ok w file p1 b1 ->
  valid_staging i2 file (snd (post_transcribe i1 file w)) p2 ->
  inference_ok (snd (post_transcribe i1 file w)) file p2 b2 ->
  fst (post_transcribe i1 file w) = Ok200 b1
  /\ fst (post_transcribe i2 file (snd (post_transcribe i1 file w))) = Ok200 b2
  /\ scratch_name i1 file w = Some p1
  /\ files w !! p1 = None
  /\ scratch_name i2 file (snd (post_transcribe i1 file w)) = Some p2
  /\ files (snd (post_transcribe i1 file w)) !! p2 = None
  /\ model (snd (post_transcribe i1 file w)) = model w
  /\ model (snd (post_transcribe i2 file (snd (post_transcribe i1 file w)))) = model w
  /\ (unlink_fault i1 = None ->
      files (snd (post_transcribe i1 file w)) = files w
      /\ fst (post_transcribe i2 file (snd (post_transcribe i1 file w)))
         = fst (post_transcribe i2 file w))
  /\ (unlink_fault i2 = None ->
      files (snd (post_transcribe i2 file (snd (post_transcribe i1 file w))))
      = files (snd (post_transcribe i1 file w)))
  /\ (forall e, unlink_fault i1 = Some e ->
      files (snd (post_transcribe i1 file w)) = <[p1 := data file]> (files w)
      /\ p2 <> p1
      /\ exists l, log (snd (post_transcribe i1 file w))
                   = (log w ++ l ++ [WARNING ("Failed to delete temp file: " ++ str_exn e)])%list)
  /\ (forall e, unlink_fault i2 = Some e ->
      files (snd (post_transcribe i2 file (snd (post_transcribe i1 file w))))
      = <[p2 := data file]> (files (snd (post_transcribe i1 file w)))
      /\ exists l, log (snd (post_transcribe i2 file (snd (post_transcribe i1 file w))))
                   = (log (snd (post_transcribe i1 file w)) ++ l
                      ++ [WARNING ("Failed to delete temp file: " ++ str_exn e)])%list).
Proof.
  intros Hv1 Hi1 Hv2 Hi2.
  pose proof (first_free_fresh _ _ _ _ (vs_name _ _ _ _ Hv1)) as Hfresh1.
  pose proof (first_free_fresh _ _ _ _ (vs_name _ _ _ _ Hv2)) as Hfresh2.
  pose proof (scratch_name_staged i1 file w p1 Hv1) as Hn1.
  pose proof (scratch_name_staged i2 file _ p2 Hv2) as Hn2.
  pose proof (post_transcribe_ok i2 file _ p2 b2 Hv2 Hi2) as H2.
  pose proof (post_transcribe_ok i1 file w p1 b1 Hv1 Hi1) as H1.
  destruct (post_transcribe i1 file w) as [r1 w1]. cbn [fst snd] in *.
  destruct (post_transcribe i2 file w1) as [r2 w2]. cbn [fst snd] in *.
  injection H1 as -> Hw1. injection H2 as -> Hw2.
  assert (Hm1 : model w1 = model w) by (rewrite Hw1, cleaned_model; reflexivity).
  assert (Hm2 : model w2 = model w) by (rewrite Hw2, cleaned_model; exact Hm1).
  assert (Hf1 : files w1 = match unlink_fault i1 with
                           | None => files w
                           | Some _ => <[p1 := data file]> (files w)
                           end).
  { rewrite Hw1, cleaned_files. cbn [files].
    destruct (unlink_fault i1); [done|]. by rewrite delete_insert_eq, (delete_id _ _ Hfresh1). }
  assert (Hf2 : files w2 = match unlink_fault i2 with
                           | None => files w1
                           | Some _ => <[p2 := data file]> (files w1)
                           end).
  { rewrite Hw2, cleaned_files. cbn [files].
    destruct (unlink_fault i2); [done|]. by rewrite delete_insert_eq, (delete_id _ _ Hfresh2). }
  split; [done|]. split; [done|].
  split; [exact Hn1|]. split; [exact Hfresh1|]. split; [exact Hn2|]. split; [exact Hfresh2|].
  split; [exact Hm1|]. split; [exact Hm2|].
  split; [|split; [|split]].
  - intros Hu1. rewrite Hu1 in Hf1. split; [exact Hf1|].
    rewrite (post_transcribe_ok i2 file w p2 b2); [done| |].
    + apply (valid_staging_files i2 file w1 w p2); [by symmetry|exact Hv2].
    + apply (inference_ok_files file w1 w p2 b2); [by symmetry|by symmetry|exact Hi2].
  - intros Hu2. by rewrite Hu2 in Hf2.
  - intros e Hu1. rewrite Hu1 in Hf1. split; [exact Hf1|]. split.
    + intros ->. rewrite Hf1, lookup_insert_eq in Hfresh2. discriminate Hfresh2.
    + rewrite Hw1. unfold cleaned. rewrite Hu1. cbn [log add_log].
      eexists. rewrite <- app_assoc. reflexivity.
  - intros e Hu2. rewrite Hu2 in Hf2. split; [exact Hf2|].
    rewrite Hw2. unfold cleaned. rewrite Hu2. cbn [log add_log].
    eexists. rewrite <- app_assoc. reflexivity.
Qed.

Lemma denied_staging :
  valid_staging io_unlink_denied memo_upload hello_process "/tmp/tmpk3v9x0qa.wav".
Proof.
  split; try reflexivity.
  - apply mem_elem_of. reflexivity.
  - vm_compute. discriminate.
Qed.

Lemma second_staging :
  valid_staging (io_quiet ["k3v9x0qa"; "p07wd_ze"]) memo_upload
    (snd (post_transcribe io_unlink_denied memo_upload hello_process)) "/tmp/tmpp07wd_ze.wav".
Proof.
  split; try reflexivity.
  - apply mem_elem_of. reflexivity.
  - vm_compute. discriminate.
Qed.

Lemma second_inference :
  inference_ok (snd (post_transcribe io_unlink_denied memo_upload hello_process)) memo_upload
    "/tmp/tmpp07wd_ze.wav" hello_body.
Proof.
  exists hello_model, (hello_stream, hello_info), ["Hello"; "world"].
  repeat split; vm_compute; reflexivity.
Qed.

Lemma repeated_upload_independent_witness :
  fst (post_transcribe io_unlink_denied memo_upload hello_process) = Ok200 hello_body
  /\ fst (post_transcribe (io_quiet ["k3v9x0qa"; "p07wd_ze"]) memo_upload
            (snd (post_transcribe io_unlink_denied memo_upload hello_process)))
     = Ok200 hello_body
  /\ files (snd (post_transcribe io_unlink_denied memo_upload hello_process))
     = <[ "/tmp/tmpk3v9x0qa.wav" := data memo_upload ]> (files hello_process)
  /\ "/tmp/tmpp07wd_ze.wav" <> "/tmp/tmpk3v9x0qa.wav"
  /\ files (snd (post_transcribe (io_quiet ["k3v9x0qa"; "p07wd_ze"]) memo_upload
                   (snd (post_transcribe io_unlink_denied memo_upload hello_process))))
     = files (snd (post_transcribe io_unlink_denied memo_upload hello_process)).
Proof.
  pose proof (repeated_upload_independent
                io_unlink_denied (io_quiet ["k3v9x0qa"; "p07wd_ze"])
                memo_upload hello_process
                "/tmp/tmpk3v9x0qa.wav" "/tmp/tmpp07wd_ze.wav" hello_body hello_body
                denied_staging (hello_inference _) second_staging second_inference)
    as (H1 & H2 & _ & _ & _ & _ & _ & _ & _ & H10 & H11 & _).
  destruct (H11 _ eq_refl) as (Hf & Hne & _).
  exact (conj H1 (conj H2 (conj Hf (conj Hne (H10 eq_refl))))).
Defined.

(** ** What a request does to the process *)

Lemma first_free_shape fs suffix cands p :
  first_free fs suffix cands = Some p ->
  exists r, r ∈ cands /\ p = tmp_name r suffix.
Proof.
  induction cands as [|r rest IH]; cbn [first_free]; [discriminate|].
  destruct (bool_decide (is_Some (fs !! tmp_name r suffix))).
  - intros Hp. destruct (IH Hp) as (r' & Hin & ->). exists r'. split; [by right|done].
  - intros [= <-]. exists r. split; [by left|done].
Qed.

Lemma run_inference_log (i : io) (file : UploadFile) (size : Z) (w : world) (fr : frame) (p : string) :
  temp_path fr = Some p ->
  exists l, log (fst (snd (run_inference i file size (w, fr)))) = (log w ++ l)%list.
Proof.
  intros Hp. rewrite (run_inference_eq i file size w fr p Hp). cbv zeta.
  destruct w as [mo fs lg]. cbn [model files].
  destruct mo as [m|]; [|by eexists].
  destruct (transcribe m fs p 5 true 500) as [r|e]; [|by eexists].
  destruct (segment_texts (fst r)) as [texts|e]; [|by eexists].
  cbn [fst snd log add_log]. rewrite <- app_assoc. by eexists.
Qed.

(** What a fault left in the scratch file is a prefix of the upload. *)
Lemma left_by_fault_prefix (i : io) (file : UploadFile) :
  left_by_fault i file `prefix_of` data file.
Proof.
  unfold left_by_fault. destruct (read_fault i); [apply prefix_nil|].
  eexists. symmetry. apply take_drop.
Qed.

(** The process after any request, against the process before it. *)
Lemma post_transcribe_footprint (i : io) (file : UploadFile) (w : world) :
  model (snd (post_transcribe i file w)) = model w
  /\ (exists l, log (snd (post_transcribe i file w)) = (log w ++ l)%list)
  /\ (files (snd (post_transcribe i file w)) = files w
      \/ exists p c,
           first_free (files w) (PyStr.lower (Path.suffix (filename file)))
             (tmp_candidates i) = Some p
           /\ PyStr.lower (Path.suffix (filename file)) ∈ ALLOWED_EXTENSIONS
           /\ files (snd (post_transcribe i file w)) = <[p := c]> (files w)
           /\ c `prefix_of` data file).
Proof.
  destruct (PyStr.mem (PyStr.lower (Path.suffix (filename file))) ALLOWED_EXTENSIONS) eqn:Hmem.
  2: { rewrite (reject_invalid_type i file w Hmem). cbn [snd].
       split; [done|]. split; [exists []; by rewrite app_nil_r | by left]. }
  destruct (Z.lt_ge_cases MAX_FILE_SIZE (Z.of_nat (length (data file)))) as [Hbig|Hsize].
  { rewrite (reject_too_large i file w Hmem Hbig). cbn [snd].
    split; [done|]. split; [exists []; by rewrite app_nil_r | by left]. }
  apply mem_elem_of in Hmem.
  destruct (create_fault i) as [e|] eqn:Hc.
  { rewrite (create_fault_is_500 i file w e Hmem Hsize Hc). cbn [snd model log files add_log].
    split; [done|]. split; [by eexists | by left]. }
  destruct (first_free (files w) (PyStr.lower (Path.suffix (filename file)))
              (tmp_candidates i)) as [p|] eqn:Hp.
  2: { rewrite (no_name_is_500 i file w Hmem Hsize Hc Hp). cbn [snd model log files add_log].
       split; [done|]. split; [by eexists | by left]. }
  pose proof (first_free_fresh _ _ _ _ Hp) as Hfresh.
  assert (Hfault : read_fault i <> None \/ write_fault i <> None ->
            model (snd (post_transcribe i file w)) = model w
            /\ (exists l, log (snd (post_transcribe i file w)) = (log w ++ l)%list)
            /\ (files (snd (post_transcribe i file w)) = files w
                \/ exists p0 c, Some p = Some p0
                     /\ PyStr.lower (Path.suffix (filename file)) ∈ ALLOWED_EXTENSIONS
                     /\ files (snd (post_transcribe i file w)) = <[p0 := c]> (files w)
                     /\ c `prefix_of` data file)).
  { intros Hrw.
    destruct (staging_fault_unhandled i file w p Hmem Hsize Hc Hp Hrw) as [e ->].
    cbn [snd model log files add_log set_files].
    split; [done|]. split; [by eexists|]. right. exists p, (left_by_fault i file).
    repeat split; try done. apply left_by_fault_prefix. }
  destruct (read_fault i) as [er|] eqn:Hr; [apply Hfault; by left|].
  destruct (write_fault i) as [ew|] eqn:Hw; [apply Hfault; by right|].
  clear Hfault.
  destruct (close_fault i) as [ec|] eqn:Hcl.
  { rewrite (close_fault_is_500 i file w p ec Hmem Hsize Hc Hr Hw Hcl Hp). cbn [snd].
    rewrite cleaned_model, cleaned_files.
    split; [done|]. split.
    - destruct (cleaned_log i p (add_log (ERROR ("Transcription error: " ++ str_exn ec))
                                   (unflushed_world i file p w))) as [l ->].
      cbn [log add_log unflushed_world set_files]. rewrite <- app_assoc. by eexists.
    - cbn [files add_log unflushed_world set_files].
      destruct (unlink_fault i).
      + right. exists p, (take (stored_before_fault i) (data file)).
        repeat split; try done. eexists. symmetry. apply take_drop.
      + left. by rewrite delete_insert_eq, (delete_id _ _ Hfresh). }
  assert (Hv : valid_staging i file w p) by (by split).
  destruct (staged_request_is_answered_and_cleaned i file w p Hv) as (_ & Hf & Hm).
  split; [exact Hm|]. split.
  - rewrite (post_transcribe_staged i file w p Hv).
    destruct (run_inference_log i file (Z.of_nat (length (data file)))
                (staged_world file p w) (staged_frame file p) p eq_refl) as [l Hl].
    destruct (run_inference _ _ _ _) as [[b|e] [w2 fr2]]; cbn [fst snd] in *.
    + destruct (cleaned_log i p w2) as [l2 ->]. rewrite Hl.
      cbn [log staged_world set_files]. rewrite <- app_assoc. by eexists.
    + destruct (cleaned_log i p (add_log (ERROR ("Transcription error: " ++ str_exn e)) w2))
        as [l2 ->].
      cbn [log add_log]. rewrite Hl. cbn [log staged_world set_files].
      rewrite <- !app_assoc. by eexists.
  - rewrite Hf. destruct (unlink_fault i); [|by left].
    right. exists p, (data file). repeat split; done.
Qed.

(** X1.  Whatever the request and whatever fails, the handler leaves every
    file that existed before as it was and adds at most one file: the scratch
    file, whose name ends with a name [tempfile] drew followed by one of the
    allowed extensions and was free before, and which holds a prefix of the
    upload: nothing, its first bytes, or the whole of it. *)
Theorem request_touches_one_scratch_file_at_most (i : io) (file : UploadFile) (w : world) :
  (files (snd (post_transcribe i file w)) = files w
   \/ exists dir r e c,
        r ∈ tmp_candidates i /\ e ∈ ALLOWED_EXTENSIONS
        /\ files w !! (dir ++ r ++ e) = None
        /\ files (snd (post_transcribe i file w)) = <[dir ++ r ++ e := c]> (files w)
        /\ c `prefix_of` data file)
  /\ (forall q c, files w !! q = Some c ->
                  files (snd (post_transcribe i file w)) !! q = Some c).
Proof.
  destruct (post_transcribe_footprint i file w) as (_ & _ & [Hsame|(p & c & Hp & Hext & Hf & Hc)]).
  - split; [by left|]. intros q c Hq. by rewrite Hsame.
  - pose proof (first_free_fresh _ _ _ _ Hp) as Hfresh.
    destruct (first_free_shape _ _ _ _ Hp) as (r & Hr & ->).
    split.
    + right. exists "/tmp/tmp", r, (PyStr.lower (Path.suffix (filename file))), c.
      repeat split; done.
    + intros q c' Hq. rewrite Hf. rewrite lookup_insert_ne; [done|].
      intros <-. congruence.
Qed.

Lemma request_touches_one_scratch_file_at_most_sample :
  files (snd (post_transcribe
                {| tmp_candidates := ["k3v9x0qa"]; create_fault := None; read_fault := None;
                   write_fault := Some (PyErr "OSError" "[Errno 28] No space left on device");
                   close_fault := None; unlink_fault := None;
                   stored_before_fault := 3;
                   set_order := ALLOWED_EXTENSIONS; json_names_value := false |}
                memo_upload hello_process))
  = {[ "/tmp/tmpk3v9x0qa.wav" := [x52; x49; x46] ]}.
Proof. vm_compute. reflexivity. Qed.

(** X2.  No request changes the module global [model], and no request
    removes or rewrites a log record: the log afterwards is the log before
    with records appended. *)
Theorem request_keeps_model_and_appends_log (i : io) (file : UploadFile) (w : world) :
  model (snd (post_transcribe i file w)) = model w
  /\ exists l, log (snd (post_transcribe i file w)) = (log w ++ l)%list.
Proof.
  destruct (post_transcribe_footprint i file w) as (Hm & Hl & _). by split.
Qed.

(** Past the two validations the answer is a 200, the 500 detail, or the
    [UnboundLocalError] of the [finally] clause. *)
Lemma post_transcribe_valid_cases (i : io) (file : UploadFile) (w : world) :
  PyStr.lower (Path.suffix (filename file)) ∈ ALLOWED_EXTENSIONS ->
  Z.of_nat (length (data file)) <= MAX_FILE_SIZE ->
  (exists b, fst (post_transcribe i file w) = Ok200 b)
  \/ (exists e, fst (post_transcribe i file w)
                = ErrorDetail 500 ("Transcription failed: " ++ str_exn e))
  \/ (fst (post_transcribe i file w) = Unhandled (UnboundLocalError "temp_path")
      /\ create_fault i = None
      /\ (read_fault i <> None \/ write_fault i <> None)).
Proof.
  intros Hmem Hsize.
  destruct (create_fault i) as [e|] eqn:Hc.
  { rewrite (create_fault_is_500 i file w e Hmem Hsize Hc). right. left. eauto. }
  destruct (first_free (files w) (PyStr.lower (Path.suffix (filename file)))
              (tmp_candidates i)) as [p|] eqn:Hp.
  2: { rewrite (no_name_is_500 i file w Hmem Hsize Hc Hp). right. left. eauto. }
  destruct (read_fault i) as [er|] eqn:Hr.
  { assert (Hrw : read_fault i <> None \/ write_fault i <> None) by (left; congruence).
    destruct (staging_fault_unhandled i file w p Hmem Hsize Hc Hp Hrw) as [e ->].
    right. right. rewrite Hr in Hrw. done. }
  destruct (write_fault i) as [ew|] eqn:Hw.
  { assert (Hrw : read_fault i <> None \/ write_fault i <> None) by (right; congruence).
    destruct (staging_fault_unhandled i file w p Hmem Hsize Hc Hp Hrw) as [e ->].
    right. right. rewrite Hr, Hw in Hrw. done. }
  destruct (close_fault i) as [ec|] eqn:Hcl.
  { rewrite (close_fault_is_500 i file w p ec Hmem Hsize Hc Hr Hw Hcl Hp).
    right. left. eauto. }
  assert (Hv : valid_staging i file w p) by (by split).
  destruct (staged_request_is_answered_and_cleaned i file w p Hv) as ([[b ->]|[e ->]] & _).
  - left. eauto.
  - right. left. eauto.
Qed.

(** X3.  [POST /transcribe] answers 400 exactly when a validation fails:
    the lowered suffix of the filename is not an allowed extension, or the
    upload is longer than [MAX_FILE_SIZE].  An upload of exactly
    [MAX_FILE_SIZE] bytes, or of no bytes at all, is not refused for its
    size. *)
Theorem status_400_iff_validation_fails (i : io) (file : UploadFile) (w : world) :
  (exists d, fst (post_transcribe i file w) = ErrorDetail 400 d)
  <-> (PyStr.lower (Path.suffix (filename file)) ∉ ALLOWED_EXTENSIONS
       \/ MAX_FILE_SIZE < Z.of_nat (length (data file))).
Proof.
  split.
  - intros [d Hd].
    destruct (decide (PyStr.lower (Path.suffix (filename file)) ∈ ALLOWED_EXTENSIONS))
      as [Hmem|Hmem]; [|by left].
    destruct (Z.lt_ge_cases MAX_FILE_SIZE (Z.of_nat (length (data file)))) as [Hbig|Hsize];
      [by right|].
    exfalso.
    destruct (post_transcribe_valid_cases i file w Hmem Hsize)
      as [[b Hb]|[[e He]|[Hu _]]]; rewrite Hd in *; discriminate.
  - intros [Hext|Hbig].
    + apply mem_false_not_elem_of in Hext.
      rewrite (reject_invalid_type i file w Hext). eauto.
    + destruct (PyStr.mem (PyStr.lower (Path.suffix (filename file))) ALLOWED_EXTENSIONS)
        eqn:Hmem.
      * rewrite (reject_too_large i file w Hmem Hbig). eauto.
      * rewrite (reject_invalid_type i file w Hmem). eauto.
Qed.

(** X4.  The answers of [POST /transcribe] are these and no others: a 200
    with a body; a 400 whose detail is "Invalid file type. Allowed: " and the
    six extensions in some order, separated by ", "; a 400 with the "file too
    large" detail; a 500 whose detail is "Transcription failed: " and the
    text of an exception; or the [UnboundLocalError] for [temp_path] leaving
    the handler, which happens only when the scratch file was created and
    reading or writing the upload failed. *)
Theorem answers_of_post_transcribe (i : io) (file : UploadFile) (w : world) :
  (exists b, fst (post_transcribe i file w) = Ok200 b)
  \/ (exists order,
        order ≡ₚ ALLOWED_EXTENSIONS
        /\ fst (post_transcribe i file w)
           = ErrorDetail 400 ("Invalid file type. Allowed: " ++ PyStr.join ", " order))
  \/ fst (post_transcribe i file w) = ErrorDetail 400 "File too large. Max size: 100.0MB"
  \/ (exists e, fst (post_transcribe i file w)
                = ErrorDetail 500 ("Transcription failed: " ++ str_exn e))
  \/ (fst (post_transcribe i file w) = Unhandled (UnboundLocalError "temp_path")
      /\ create_fault i = None
      /\ (read_fault i <> None \/ write_fault i <> None)).
Proof.
  destruct (PyStr.mem (PyStr.lower (Path.suffix (filename file))) ALLOWED_EXTENSIONS) eqn:Hmem.
  2: { destruct (reject_invalid_type_detail i file w Hmem) as (order & Hperm & ->).
       right. left. by exists order. }
  destruct (Z.lt_ge_cases MAX_FILE_SIZE (Z.of_nat (length (data file)))) as [Hbig|Hsize].
  { rewrite (reject_too_large i file w Hmem Hbig). right. right. by left. }
  apply mem_elem_of in Hmem.
  destruct (post_transcribe_valid_cases i file w Hmem Hsize) as [H|[H|H]]; eauto 6.
Qed.

(** ** The 500 answers *)

(** The process after a staged request whose inference part raised [e] on
    the process [w2], the scratch file being unlinked. *)
Lemma staged_raise (i : io) (file : UploadFile) (w w2 : world) (fr2 : frame) (p : string)
    (e : exn) :
  valid_staging i file w p ->
  run_inference i file (Z.of_nat (length (data file)))
    (staged_world file p w, staged_frame file p) = (Raise e, (w2, fr2)) ->
  post_transcribe i file w =
  (ErrorDetail 500 ("Transcription failed: " ++ str_exn e),
   cleaned i p (add_log (ERROR ("Transcription error: " ++ str_exn e)) w2)).
Proof.
  intros Hv Hrun. rewrite (post_transcribe_staged i file w p Hv), Hrun. reflexivity.
Qed.

Lemma cleaned_staged (i : io) (file : UploadFile) (w : world) (p : string)
    (l : list log_record) :
  unlink_fault i = None -> files w !! p = None ->
  cleaned i p {| model := model w; files := <[p := data file]> (files w);
                 log := (log w ++ l)%list |}
  = {| model := model w; files := files w; log := (log w ++ l)%list |}.
Proof.
  intros Hu Hfresh. unfold cleaned. rewrite Hu. apply world_eq; cbn; try done.
  by rewrite delete_insert_eq, (delete_id _ _ Hfresh).
Qed.

(** X5.  When the scratch file cannot be created, the request is answered
    with 500 and the text of the exception, the error is logged, and nothing
    is left on disk: [temp_file] is still [None], so the [finally] clause
    does nothing. *)
Theorem create_failure_is_500 (i : io) (file : UploadFile) (w : world) (e : exn) :
  PyStr.lower (Path.suffix (filename file)) ∈ ALLOWED_EXTENSIONS ->
  Z.of_nat (length (data file)) <= MAX_FILE_SIZE ->
  create_fault i = Some e ->
  post_transcribe i file w =
  (ErrorDetail 500 ("Transcription failed: " ++ str_exn e),
   {| model := model w; files := files w;
      log := (log w ++ [ERROR ("Transcription error: " ++ str_exn e)])%list |}).
Proof.
  intros Hmem Hsize Hc. rewrite (create_fault_is_500 i file w e Hmem Hsize Hc). reflexivity.
Qed.

Lemma create_failure_is_500_witness :
  post_transcribe io_create_denied memo_upload hello_process =
  (ErrorDetail 500 "Transcription failed: [Errno 13] Permission denied: '/tmp/tmpk3v9x0qa.wav'",
   {| model := Some hello_model; files := ∅;
      log := [ERROR "Transcription error: [Errno 13] Permission denied: '/tmp/tmpk3v9x0qa.wav'"] |}).
Proof.
  apply (create_failure_is_500 io_create_denied memo_upload hello_process
           (PyErr "PermissionError" "[Errno 13] Permission denied: '/tmp/tmpk3v9x0qa.wav'")).
  - apply mem_elem_of. reflexivity.
  - vm_compute. discriminate.
  - reflexivity.
Defined.

(** X6.  A request that arrives while [model] is still [None] is not refused
    up front: the upload is staged, [model.transcribe] raises
    [AttributeError], the answer is 500 with that text, and the scratch file
    is unlinked. *)
Theorem unloaded_model_is_500 (i : io) (file : UploadFile) (w : world) (p : string) :
  valid_staging i file w p -> unlink_fault i = None -> model w = None ->
  post_transcribe i file w =
  (ErrorDetail 500 "Transcription failed: 'NoneType' object has no attribute 'transcribe'",
   {| model := None; files := files w;
      log := (log w ++ [INFO ("Processing file: " ++ filename file ++ " ("
                              ++ format_kb (Z.of_nat (length (data file))) ++ " KB)");
                        ERROR "Transcription error: 'NoneType' object has no attribute 'transcribe'"])%list |}).
Proof.
  intros Hv Hu Hm.
  pose proof (first_free_fresh _ _ _ _ (vs_name _ _ _ _ Hv)) as Hfresh.
  rewrite (staged_raise i file w
             (add_log (INFO ("Processing file: " ++ filename file ++ " ("
                             ++ format_kb (Z.of_nat (length (data file))) ++ " KB)"))
                (staged_world file p w))
             (staged_frame file p) p (AttributeError_None "transcribe") Hv).
  2: { rewrite (run_inference_eq i file _ (staged_world file p w) (staged_frame file p) p eq_refl).
       cbv zeta. cbn [model staged_world set_files]. rewrite Hm. reflexivity. }
  f_equal. unfold cleaned. rewrite Hu. apply world_eq.
  - cbn. exact Hm.
  - cbn. by rewrite delete_insert_eq, (delete_id _ _ Hfresh).
  - cbn. by rewrite <- app_assoc.
Qed.

Lemma unloaded_model_is_500_witness :
  post_transcribe (io_quiet ["k3v9x0qa"]) memo_upload (process_with None) =
  (ErrorDetail 500 "Transcription failed: 'NoneType' object has no attribute 'transcribe'",
   {| model := None; files := ∅;
      log := [INFO "Processing file: memo.wav (0.00 KB)";
              ERROR "Transcription error: 'NoneType' object has no attribute 'transcribe'"] |}).
Proof.
  apply (unloaded_model_is_500 (io_quiet ["k3v9x0qa"]) memo_upload (process_with None)
           "/tmp/tmpk3v9x0qa.wav").
  - split; try reflexivity.
    + apply mem_elem_of. reflexivity.
    + vm_compute. discriminate.
  - reflexivity.
  - reflexivity.
Defined.

(** X7.  When [model.transcribe] raises, the request is answered with 500
    and the text of the exception; the log gets the "Processing file" record
    and the error; the scratch file is unlinked, so the files are what they
    were before the request. *)
Theorem transcribe_exception_is_500 (i : io) (file : UploadFile) (w : world) (p : string)
    (m : WhisperModel) (e : exn) :
  valid_staging i file w p -> unlink_fault i = None -> model w = Some m ->
  transcribe m (<[p := data file]> (files w)) p 5 true 500 = Raise e ->
  post_transcribe i file w =
  (ErrorDetail 500 ("Transcription failed: " ++ str_exn e),
   {| model := Some m; files := files w;
      log := (log w ++ [INFO ("Processing file: " ++ filename file ++ " ("
                              ++ format_kb (Z.of_nat (length (data file))) ++ " KB)");
                        ERROR ("Transcription error: " ++ str_exn e)])%list |}).
Proof.
  intros Hv Hu Hm Ht.
  pose proof (first_free_fresh _ _ _ _ (vs_name _ _ _ _ Hv)) as Hfresh.
  rewrite (staged_raise i file w
             (add_log (INFO ("Processing file: " ++ filename file ++ " ("
                             ++ format_kb (Z.of_nat (length (data file))) ++ " KB)"))
                (staged_world file p w))
             (staged_frame file p) p e Hv).
  2: { rewrite (run_inference_eq i file _ (staged_world file p w) (staged_frame file p) p eq_refl).
       cbv zeta. cbn [model files staged_world set_files]. rewrite Hm, Ht. reflexivity. }
  f_equal. unfold cleaned. rewrite Hu. apply world_eq.
  - cbn. exact Hm.
  - cbn. by rewrite delete_insert_eq, (delete_id _ _ Hfresh).
  - cbn. by rewrite <- app_assoc.
Qed.

Lemma memo_staging_on (m : option WhisperModel) :
  valid_staging (io_quiet ["k3v9x0qa"]) memo_upload (process_with m) "/tmp/tmpk3v9x0qa.wav".
Proof.
  split; try reflexivity.
  - apply mem_elem_of. reflexivity.
  - vm_compute. discriminate.
Qed.

Lemma transcribe_exception_is_500_witness :
  post_transcribe (io_quiet ["k3v9x0qa"]) memo_upload (process_with (Some broken_model)) =
  (ErrorDetail 500 "Transcription failed: Invalid data found when processing input",
   {| model := Some broken_model; files := ∅;
      log := [INFO "Processing file: memo.wav (0.00 KB)";
              ERROR "Transcription error: Invalid data found when processing input"] |}).
Proof.
  apply (transcribe_exception_is_500 (io_quiet ["k3v9x0qa"]) memo_upload
           (process_with (Some broken_model)) "/tmp/tmpk3v9x0qa.wav" broken_model
           (PyErr "RuntimeError" "Invalid data found when processing input")
           (memo_staging_on _) eq_refl eq_refl eq_refl).
Defined.

Lemma segment_texts_yield_then (l : list Segment) (e : exn) :
  segment_texts (yield_then l (SegFail e)) = Raise e.
Proof. induction l as [|s l IH]; cbn; [done|]. by rewrite IH. Qed.

(** X8.  The segments are produced lazily.  When the stream raises after
    any number of segments, the segments already produced are dropped: the
    answer is 500 with the text of the exception, never a 200 with a partial
    transcription, and the scratch file is unlinked. *)
Theorem failing_stream_is_500 (i : io) (file : UploadFile) (w : world) (p : string)
    (m : WhisperModel) (produced : list Segment) (info : TranscriptionInfo) (e : exn) :
  valid_staging i file w p -> unlink_fault i = None -> model w = Some m ->
  transcribe m (<[p := data file]> (files w)) p 5 true 500
    = Return (yield_then produced (SegFail e), info) ->
  post_transcribe i file w =
  (ErrorDetail 500 ("Transcription failed: " ++ str_exn e),
   {| model := Some m; files := files w;
      log := (log w ++ [INFO ("Processing file: " ++ filename file ++ " ("
                              ++ format_kb (Z.of_nat (length (data file))) ++ " KB)");
                        ERROR ("Transcription error: " ++ str_exn e)])%list |}).
Proof.
  intros Hv Hu Hm Ht.
  pose proof (first_free_fresh _ _ _ _ (vs_name _ _ _ _ Hv)) as Hfresh.
  rewrite (staged_raise i file w
             (add_log (INFO ("Processing file: " ++ filename file ++ " ("
                             ++ format_kb (Z.of_nat (length (data file))) ++ " KB)"))
                (staged_world file p w))
             (staged_frame file p) p e Hv).
  2: { rewrite (run_inference_eq i file _ (staged_world file p w) (staged_frame file p) p eq_refl).
       cbv zeta. cbn [model files staged_world set_files]. rewrite Hm, Ht.
       cbn [fst]. rewrite segment_texts_yield_then. reflexivity. }
  f_equal. unfold cleaned. rewrite Hu. apply world_eq.
  - cbn. exact Hm.
  - cbn. by rewrite delete_insert_eq, (delete_id _ _ Hfresh).
  - cbn. by rewrite <- app_assoc.
Qed.

Lemma failing_stream_is_500_witness :
  post_transcribe (io_quiet ["k3v9x0qa"]) memo_upload (process_with (Some stalling_model)) =
  (ErrorDetail 500 "Transcription failed: CUDA out of memory",
   {| model := Some stalling_model; files := ∅;
      log := [INFO "Processing file: memo.wav (0.00 KB)";
              ERROR "Transcription error: CUDA out of memory"] |}).
Proof.
  apply (failing_stream_is_500 (io_quiet ["k3v9x0qa"]) memo_upload
           (process_with (Some stalling_model)) "/tmp/tmpk3v9x0qa.wav" stalling_model
           [{| text := " Hello" |}] hello_info (PyErr "RuntimeError" "CUDA out of memory")
           (memo_staging_on _) eq_refl eq_refl eq_refl).
Defined.

(** X9.  When closing the scratch file fails at the end of the [with]
    block, [temp_path] is already assigned: the answer is 500 with the text
    of the exception and the [finally] clause unlinks the file.  (Contrast a
    failure of the read or of the write, one statement earlier.) *)
Theorem close_failure_is_500_and_cleans_up (i : io) (file : UploadFile) (w : world)
    (p : string) (e : exn) :
  PyStr.lower (Path.suffix (filename file)) ∈ ALLOWED_EXTENSIONS ->
  Z.of_nat (length (data file)) <= MAX_FILE_SIZE ->
  create_fault i = None -> read_fault i = None -> write_fault i = None ->
  close_fault i = Some e -> unlink_fault i = None ->
  first_free (files w) (PyStr.lower (Path.suffix (filename file))) (tmp_candidates i) = Some p ->
  post_transcribe i file w =
  (ErrorDetail 500 ("Transcription failed: " ++ str_exn e),
   {| model := model w; files := files w;
      log := (log w ++ [ERROR ("Transcription error: " ++ str_exn e)])%list |}).
Proof.
  intros Hmem Hsize Hc Hr Hw Hcl Hu Hp.
  pose proof (first_free_fresh _ _ _ _ Hp) as Hfresh.
  rewrite (close_fault_is_500 i file w p e Hmem Hsize Hc Hr Hw Hcl Hp).
  f_equal. unfold cleaned. rewrite Hu. apply world_eq.
  - reflexivity.
  - cbn. by rewrite delete_insert_eq, (delete_id _ _ Hfresh).
  - reflexivity.
Qed.

Lemma close_failure_is_500_and_cleans_up_witness :
  post_transcribe io_close_error memo_upload hello_process =
  (ErrorDetail 500 "Transcription failed: [Errno 28] No space left on device",
   {| model := Some hello_model; files := ∅;
      log := [ERROR "Transcription error: [Errno 28] No space left on device"] |}).
Proof.
  apply (close_failure_is_500_and_cleans_up io_close_error memo_upload hello_process
           "/tmp/tmpk3v9x0qa.wav" (PyErr "OSError" "[Errno 28] No space left on device")).
  - apply mem_elem_of. reflexivity.
  - vm_compute. discriminate.
  - reflexivity.
  - reflexivity.
  - reflexivity.
  - reflexivity.
  - reflexivity.
  - reflexivity.
Defined.

Lemma valid_staging_with_unlink (u : option exn) (i : io) (file : UploadFile) (w : world)
    (p : string) :
  valid_staging i file w p -> valid_staging (with_unlink u i) file w p.
Proof. intros [? ? ? ? ? ? ?]. by split. Qed.

(** X10.  A failure of [os.unlink] in the [finally] clause changes nothing
    in the answer: the response is the one the same request gets when
    unlinking works.  The failure is logged as one warning after everything
    else, and the scratch file stays on disk with the bytes of the upload. *)
Theorem unlink_failure_is_only_logged (i : io) (file : UploadFile) (w : world) (p : string)
    (e : exn) :
  valid_staging i file w p -> unlink_fault i = Some e ->
  fst (post_transcribe i file w) = fst (post_transcribe (with_unlink None i) file w)
  /\ log (snd (post_transcribe i file w))
     = (log (snd (post_transcribe (with_unlink None i) file w))
        ++ [WARNING ("Failed to delete temp file: " ++ str_exn e)])%list
  /\ files (snd (post_transcribe i file w)) = <[p := data file]> (files w)
  /\ files (snd (post_transcribe (with_unlink None i) file w)) = files w.
Proof.
  intros Hv Hu.
  pose proof (valid_staging_with_unlink None i file w p Hv) as Hv'.
  pose proof (first_free_fresh _ _ _ _ (vs_name _ _ _ _ Hv)) as Hfresh.
  rewrite (post_transcribe_staged i file w p Hv).
  rewrite (post_transcribe_staged (with_unlink None i) file w p Hv').
  pose proof (run_inference_preserves i file (Z.of_nat (length (data file)))
                (staged_world file p w) (staged_frame file p) p eq_refl) as (Hf & _ & _).
  destruct (run_inference _ _ _ _) as [[b|e'] [w2 fr2]]; cbn [fst snd] in *.
  all: unfold cleaned; rewrite Hu; cbn [unlink_fault with_unlink log files add_log set_files].
  all: rewrite Hf; cbn [files staged_world set_files].
  all: rewrite delete_insert_eq, (delete_id _ _ Hfresh); by repeat split.
Qed.

Lemma unlink_failure_is_only_logged_witness :
  fst (post_transcribe io_unlink_denied memo_upload hello_process) = Ok200 hello_body
  /\ files (snd (post_transcribe io_unlink_denied memo_upload hello_process))
     = <[ "/tmp/tmpk3v9x0qa.wav" := data memo_upload ]> (files hello_process).
Proof.
  destruct (unlink_failure_is_only_logged io_unlink_denied memo_upload hello_process
              "/tmp/tmpk3v9x0qa.wav"
              (PyErr "PermissionError"
                 "[Errno 1] Operation not permitted: '/tmp/tmpk3v9x0qa.wav'"))
    as (H1 & _ & H3 & _).
  - split; try reflexivity.
    + apply mem_elem_of. reflexivity.
    + vm_compute. discriminate.
  - reflexivity.
  - split; [|exact H3]. rewrite H1. vm_compute. reflexivity.
Defined.

(** X11.  Every 500 answer has its trace in the log: the detail is
    "Transcription failed: " followed by some text, and the request appended
    the ERROR record "Transcription error: " followed by the same text. *)
Theorem error_500_is_logged_with_its_text (i : io) (file : UploadFile) (w : world)
    (d : string) :
  fst (post_transcribe i file w) = ErrorDetail 500 d ->
  exists t l,
    d = "Transcription failed: " ++ t
    /\ log (snd (post_transcribe i file w)) = (log w ++ l)%list
    /\ ERROR ("Transcription error: " ++ t) ∈ l.
Proof.
  destruct (PyStr.mem (PyStr.lower (Path.suffix (filename file))) ALLOWED_EXTENSIONS) eqn:Hmem.
  2: { rewrite (reject_invalid_type i file w Hmem). discriminate. }
  destruct (Z.lt_ge_cases MAX_FILE_SIZE (Z.of_nat (length (data file)))) as [Hbig|Hsize].
  { rewrite (reject_too_large i file w Hmem Hbig). discriminate. }
  apply mem_elem_of in Hmem.
  destruct (create_fault i) as [e|] eqn:Hc.
  { rewrite (create_fault_is_500 i file w e Hmem Hsize Hc). cbn [fst snd].
    intros [= <-]. exists (str_exn e), [ERROR ("Transcription error: " ++ str_exn e)].
    repeat split. by apply list_elem_of_singleton. }
  destruct (first_free (files w) (PyStr.lower (Path.suffix (filename file)))
              (tmp_candidates i)) as [p|] eqn:Hp.
  2: { rewrite (no_name_is_500 i file w Hmem Hsize Hc Hp). cbn [fst snd].
       intros [= <-]. exists (str_exn FileExistsError_tmp),
         [ERROR ("Transcription error: " ++ str_exn FileExistsError_tmp)].
       repeat split. by apply list_elem_of_singleton. }
  assert (Hfault : read_fault i <> None \/ write_fault i <> None ->
            fst (post_transcribe i file w) <> ErrorDetail 500 d).
  { intros Hrw. destruct (staging_fault_unhandled i file w p Hmem Hsize Hc Hp Hrw) as [e ->].
    discriminate. }
  destruct (read_fault i) as [er|] eqn:Hr; [intros H; destruct Hfault; [by left|done]|].
  destruct (write_fault i) as [ew|] eqn:Hw; [intros H; destruct Hfault; [by right|done]|].
  clear Hfault.
  destruct (close_fault i) as [ec|] eqn:Hcl.
  { rewrite (close_fault_is_500 i file w p ec Hmem Hsize Hc Hr Hw Hcl Hp). cbn [fst snd].
    intros [= <-].
    destruct (cleaned_log i p (add_log (ERROR ("Transcription error: " ++ str_exn ec))
                                 (unflushed_world i file p w))) as [l ->].
    exists (str_exn ec), (ERROR ("Transcription error: " ++ str_exn ec) :: l).
    repeat split.
    - cbn [log add_log unflushed_world set_files]. by rewrite <- app_assoc.
    - by left. }
  assert (Hv : valid_staging i file w p) by (by split).
  rewrite (post_transcribe_staged i file w p Hv).
  destruct (run_inference_log i file (Z.of_nat (length (data file)))
              (staged_world file p w) (staged_frame file p) p eq_refl) as [l1 Hl].
  destruct (run_inference _ _ _ _) as [[b|e] [w2 fr2]]; cbn [fst snd] in *; [discriminate|].
  intros [= <-].
  destruct (cleaned_log i p (add_log (ERROR ("Transcription error: " ++ str_exn e)) w2))
    as [l2 ->].
  exists (str_exn e), (l1 ++ ERROR ("Transcription error: " ++ str_exn e) :: l2)%list.
  repeat split.
  - cbn [log add_log]. rewrite Hl. cbn [log staged_world set_files].
    rewrite <- !app_assoc. reflexivity.
  - apply elem_of_app. right. by left.
Qed.

Lemma error_500_is_logged_with_its_text_witness :
  exists t l,
    "Transcription failed: Invalid data found when processing input"
      = "Transcription failed: " ++ t
    /\ log (snd (post_transcribe (io_quiet ["k3v9x0qa"]) memo_upload
                   (process_with (Some broken_model))))
       = (log (process_with (Some broken_model)) ++ l)%list
    /\ ERROR ("Transcription error: " ++ t) ∈ l.
Proof.
  apply (error_500_is_logged_with_its_text (io_quiet ["k3v9x0qa"]) memo_upload
           (process_with (Some broken_model))).
  vm_compute. reflexivity.
Defined.

(** ** The text of the transcription *)

(** X12.  The transcription of a 200 answer is the joined text trimmed and
    nothing more.  The engine's stream yielded some segments and stopped;
    their texts joined by one space are a run of white space, the
    transcription, and another run of white space; the transcription neither
    starts nor ends with white space; and when the joined text has no white
    space at either end, the transcription is exactly the joined text (white
    space inside is kept as the engine gave it). *)
Theorem transcription_is_trimmed (i : io) (file : UploadFile) (w w' : world)
    (b : TranscriptionBody) :
  post_transcribe i file w = (Ok200 b, w') ->
  exists p m segs info lead trail,
    model w = Some m
    /\ transcribe m (<[p := data file]> (files w)) p 5 true 500
       = Return (yield_then segs SegStop, info)
    /\ String.concat " " (map text segs) = lead ++ transcription b ++ trail
    /\ all_space lead = true /\ all_space trail = true
    /\ starts_with_space (transcription b) = false
    /\ ends_with_space (transcription b) = false
    /\ (starts_with_space (String.concat " " (map text segs)) = false ->
        ends_with_space (String.concat " " (map text segs)) = false ->
        transcription b = String.concat " " (map text segs)).
Proof.
  intros Hok.
  destruct (transcribe_success_inv i file w w' b Hok)
    as (p & m & [g info] & texts & _ & Hm & Ht & Hs & ->).
  cbn [fst snd] in *.
  destruct (segment_texts_return_inv g texts Hs) as (segs & -> & ->).
  destruct (strip_trimmed (PyStr.join " " (map text segs)))
    as (lead & trail & Hsplit & Hlead & Htrail & Hstart & Hend).
  exists p, m, segs, info, lead, trail. cbn [transcription].
  repeat split; try done.
  intros H1 H2. unfold PyStr.strip.
  change (String.concat " " (map text segs)) with (PyStr.join " " (map text segs)) in *.
  rewrite (lstrip_fixed _ H1). by apply rstrip_fixed.
Qed.

Lemma transcription_is_trimmed_witness :
  exists p m segs info lead trail,
    model (process_with (Some (model_returning [{| text := " Hello" |}; {| text := " world " |}]
                                 hello_info))) = Some m
    /\ transcribe m (<[p := data memo_upload]>
                       (files (process_with
                                 (Some (model_returning
                                          [{| text := " Hello" |}; {| text := " world " |}]
                                          hello_info)))))
         p 5 true 500
       = Return (yield_then segs SegStop, info)
    /\ String.concat " " (map text segs) = lead ++ "Hello  world" ++ trail
    /\ all_space lead = true /\ all_space trail = true
    /\ starts_with_space "Hello  world" = false
    /\ ends_with_space "Hello  world" = false
    /\ (starts_with_space (String.concat " " (map text segs)) = false ->
        ends_with_space (String.concat " " (map text segs)) = false ->
        "Hello  world" = String.concat " " (map text segs)).
Proof.
  apply (transcription_is_trimmed (io_quiet ["k3v9x0qa"]) memo_upload
           (process_with (Some (model_returning [{| text := " Hello" |}; {| text := " world " |}]
                                  hello_info)))
           (snd (post_transcribe (io_quiet ["k3v9x0qa"]) memo_upload
                   (process_with (Some (model_returning
                                          [{| text := " Hello" |}; {| text := " world " |}]
                                          hello_info)))))
           {| transcription := "Hello  world"; language_detected := "en";
              duration_seconds := S754_finite false 7791227355350958 (-51) |}).
  vm_compute. reflexivity.
Defined.

Lemma lstrip_all_space (s : string) : all_space s = true -> PyStr.lstrip s = "".
Proof.
  induction s as [|c r IH]; [reflexivity|]. cbn [all_space PyStr.lstrip].
  intros [Hc Hr]%andb_true_iff. rewrite Hc. by apply IH.
Qed.

Lemma all_space_app (a b : string) :
  all_space a = true -> all_space b = true -> all_space (a ++ b) = true.
Proof.
  induction a as [|c r IH]; [done|]. intros H Hb.
  cbn [all_space] in H. apply andb_true_iff in H as [Hc Hr].
  change (all_space (String c r ++ b)) with (PyStr.isspace c && all_space (r ++ b)).
  rewrite Hc. by apply IH.
Qed.

Lemma all_space_join (texts : list string) :
  forallb all_space texts = true -> all_space (PyStr.join " " texts) = true.
Proof.
  unfold PyStr.join. induction texts as [|t ts IH]; [reflexivity|].
  cbn [forallb]. intros [Ht Hts]%andb_true_iff.
  destruct ts as [|t' ts']; [exact Ht|].
  change (String.concat " " (t :: t' :: ts'))
    with (t ++ " " ++ String.concat " " (t' :: ts')).
  apply all_space_app; [exact Ht|]. apply all_space_app; [reflexivity|]. by apply IH.
Qed.

(** X13.  When the engine produces no segment, or only segments of white
    space, the request still succeeds: the answer is 200 with the empty
    string as transcription, beside the language and the rounded duration. *)
Theorem no_speech_is_200_with_empty_transcription (i : io) (file : UploadFile) (w : world)
    (p : string) (m : WhisperModel) (r : segment_stream * TranscriptionInfo)
    (texts : list string) :
  valid_staging i file w p -> model w = Some m ->
  transcribe m (<[p := data file]> (files w)) p 5 true 500 = Return r ->
  segment_texts (fst r) = Return texts ->
  forallb all_space texts = true ->
  PyFloat.isfinite (PyFloat.round2 (duration (snd r))) = true ->
  fst (post_transcribe i file w) =
  Ok200 {| transcription := "";
           language_detected := language (snd r);
           duration_seconds := PyFloat.round2 (duration (snd r)) |}.
Proof.
  intros Hv Hm Ht Hs Hall Hf.
  rewrite (transcribe_success i file w p m r texts Hv Hm Ht Hs Hf).
  unfold PyStr.strip. by rewrite (lstrip_all_space _ (all_space_join _ Hall)).
Qed.

Lemma no_speech_is_200_with_empty_transcription_witness :
  fst (post_transcribe (io_quiet ["k3v9x0qa"]) memo_upload
         (process_with (Some (model_returning [] hello_info))))
  = Ok200 {| transcription := ""; language_detected := "en";
             duration_seconds := PyFloat.of_ratio false 346 100 |}
  /\ fst (post_transcribe (io_quiet ["k3v9x0qa"]) memo_upload
            (process_with (Some (model_returning [{| text := " " |}; {| text := "" |}]
                                   hello_info))))
     = Ok200 {| transcription := ""; language_detected := "en";
                duration_seconds := PyFloat.of_ratio false 346 100 |}.
Proof.
  split.
  - apply (no_speech_is_200_with_empty_transcription (io_quiet ["k3v9x0qa"]) memo_upload
             (process_with (Some (model_returning [] hello_info)))
             "/tmp/tmpk3v9x0qa.wav" (model_returning [] hello_info)
             (SegStop, hello_info) []
             (memo_staging_on _) eq_refl eq_refl eq_refl eq_refl eq_refl).
  - apply (no_speech_is_200_with_empty_transcription (io_quiet ["k3v9x0qa"]) memo_upload
             (process_with (Some (model_returning [{| text := " " |}; {| text := "" |}]
                                    hello_info)))
             "/tmp/tmpk3v9x0qa.wav"
             (model_returning [{| text := " " |}; {| text := "" |}] hello_info)
             (yield_then [{| text := " " |}; {| text := "" |}] SegStop, hello_info)
             [" "; ""]
             (memo_staging_on _) eq_refl eq_refl eq_refl eq_refl eq_refl).
Defined.

(** ** Letter case in the extension *)











(** ** Start-up, and requests after it *)

(** X15.  With the name [torch] bound, [load_model] announces the model
    size, the device in capitals and the precision, then calls the
    constructor once with ["large-v3"], the device, the precision and
    ["./models"]: ["cuda"] with ["float16"] when an accelerator is available,
    ["cpu"] with ["int8"] otherwise.  When the constructor returns, [model]
    holds its result and the success is logged; when it raises, [model] is
    untouched, the failure is logged with its text, and the same exception
    leaves [load_model]. *)
Theorem load_model_builds_engine_for_device (h : host) (w : world) :
  "torch" ∈ names h ->
  load_model h w =
  let device := if cuda_is_available h then "cuda" else "cpu" in
  let compute_type := if cuda_is_available h then "float16" else "int8" in
  let announcements :=
    [INFO "Loading Whisper model: large-v3";
     INFO (if cuda_is_available h then "Device: CUDA" else "Device: CPU");
     INFO ("Compute type: " ++ compute_type)] in
  match new_WhisperModel h "large-v3" device compute_type "./models" with
  | Return m =>
      (Return tt,
       {| model := Some m; files := files w;
          log := (log w ++ announcements ++ [INFO "Model loaded successfully"])%list |})
  | Raise e =>
      (Raise e,
       {| model := model w; files := files w;
          log := (log w ++ announcements
                  ++ [ERROR ("Failed to load model: " ++ str_exn e)])%list |})
  end.
Proof.
  intros Hb. rewrite (load_model_bound h w Hb). cbv zeta.
  destruct (cuda_is_available h) eqn:Hcuda;
    cbn [select_device select_compute_type String.eqb Ascii.eqb Bool.eqb];
    destruct (new_WhisperModel h _ _ _ _) as [m|e];
    unfold announced; rewrite Hcuda; f_equal; apply world_eq; cbn; try done;
    by rewrite <- !app_assoc.
Qed.

Lemma torch_in_torch_host (cuda : bool)
    (ctor : string -> string -> string -> string -> outcome WhisperModel) :
  "torch" ∈ names (torch_host cuda ctor).
Proof. cbn [names torch_host]. apply elem_of_union_l. by apply elem_of_singleton. Qed.

Lemma load_model_builds_engine_for_device_witness :
  load_model (torch_host true ctor_hello) idle_world =
  (Return tt,
   {| model := Some hello_model; files := ∅;
      log := [INFO "Loading Whisper model: large-v3"; INFO "Device: CUDA";
              INFO "Compute type: float16"; INFO "Model loaded successfully"] |})
  /\ load_model (torch_host false ctor_out_of_memory) idle_world =
     (Raise (PyErr "RuntimeError" "CUDA failed with error out of memory"),
      {| model := None; files := ∅;
         log := [INFO "Loading Whisper model: large-v3"; INFO "Device: CPU";
                 INFO "Compute type: int8";
                 ERROR "Failed to load model: CUDA failed with error out of memory"] |}).
Proof.
  split.
  - exact (load_model_builds_engine_for_device (torch_host true ctor_hello) idle_world
             (torch_in_torch_host _ _)).
  - exact (load_model_builds_engine_for_device (torch_host false ctor_out_of_memory) idle_world
             (torch_in_torch_host _ _)).
Defined.

(** X16.  The start-up and the handler meet in the global [model]: when the
    server accepts requests after its start-up, a valid upload is transcribed
    by the engine the constructor returned at start-up, called on the scratch
    file with beam size 5, the voice filter on and 500 ms of silence. *)
Theorem request_after_startup_uses_built_engine (h : host) (w : world) (i : io)
    (file : UploadFile) (p : string) :
  accepts_requests (fst (startup h w)) = true ->
  valid_staging i file w p ->
  exists m,
    new_WhisperModel h MODEL_SIZE (select_device (cuda_is_available h))
      (select_compute_type (select_device (cuda_is_available h))) "./models" = Return m
    /\ forall r texts,
         transcribe m (<[p := data file]> (files w)) p 5 true 500 = Return r ->
         segment_texts (fst r) = Return texts ->
         PyFloat.isfinite (PyFloat.round2 (duration (snd r))) = true ->
         fst (post_transcribe i file (snd (startup h w))) =
         Ok200 {| transcription := PyStr.strip (PyStr.join " " texts);
                  language_detected := language (snd r);
                  duration_seconds := PyFloat.round2 (duration (snd r)) |}.
Proof.
  unfold startup, lifespan_startup. intros Hacc Hv.
  destruct (decide ("torch" ∈ names h)) as [Hb|Hn].
  2: { rewrite (load_model_unbound h w Hn) in Hacc. discriminate Hacc. }
  rewrite (load_model_bound h w Hb) in *.
  destruct (new_WhisperModel h _ _ _ _) as [m|e0]; [|discriminate Hacc].
  exists m. split; [reflexivity|]. intros r texts Ht Hs Hf. cbn [snd].
  apply (transcribe_success i file _ p m r texts); try done.
  apply (valid_staging_files i file w); [reflexivity|exact Hv].
Qed.

Lemma idle_staging : valid_staging (io_quiet ["k3v9x0qa"]) memo_upload idle_world
                       "/tmp/tmpk3v9x0qa.wav".
Proof.
  split; try reflexivity.
  - apply mem_elem_of. reflexivity.
  - vm_compute. discriminate.
Qed.

Lemma request_after_startup_uses_built_engine_witness :
  fst (post_transcribe (io_quiet ["k3v9x0qa"]) memo_upload
         (snd (startup (torch_host false ctor_hello) idle_world)))
  = Ok200 hello_body.
Proof.
  destruct (request_after_startup_uses_built_engine (torch_host false ctor_hello) idle_world
              (io_quiet ["k3v9x0qa"]) memo_upload "/tmp/tmpk3v9x0qa.wav")
    as (m & Hm & Hrun).
  - vm_compute. reflexivity.
  - exact idle_staging.
  - injection Hm as <-.
    exact (Hrun (hello_stream, hello_info) ["Hello"; "world"] eq_refl eq_refl eq_refl).
Defined.

(** ** The successful request as a whole *)

(** X17.  A request that succeeds and whose scratch file is unlinked leaves
    one trace only: two INFO records, the first with the filename and the
    size of the upload in KB to two places, the second with the detected
    language.  The files and [model] are what they were. *)
Theorem success_leaves_two_log_records (i : io) (file : UploadFile) (w : world) (p : string)
    (m : WhisperModel) (r : segment_stream * TranscriptionInfo) (texts : list string) :
  valid_staging i file w p -> unlink_fault i = None -> model w = Some m ->
  transcribe m (<[p := data file]> (files w)) p 5 true 500 = Return r ->
  segment_texts (fst r) = Return texts ->
  PyFloat.isfinite (PyFloat.round2 (duration (snd r))) = true ->
  snd (post_transcribe i file w) =
  {| model := Some m; files := files w;
     log := (log w ++ [INFO ("Processing file: " ++ filename file ++ " ("
                             ++ format_kb (Z.of_nat (length (data file))) ++ " KB)");
                       INFO ("Transcription completed. Language: " ++ language (snd r))])%list |}.
Proof.
  intros Hv Hu Hm Ht Hs Hf.
  pose proof (first_free_fresh _ _ _ _ (vs_name _ _ _ _ Hv)) as Hfresh.
  rewrite (post_transcribe_staged i file w p Hv).
  rewrite (run_inference_eq i file _ (staged_world file p w) (staged_frame file p) p eq_refl).
  cbv zeta. cbn [model files staged_world set_files]. rewrite Hm, Ht, Hs.
  unfold JSONResponse. cbn [duration_seconds]. rewrite Hf. cbn [fst snd].
  unfold cleaned. rewrite Hu. apply world_eq.
  - cbn. exact Hm.
  - cbn. by rewrite delete_insert_eq, (delete_id _ _ Hfresh).
  - cbn. by rewrite <- app_assoc.
Qed.

Lemma success_leaves_two_log_records_witness :
  snd (post_transcribe (io_quiet ["k3v9x0qa"])
         {| filename := "memo.wav"; data := replicate 1536 x00 |} hello_process) =
  {| model := Some hello_model; files := ∅;
     log := [INFO "Processing file: memo.wav (1.50 KB)";
             INFO "Transcription completed. Language: en"] |}.
Proof.
  apply (success_leaves_two_log_records (io_quiet ["k3v9x0qa"])
           {| filename := "memo.wav"; data := replicate 1536 x00 |} hello_process
           "/tmp/tmpk3v9x0qa.wav" hello_model (hello_stream, hello_info) ["Hello"; "world"]).
  - split; try reflexivity.
    + apply mem_elem_of. reflexivity.
    + vm_compute. discriminate.
  - reflexivity.
  - reflexivity.
  - reflexivity.
  - reflexivity.
  - reflexivity.
Defined.

(** X18.  A duration that is not finite (NaN or an infinity) is left as it
    is by [round(.., 2)], and [JSONResponse] refuses to render it: inside the
    [try] block this is one more exception, so the answer is 500, not a 200;
    its detail starts with "Transcription failed: Out of range float values
    are not JSON compliant" (what follows depends on the [json] encoder), and
    the scratch file is unlinked. *)
Theorem non_finite_duration_is_500 (i : io) (file : UploadFile) (w : world) (p : string)
    (m : WhisperModel) (r : segment_stream * TranscriptionInfo) (texts : list string) :
  valid_staging i file w p -> unlink_fault i = None -> model w = Some m ->
  transcribe m (<[p := data file]> (files w)) p 5 true 500 = Return r ->
  segment_texts (fst r) = Return texts ->
  PyFloat.isfinite (duration (snd r)) = false ->
  (exists rest,
      fst (post_transcribe i file w) =
      ErrorDetail 500 ("Transcription failed: Out of range float values are not JSON compliant"
                       ++ rest))
  /\ files (snd (post_transcribe i file w)) = files w.
Proof.
  intros Hv Hu Hm Ht Hs Hf.
  pose proof (first_free_fresh _ _ _ _ (vs_name _ _ _ _ Hv)) as Hfresh.
  assert (Hround : PyFloat.round2 (duration (snd r)) = duration (snd r)).
  { destruct (duration (snd r)); try reflexivity. discriminate Hf. }
  rewrite (post_transcribe_staged i file w p Hv).
  rewrite (run_inference_eq i file _ (staged_world file p w) (staged_frame file p) p eq_refl).
  cbv zeta. cbn [model files staged_world set_files]. rewrite Hm, Ht, Hs.
  unfold JSONResponse. cbn [duration_seconds]. rewrite Hround, Hf. cbn [fst snd].
  split.
  - eexists. cbn [str_exn]. reflexivity.
  - unfold cleaned. rewrite Hu. cbn.
    by rewrite delete_insert_eq, (delete_id _ _ Hfresh).
Qed.

Lemma non_finite_duration_is_500_witness :
  ((exists rest,
       fst (post_transcribe (io_quiet ["k3v9x0qa"]) memo_upload (process_with (Some nan_model))) =
       ErrorDetail 500 ("Transcription failed: Out of range float values are not JSON compliant"
                        ++ rest))
   /\ files (snd (post_transcribe (io_quiet ["k3v9x0qa"]) memo_upload
                    (process_with (Some nan_model)))) = ∅)
  /\ fst (post_transcribe (io_quiet ["k3v9x0qa"]) memo_upload (process_with (Some nan_model))) =
     ErrorDetail 500 "Transcription failed: Out of range float values are not JSON compliant".
Proof.
  split; [|vm_compute; reflexivity].
  apply (non_finite_duration_is_500 (io_quiet ["k3v9x0qa"]) memo_upload
           (process_with (Some nan_model)) "/tmp/tmpk3v9x0qa.wav" nan_model
           (hello_stream, {| language := "en"; duration := S754_nan |}) ["Hello"; "world"]
           (memo_staging_on _) eq_refl eq_refl eq_refl eq_refl eq_refl).
Defined.

(** X19.  The handler measures and stages the whole upload wherever the
    position of [file.file] is when it is called: it seeks to the end, reads
    the position as the size, and seeks back to the start before it reads.
    The result and the process afterwards do not depend on the position the
    file object came with.  (Only a filename refused for its extension leaves
    the position where it was: that check comes before the seeks.) *)
Theorem upload_position_does_not_matter (i : io) (file : UploadFile) (w : world) (pos : Z) :
  fst (transcribe_audio i file (w, {| file_pos := pos; temp_file := None; temp_path := None |}))
  = fst (transcribe_audio i file (w, new_frame))
  /\ fst (snd (transcribe_audio i file
                 (w, {| file_pos := pos; temp_file := None; temp_path := None |})))
     = fst (snd (transcribe_audio i file (w, new_frame)))
  /\ (PyStr.lower (Path.suffix (filename file)) ∈ ALLOWED_EXTENSIONS ->
      transcribe_audio i file (w, {| file_pos := pos; temp_file := None; temp_path := None |})
      = transcribe_audio i file (w, new_frame)).
Proof.
  rewrite !transcribe_audio_eq. cbv zeta.
  destruct (PyStr.mem (PyStr.lower (Path.suffix (filename file))) ALLOWED_EXTENSIONS) eqn:Hmem;
    cbn [negb].
  - repeat split.
  - repeat split. intros Hin. apply mem_elem_of in Hin. congruence.
Qed.
